(** * dnfdaemon.server: the session wrapper around the dnf library

    A shallow embedding of [python/dnfdaemon/server/__init__.py]
    (class [DnfDaemonBase] and its helpers) together with the properties
    of its package ids, transaction listing, transaction execution,
    history queries, configuration handling and watchdog.

    Conventions of the embedding:
    - the daemon object is a record [daemon] that every method threads
      explicitly; a method returns the new daemon and its Python result;
    - a Python exception is a value of [exn]; a method that can raise
      returns a [result];
    - Python dictionaries keyed by strings are [gmap string _], except
      where iteration order is observable (association lists);
    - the wrapped dnf/hawkey library is data ([dnf_base], [sack], ...)
      and, where it computes, a [Variable] of a Section;
    - calls to [logger.debug] and friends have no effect on the daemon
      and are left out. *)

From Stdlib Require Import ZArith List String Ascii Bool Lia.
From Stdlib Require Import DecimalString DecimalZ Sorted Permutation.
From stdpp Require Import base option list gmap strings fin_maps.

Import ListNotations.
Set Warnings "-register-all".
Local Open Scope string_scope.
Local Open Scope Z_scope.

(* ===================================================================== *)
(** ** Python values, exceptions and string primitives                   *)
(* ===================================================================== *)

(** The Python values that cross the D-Bus boundary. [PFloat z] is the
    float [float(z)] of the integer [z]; lists and tuples are kept apart
    although [json.dumps] prints both as arrays. *)
Inductive pyval : Type :=
| PNone
| PBool (b : bool)
| PInt (z : Z)
| PFloat (z : Z)
| PStr (s : string)
| PList (l : list pyval)
| PTuple (l : list pyval)
| PDict (d : list (string * pyval)).

(** Exceptions, by the classes the [except] clauses of the module tell
    apart. [DownloadError] derives from [dnf.exceptions.Error];
    [GPGError] (declared in this module) derives from [Exception] only. *)
Inductive exn : Type :=
| DownloadError (errmap : option (list (string * list string))) (text : string)
| Error (text : string)
| GPGError (text : string)
| ValueError (text : string)
| TypeError (text : string)
| KeyError (text : string)
| AttributeError (text : string).

(** [isinstance(e, dnf.exceptions.Error)] *)
Definition is_dnf_Error (e : exn) : bool :=
  match e with
  | DownloadError _ _ | Error _ => true
  | _ => false
  end.

(** [str(e)] *)
Definition exn_str (e : exn) : string :=
  match e with
  | DownloadError _ t | Error t | GPGError t
  | ValueError t | TypeError t | KeyError t | AttributeError t => t
  end.

Inductive result (A : Type) : Type :=
| Ok (a : A)
| Raise (e : exn).
Arguments Ok {A} a.
Arguments Raise {A} e.

Module Py.

Definition comma : ascii := ","%char.

(** [sep.join(l)] for a one-character separator *)
Fixpoint join (sep : ascii) (l : list string) : string :=
  match l with
  | [] => EmptyString
  | [x] => x
  | x :: rest => x ++ String sep (join sep rest)
  end.

(** [s.split(sep)] for a one-character separator: the empty string
    splits into one empty field *)
Fixpoint split (sep : ascii) (s : string) : list string :=
  match s with
  | EmptyString => [EmptyString]
  | String c rest =>
      if Ascii.eqb c sep then EmptyString :: split sep rest
      else match split sep rest with
           | [] => [String c EmptyString]
           | w :: ws => String c w :: ws
           end
  end.

(** [c in s] for a character *)
Fixpoint contains (c : ascii) (s : string) : bool :=
  match s with
  | EmptyString => false
  | String d rest => Ascii.eqb d c || contains c rest
  end.

(** [s.startswith(c)] for a one-character prefix *)
Definition startswith (c : ascii) (s : string) : bool :=
  match s with
  | String d _ => Ascii.eqb d c
  | EmptyString => false
  end.

(** [str(z)] of an integer *)
Definition str_int (z : Z) : string := NilZero.string_of_int (Z.to_int z).

(** [x in l] for a list of strings *)
Definition in_list (x : string) (l : list string) : bool :=
  existsb (String.eqb x) l.

(** [s.startswith(p)] for a prefix of any length *)
Fixpoint has_prefix (p s : string) : bool :=
  match p, s with
  | EmptyString, _ => true
  | String a p', String b s' => Ascii.eqb a b && has_prefix p' s'
  | String _ _, EmptyString => false
  end.

(** [p in s] for strings *)
Fixpoint has_substring (p s : string) : bool :=
  has_prefix p s
  || match s with
     | EmptyString => false
     | String _ s' => has_substring p s'
     end.

(** [d[k] = v] on a dictionary kept in insertion order *)
Fixpoint dict_set {V} (k : string) (v : V) (d : list (string * V))
  : list (string * V) :=
  match d with
  | [] => [(k, v)]
  | (k', v') :: rest =>
      if String.eqb k' k then (k', v) :: rest
      else (k', v') :: dict_set k v rest
  end.

(** [d[k]] on a dictionary kept in insertion order *)
Fixpoint dict_get {V} (d : list (string * V)) (k : string) : option V :=
  match d with
  | [] => None
  | (k', v') :: rest => if String.eqb k' k then Some v' else dict_get rest k
  end.

(** [s.endswith(p)] *)
Fixpoint endswith (p s : string) : bool :=
  String.eqb p s
  || match s with
     | EmptyString => false
     | String _ s' => endswith p s'
     end.

(** [s.split(sep)] for a separator of one character or more. [skip]
    counts the characters of a separator just met that are still to be
    passed over. *)
Fixpoint split_str_from (sep : string) (skip : nat) (s : string)
  : list string :=
  match s with
  | EmptyString => [EmptyString]
  | String c rest =>
      match skip with
      | S k => split_str_from sep k rest
      | O =>
          if has_prefix sep s
          then EmptyString :: split_str_from sep (String.length sep - 1) rest
          else match split_str_from sep 0 rest with
               | [] => [String c EmptyString]
               | w :: ws => String c w :: ws
               end
      end
  end.

Definition split_str (sep s : string) : list string :=
  split_str_from sep 0 s.

(** truth value of a string *)
Definition truthy_str (s : string) : bool :=
  match s with EmptyString => false | _ => true end.

End Py.

(* ===================================================================== *)
(** ** The wrapped library's data                                        *)
(* ===================================================================== *)

(** What [getattr] gives for an attribute of a package, and the lists
    built from such values: a value [json.dumps] prints, a list, or
    another object (a bound method, a class, an object of the library),
    on which [json.dumps] raises [TypeError]. *)
Inductive pyobj : Type :=
| Jsonable (v : pyval)
| ListOf (l : list pyobj)
| Opaque.

(** the JSON value of an object, when [json.dumps] can print it *)
Fixpoint to_json (o : pyobj) : option pyval :=
  match o with
  | Jsonable v => Some v
  | ListOf l =>
      option_map PList
        ((fix all (l : list pyobj) : option (list pyval) :=
            match l with
            | [] => Some []
            | x :: rest =>
                match to_json x, all rest with
                | Some v, Some vs => Some (v :: vs)
                | _, _ => None
                end
            end) l)
  | Opaque => None
  end.

(** A hawkey package: the attributes this module reads by name
    ([requires] holds [str(req)] of each requirement and [files] the
    file names), and in [pkg_attrs] the further attributes that the
    library gives the object ([summary], [description], [__doc__],
    further methods, ...), each with its value (for
    [hasattr]/[getattr]). *)
Record package : Type := {
  name : string;
  epoch : Z;
  version : string;
  release : string;
  arch : string;
  ui_from_repo : string;
  reponame : string;
  size : Z;
  files : list string;
  requires : list string;
  pkg_attrs : gmap string pyobj
}.

(** [hawkey.Sack] as seen through [sack.query()]: the installed and the
    available packages, in the order the query lists them. *)
Record sack_t : Type := {
  installed_pkgs : list package;
  available_pkgs : list package;
  upgrade_pkgs : list package
}.

(** [query.filter(name=n, version=v, release=r, arch=a)] *)
Definition nvra_match (n v r a : string) (p : package) : bool :=
  String.eqb (name p) n && String.eqb (version p) v
  && String.eqb (release p) r && String.eqb (arch p) a.

Definition filter_nvra (n v r a : string) (q : list package) : list package :=
  List.filter (nvra_match n v r a) q.

(** [_get_id] *)
Definition _get_id (pkg : package) : string :=
  let values := [name pkg; Py.str_int (epoch pkg); version pkg; release pkg;
                 arch pkg; ui_from_repo pkg] in
  Py.join Py.comma values.

(** [n, e, v, r, a, repo_id = id.split(',')] *)
Definition unpack6 (id : string)
  : result (string * string * string * string * string * string) :=
  match Py.split Py.comma id with
  | [n; e; v; r; a; repo_id] => Ok (n, e, v, r, a, repo_id)
  | _ => Raise (ValueError "wrong number of values to unpack")
  end.

(** [f[0] if len(f) > 0 else None] *)
Definition first_or_none (f : list package) : option package :=
  match f with
  | p :: _ => Some p
  | [] => None
  end.

(** [_get_po]: the body, given the sack of [self.base] *)
Definition _get_po_in (sack : sack_t) (id : string) : result (option package) :=
  match unpack6 id with
  | Raise e => Raise e
  | Ok (n, e, v, r, a, repo_id) =>
      if Py.startswith "@" repo_id then
        let f := installed_pkgs sack in
        let f := filter_nvra n v r a f in
        Ok (first_or_none f)
      else
        let f := available_pkgs sack in
        let f := filter_nvra n v r a f in
        Ok (first_or_none f)
  end.

(** [_get_po_available] *)
Definition _get_po_available_in (sack : sack_t) (id : string)
  : result (option package) :=
  match unpack6 id with
  | Raise e => Raise e
  | Ok (n, e, v, r, a, repo_id) =>
      let f := available_pkgs sack in
      let f := filter_nvra n v r a f in
      Ok (first_or_none f)
  end.

(** A repository object: its id, whether it is enabled, and its
    configuration attributes. *)
Record repo : Type := {
  repo_id : string;
  repo_enabled : bool;
  repo_attrs : gmap string pyval
}.

(** [repo.enable()] and [repo.disable()] *)
Definition repo_enable (r : repo) : repo :=
  {| repo_id := repo_id r; repo_enabled := true; repo_attrs := repo_attrs r |}.
Definition repo_disable (r : repo) : repo :=
  {| repo_id := repo_id r; repo_enabled := false; repo_attrs := repo_attrs r |}.


(** The operation types of [dnf.transaction], as [_ACTIVE_DCT] lists
    them. *)
Inductive op_type_t : Type :=
| DOWNGRADE | ERASE | INSTALL | REINSTALL | UPGRADE.

Definition op_eqb (a b : op_type_t) : bool :=
  match a, b with
  | DOWNGRADE, DOWNGRADE | ERASE, ERASE | INSTALL, INSTALL
  | REINSTALL, REINSTALL | UPGRADE, UPGRADE => true
  | _, _ => false
  end.

(** A transaction item; [installed] and [erased] are [None] when the
    item has no package in that role. *)
Record tsi_t : Type := {
  op_type : op_type_t;
  installed : option package;
  erased : option package;
  obsoleted : list package
}.

(** A history transaction; [end_timestamp] is in seconds since the
    epoch, [None] while the transaction has not ended. *)
Record hist_trans : Type := {
  tid : Z;
  end_timestamp : option Z
}.

(** The [dnf.Base] object held in [self._base]. [transaction] is [None]
    until a transaction has been resolved; [history] is what
    [base.history.old(complete_transactions_only=False)] lists;
    [obsoletes_pkgs] is [base.packages.obsoletes]. *)
Record dnf_base : Type := {
  conf : gmap string pyval;
  repos : list repo;
  sack : sack_t;
  transaction : option (list tsi_t);
  history : list hist_trans;
  obsoletes_pkgs : list package
}.

Definition base_with_conf (c : gmap string pyval) (b : dnf_base) : dnf_base :=
  {| conf := c; repos := repos b; sack := sack b;
     transaction := transaction b; history := history b;
     obsoletes_pkgs := obsoletes_pkgs b |}.

Definition base_with_repos (rs : list repo) (b : dnf_base) : dnf_base :=
  {| conf := conf b; repos := rs; sack := sack b;
     transaction := transaction b; history := history b;
     obsoletes_pkgs := obsoletes_pkgs b |}.

(** The [gpg_info] dictionary handed to the key-import callback. *)
Record gpg_info_t : Type := {
  gi_po : package;
  gi_userid : string;
  gi_hexkeyid : string;
  gi_keyurl : string;
  gi_fingerprint : string;
  gi_timestamp : Z
}.

(** The marking methods of [dnf.Base] the daemon calls, each with its
    argument. *)
Inductive mark_call : Type :=
| base_install (spec : string)
| base_remove (spec : string)
| base_upgrade (spec : string)
| base_reinstall (spec : string)
| base_downgrade (spec : string)
| package_install (po : package)
| package_upgrade (po : package)
| package_reinstall (po : package)
| package_downgrade (po : package).

(** How a marking method ends: it returns a count, or raises.
    [PackagesNotInstalledError] derives from [MarkingError], which
    derives from [dnf.exceptions.Error]; [MarkingError] stands for the
    marking errors other than [PackagesNotInstalledError], and
    [MarkFailed] for an exception outside [MarkingError]. *)
Inductive mark_result : Type :=
| Marked (rc : Z)
| PackagesNotInstalledError (text : string)
| MarkingError (text : string)
| MarkFailed (e : exn).

(** How [base.resolve] ends: it returns whether there is a transaction,
    or raises [DepsolveError] with its [value], or another exception. *)
Inductive resolve_result : Type :=
| Resolved (rc : bool)
| DepsolveError (value : string)
| ResolveFailed (e : exn).

(* ===================================================================== *)
(** ** The daemon object                                                 *)
(* ===================================================================== *)

(** The signals and stub calls the daemon sends to its subclass, in the
    order they are sent. *)
Inductive signal : Type :=
| TransactionEvent (event : string) (data : pyval)
| ErrorMessage (msg : string)
| GPGImport (pkg_id userid hexkeyid keyurl : string) (timestamp : Z).

(** The attributes set by [DnfDaemonBase.__init__], the trace of signals
    sent so far, and whether [MAINLOOP.quit()] has been called. *)
Record daemon : Type := {
  _lock : option string;
  _base : option dnf_base;
  _can_quit : bool;
  _is_working : bool;
  _watchdog_count : Z;
  _watchdog_disabled : bool;
  _timeout_idle : Z;
  _timeout_locked : Z;
  _obsoletes_list : option (list package);
  _gpg_confirm : gmap string bool;
  _config_options : gmap string pyval;
  _enabled_repos : list string;
  signals : list signal;
  mainloop_quit_called : bool
}.

(** [DnfDaemonBase.__init__] *)
Definition __init__ : daemon :=
  {| _lock := None;
     _base := None;
     _can_quit := true;
     _is_working := false;
     _watchdog_count := 0;
     _watchdog_disabled := false;
     _timeout_idle := 20;
     _timeout_locked := 600;
     _obsoletes_list := None;
     _gpg_confirm := ∅;
     _config_options := ∅;
     _enabled_repos := [];
     signals := [];
     mainloop_quit_called := false |}.

Definition set_base (b : option dnf_base) (s : daemon) : daemon :=
  {| _lock := _lock s; _base := b; _can_quit := _can_quit s;
     _is_working := _is_working s; _watchdog_count := _watchdog_count s;
     _watchdog_disabled := _watchdog_disabled s;
     _timeout_idle := _timeout_idle s; _timeout_locked := _timeout_locked s;
     _obsoletes_list := _obsoletes_list s; _gpg_confirm := _gpg_confirm s;
     _config_options := _config_options s; _enabled_repos := _enabled_repos s;
     signals := signals s; mainloop_quit_called := mainloop_quit_called s |}.

Definition set_can_quit (q : bool) (s : daemon) : daemon :=
  {| _lock := _lock s; _base := _base s; _can_quit := q;
     _is_working := _is_working s; _watchdog_count := _watchdog_count s;
     _watchdog_disabled := _watchdog_disabled s;
     _timeout_idle := _timeout_idle s; _timeout_locked := _timeout_locked s;
     _obsoletes_list := _obsoletes_list s; _gpg_confirm := _gpg_confirm s;
     _config_options := _config_options s; _enabled_repos := _enabled_repos s;
     signals := signals s; mainloop_quit_called := mainloop_quit_called s |}.

Definition set_watchdog_count (n : Z) (s : daemon) : daemon :=
  {| _lock := _lock s; _base := _base s; _can_quit := _can_quit s;
     _is_working := _is_working s; _watchdog_count := n;
     _watchdog_disabled := _watchdog_disabled s;
     _timeout_idle := _timeout_idle s; _timeout_locked := _timeout_locked s;
     _obsoletes_list := _obsoletes_list s; _gpg_confirm := _gpg_confirm s;
     _config_options := _config_options s; _enabled_repos := _enabled_repos s;
     signals := signals s; mainloop_quit_called := mainloop_quit_called s |}.

Definition set_obsoletes_list (o : option (list package)) (s : daemon) : daemon :=
  {| _lock := _lock s; _base := _base s; _can_quit := _can_quit s;
     _is_working := _is_working s; _watchdog_count := _watchdog_count s;
     _watchdog_disabled := _watchdog_disabled s;
     _timeout_idle := _timeout_idle s; _timeout_locked := _timeout_locked s;
     _obsoletes_list := o; _gpg_confirm := _gpg_confirm s;
     _config_options := _config_options s; _enabled_repos := _enabled_repos s;
     signals := signals s; mainloop_quit_called := mainloop_quit_called s |}.

Definition set_gpg_confirm (g : gmap string bool) (s : daemon) : daemon :=
  {| _lock := _lock s; _base := _base s; _can_quit := _can_quit s;
     _is_working := _is_working s; _watchdog_count := _watchdog_count s;
     _watchdog_disabled := _watchdog_disabled s;
     _timeout_idle := _timeout_idle s; _timeout_locked := _timeout_locked s;
     _obsoletes_list := _obsoletes_list s; _gpg_confirm := g;
     _config_options := _config_options s; _enabled_repos := _enabled_repos s;
     signals := signals s; mainloop_quit_called := mainloop_quit_called s |}.

Definition set_config_options (c : gmap string pyval) (s : daemon) : daemon :=
  {| _lock := _lock s; _base := _base s; _can_quit := _can_quit s;
     _is_working := _is_working s; _watchdog_count := _watchdog_count s;
     _watchdog_disabled := _watchdog_disabled s;
     _timeout_idle := _timeout_idle s; _timeout_locked := _timeout_locked s;
     _obsoletes_list := _obsoletes_list s; _gpg_confirm := _gpg_confirm s;
     _config_options := c; _enabled_repos := _enabled_repos s;
     signals := signals s; mainloop_quit_called := mainloop_quit_called s |}.

Definition set_enabled_repos_field (l : list string) (s : daemon) : daemon :=
  {| _lock := _lock s; _base := _base s; _can_quit := _can_quit s;
     _is_working := _is_working s; _watchdog_count := _watchdog_count s;
     _watchdog_disabled := _watchdog_disabled s;
     _timeout_idle := _timeout_idle s; _timeout_locked := _timeout_locked s;
     _obsoletes_list := _obsoletes_list s; _gpg_confirm := _gpg_confirm s;
     _config_options := _config_options s; _enabled_repos := l;
     signals := signals s; mainloop_quit_called := mainloop_quit_called s |}.

(** sending a signal appends it to the trace *)
Definition emit (sg : signal) (s : daemon) : daemon :=
  {| _lock := _lock s; _base := _base s; _can_quit := _can_quit s;
     _is_working := _is_working s; _watchdog_count := _watchdog_count s;
     _watchdog_disabled := _watchdog_disabled s;
     _timeout_idle := _timeout_idle s; _timeout_locked := _timeout_locked s;
     _obsoletes_list := _obsoletes_list s; _gpg_confirm := _gpg_confirm s;
     _config_options := _config_options s; _enabled_repos := _enabled_repos s;
     signals := signals s ++ [sg]; mainloop_quit_called := mainloop_quit_called s |}.

(** [mainloop_quit]: [MAINLOOP.quit()] *)
Definition mainloop_quit (s : daemon) : daemon :=
  {| _lock := _lock s; _base := _base s; _can_quit := _can_quit s;
     _is_working := _is_working s; _watchdog_count := _watchdog_count s;
     _watchdog_disabled := _watchdog_disabled s;
     _timeout_idle := _timeout_idle s; _timeout_locked := _timeout_locked s;
     _obsoletes_list := _obsoletes_list s; _gpg_confirm := _gpg_confirm s;
     _config_options := _config_options s; _enabled_repos := _enabled_repos s;
     signals := signals s; mainloop_quit_called := true |}.

(** A method of the daemon: it reads and updates the daemon and either
    returns or raises; updates made before a raise stay. *)
Definition M (A : Type) : Type := daemon -> daemon * result A.

Definition ret {A} (a : A) : M A := fun s => (s, Ok a).
Definition raise {A} (e : exn) : M A := fun s => (s, Raise e).
Definition bind {A B} (m : M A) (k : A -> M B) : M B :=
  fun s => match m s with
           | (s', Ok a) => k a s'
           | (s', Raise e) => (s', Raise e)
           end.
Definition gets {A} (f : daemon -> A) : M A := fun s => (s, Ok (f s)).
Definition modify (f : daemon -> daemon) : M unit := fun s => (f s, Ok tt).
Definition lift {A} (r : result A) : M A := fun s => (s, r).

Notation "x <- m ;; k" := (bind m (fun x => k))
  (at level 100, m at next level, right associativity).
Notation "m ;;; k" := (bind m (fun _ => k))
  (at level 100, right associativity).

(** [_reset_base]: close the current base object and forget it *)
Definition _reset_base (s : daemon) : daemon :=
  match _base s with
  | Some b => set_base None s
  | None => s
  end.

Definition try_except {A} (m : M A) (handler : exn -> option (M A)) : M A :=
  fun s => match m s with
           | (s', Raise e) =>
               match handler e with
               | Some k => k s'
               | None => (s', Raise e)
               end
           | r => r
           end.

(** a library call that either completes or raises *)
Definition call (o : option exn) : M unit :=
  match o with
  | None => ret tt
  | Some e => raise e
  end.

(* ===================================================================== *)
(** ** Example data                                                      *)
(* ===================================================================== *)

(** Concrete packages, bases and collaborators on which the methods
    below are run. *)
Module Fixture.

Definition mkpkg (n : string) (e : Z) (v r a repo : string) (sz : Z)
  : package :=
  {| name := n; epoch := e; version := v; release := r; arch := a;
     ui_from_repo := repo; reponame := repo; size := sz;
     files := []; requires := []; pkg_attrs := ∅ |}.

Definition foo_installed : package :=
  mkpkg "foo" 0 "1.0" "1.fc20" "noarch" "@System" 100.
Definition foo_available : package :=
  mkpkg "foo" 0 "2.0" "1.fc20" "noarch" "fedora" 120.
Definition bar_available : package :=
  mkpkg "bar" 1 "0.5" "3.fc20" "x86_64" "updates" 2048.

Definition the_sack : sack_t :=
  {| installed_pkgs := [foo_installed];
     available_pkgs := [foo_available; bar_available];
     upgrade_pkgs := [foo_available] |}.

Definition mkrepo (i : string) (e : bool) : repo :=
  {| repo_id := i; repo_enabled := e;
     repo_attrs := {[ "gpgcheck" := PBool true ]} |}.

Definition the_repos : list repo :=
  [mkrepo "fedora" true; mkrepo "updates" true; mkrepo "rawhide" false].

Definition mkbase (tx : option (list tsi_t)) (h : list hist_trans)
  : dnf_base :=
  {| conf := {[ "debuglevel" := PInt 2 ]};
     repos := the_repos;
     sack := the_sack;
     transaction := tx;
     history := h;
     obsoletes_pkgs := [] |}.

Definition fresh : dnf_base := mkbase None [].

Definition tsi_install (p : package) : tsi_t :=
  {| op_type := INSTALL; installed := Some p; erased := None;
     obsoleted := [] |}.
Definition tsi_erase (p : package) : tsi_t :=
  {| op_type := ERASE; installed := None; erased := Some p;
     obsoleted := [] |}.
Definition tsi_upgrade (p old : package) : tsi_t :=
  {| op_type := UPGRADE; installed := Some p; erased := Some old;
     obsoleted := [old] |}.

(** a daemon that holds base [b] *)
Definition holding (b : dnf_base) : daemon := set_base (Some b) __init__.

(** A printer standing in for [json.dumps] on the examples: arrays for
    lists and tuples, no escaping inside strings. *)
Definition quote : string := String "034"%char EmptyString.

Fixpoint dumps (v : pyval) : string :=
  let fix items (l : list pyval) : string :=
    match l with
    | [] => EmptyString
    | [x] => dumps x
    | x :: rest => dumps x ++ ", " ++ items rest
    end in
  let fix members (d : list (string * pyval)) : string :=
    match d with
    | [] => EmptyString
    | [(k, x)] => quote ++ k ++ quote ++ ": " ++ dumps x
    | (k, x) :: rest =>
        quote ++ k ++ quote ++ ": " ++ dumps x ++ ", " ++ members rest
    end in
  match v with
  | PNone => "null"
  | PBool true => "true"
  | PBool false => "false"
  | PInt z => Py.str_int z
  | PFloat z => Py.str_int z ++ ".0"
  | PStr s => quote ++ s ++ quote
  | PList l => "[" ++ items l ++ "]"
  | PTuple l => "[" ++ items l ++ "]"
  | PDict d => "{" ++ members d ++ "}"
  end.


(** [setup_base] that leaves the modelled fields as they are *)
Definition setup (b : dnf_base) : dnf_base := b.

(** local time equal to UTC, and the timestamp printed as its number *)
Definition utc (ts : Z) : Z := ts.
Definition iso (tm : Z) : string := Py.str_int tm.

Definition no_failure (_ : dnf_base) : option exn := None.
Definition all_signed (_ : dnf_base) (_ : package) : Z * string :=
  (0, EmptyString).
Definition no_keys (_ : dnf_base) (_ : package)
    (_ : gpg_info_t -> M bool) : M unit := ret tt.

Definition same_evr (_ _ : package) : comparison := Eq.
Definition no_providers (_ : sack_t) (_ : string) : list package := [].
Definition no_advisories (_ : package) : pyval := PList [].

(** a download that succeeds *)
Definition downloads_all (_ : dnf_base) (_ : list package) : option exn :=
  None.

(** a download that fails with two messages for one file *)
Definition two_messages : list (string * list string) :=
  [("foo.rpm", ["timeout"; "checksum"])].
Definition failing_download (_ : dnf_base) (_ : list package)
  : option exn :=
  Some (DownloadError (Some two_messages) "download failed").

(** a transaction that installs [bar], erases the installed [foo] and
    upgrades [foo] *)
Definition three_items : list tsi_t :=
  [tsi_install bar_available; tsi_erase foo_installed;
   tsi_upgrade foo_available foo_installed].

(** history transactions that ended a number of days before [today] *)
Definition day : Z := 86400.
Definition today : Z := 20 * day.
Definition ended_days_ago (t days : Z) : hist_trans :=
  {| tid := t; end_timestamp := Some (today - days * day) |}.
Definition not_ended (t : Z) : hist_trans :=
  {| tid := t; end_timestamp := None |}.

Definition a_key : gpg_info_t :=
  {| gi_po := foo_available; gi_userid := "Fedora";
     gi_hexkeyid := "DEADBEEF"; gi_keyurl := "file:///etc/pki/key";
     gi_fingerprint := "00FF"; gi_timestamp := 1400000000 |}.

(** a daemon without a handle, with one cached option and one
    enabled repository recorded *)
Definition configured : daemon :=
  set_enabled_repos_field ["updates"]
    (set_config_options {[ "debuglevel" := PInt 0 ]} __init__).

(** a history in the order the library lists it, newest first, and
    one that lists an older transaction first *)
Definition recent_history : list hist_trans :=
  [ended_days_ago 3 1; not_ended 2; ended_days_ago 1 10].

Definition older_first : list hist_trans :=
  [ended_days_ago 2 10; ended_days_ago 1 1].

(** a daemon about to install [bar], and the same daemon once the
    download has been announced *)
Definition installing_bar : daemon :=
  holding (mkbase (Some [tsi_install bar_available]) []).

Definition download_started (s : daemon) : daemon :=
  emit (TransactionEvent "download" (PStr (dumps PNone)))
    (emit (TransactionEvent "pkg-to-download"
             (PList [PStr (_get_id bar_available)]))
       (emit (TransactionEvent "start-run" (PStr (dumps PNone))) s)).

(** the installed [foo] as another query lists it, with another size *)
Definition foo_again : package :=
  mkpkg "foo" 0 "1.0" "1.fc20" "noarch" "@System" 4096.

(** a package with three requirements, one of them twice *)
Definition needy : package :=
  {| name := "needy"; epoch := 0; version := "1"; release := "1";
     arch := "noarch"; ui_from_repo := "fedora"; reponame := "fedora";
     size := 1; files := [];
     requires := ["libfoo"; "rpmlib(CompressedFileNames)"; "libfoo"; "bar"];
     pkg_attrs := ∅ |}.
Definition foo_provides (_ : sack_t) (req : string) : list package :=
  if String.eqb req "libfoo" then [foo_available] else [].

(** a transaction that only erases, and a library that fails while it
    runs it *)
Definition erasing_foo : daemon :=
  holding (mkbase (Some [tsi_erase foo_installed]) []).
Definition disk_full (_ : dnf_base) : option exn :=
  Some (ValueError "disk full").

(** a history search that finds the transactions 3 and 2 *)
Definition finds_two (_ : dnf_base) (_ : list string) : list Z := [3; 2].
Definition finds_none (_ : dnf_base) (_ : list string) : list Z := [].
Definition old_of (b : dnf_base) (tids : list Z) : list hist_trans :=
  List.filter (fun ht => existsb (Z.eqb (tid ht)) tids) (history b).

(** a resolve that fails, and one that gives the three items *)
Definition unsolvable (b : dnf_base) : dnf_base * resolve_result :=
  (b, DepsolveError "nothing provides bar. package foo needs bar").
Definition solved (b : dnf_base) : dnf_base * resolve_result :=
  (mkbase (Some three_items) (history b), Resolved true).

(** a library in which no spec is installed, and one that knows no
    spec *)
Definition nothing_installed (_ : mark_call) (b : dnf_base)
  : dnf_base * mark_result :=
  (b, PackagesNotInstalledError "not installed").
Definition nothing_known (_ : mark_call) (b : dnf_base)
  : dnf_base * mark_result :=
  (b, MarkingError "no match").
Definition marks_one (_ : mark_call) (b : dnf_base)
  : dnf_base * mark_result :=
  (b, Marked 1).
Definition no_rpm (_ : string) (b : dnf_base) : dnf_base * result package :=
  (b, Raise (ValueError "not an rpm")).

Definition name_of (po : package) : string := name po.
Definition match_all (_ : string) (rs : list repo) : list repo := rs.
Definition installed_list (b : dnf_base) (_ : string) : list package :=
  installed_pkgs (sack b).

End Fixture.

(* ===================================================================== *)
(** ** The methods of [DnfDaemonBase]                                     *)
(* ===================================================================== *)

Section DnfDaemonBase.

Set Default Proof Using "Type".

(** The collaborators the module calls but does not define. *)

(** [json.dumps] and [json.loads] ([None]: the text is not JSON and
    [json.loads] raises [ValueError]) *)
Variable json_dumps : pyval -> string.
Variable json_loads : string -> option pyval.

(** [backend.DnfBase(self)], the freshly constructed base object, and
    its method [setup_base()] that loads the sack *)
Variable backend_DnfBase : dnf_base.
Variable setup_base : dnf_base -> dnf_base.

(** [datetime.fromtimestamp] and [datetime.isoformat]; a [datetime] is
    the count of whole seconds on the local clock. Both [now] and the
    converted timestamps are on that clock, and the whole days of a
    difference do not depend on the fraction of a second of [now]. *)
Variable fromtimestamp : Z -> Z.
Variable isoformat : Z -> string.

(** rpm's comparison of epoch-version-release ([evr_eq], [evr_gt],
    [evr_lt]), the providers of a requirement
    ([by_provides(...).latest().run()]) and
    [backend.UpdateInfo(po).advisories_list()] *)
Variable evr_cmp : package -> package -> comparison.
Variable providers_latest : sack_t -> string -> list package.
Variable advisories_list : package -> pyval.

(** The calls that run a transaction: each completes or raises.
    [_get_key_for_package] is handed the daemon's confirmation
    callback. *)
Variable download_packages : dnf_base -> list package -> option exn.
Variable _sig_check_pkg : dnf_base -> package -> Z * string.
Variable _get_key_for_package :
  dnf_base -> package -> (gpg_info_t -> M bool) -> M unit.
Variable do_transaction : dnf_base -> option exn.

(** The marking methods and [resolve]: each takes the base object to
    its state after the call and tells how the call ended.
    [add_remote_rpm] gives the package of a local rpm file or raises. *)
Variable mark : mark_call -> dnf_base -> dnf_base * mark_result.
Variable add_remote_rpm : string -> dnf_base -> dnf_base * result package.
Variable resolve : dnf_base -> dnf_base * resolve_result.

(** [str(po)] of a package; [base.repos.get_matching(filter)];
    [conf.iterkeys()]; [getattr(base.packages, pkg_filter)];
    [base.history.search(pattern)] and [base.history.old(tids)] *)
Variable package_str : package -> string.
Variable get_matching : string -> list repo -> list repo.
Variable conf_iterkeys : gmap string pyval -> list string.
Variable packages_attr : dnf_base -> string -> list package.
Variable history_search_tids : dnf_base -> list string -> list Z.
Variable history_old : dnf_base -> list Z -> list hist_trans.

Definition NONE : string := json_dumps PNone.

(** [json.dumps(o)] of a value that may hold objects of the library *)
Definition json_dumps_of (o : pyobj) : M string :=
  match to_json o with
  | Some v => ret (json_dumps v)
  | None => raise (TypeError "is not JSON serializable")
  end.

(** *** The base handle *)

(** [for option in self._config_options: setattr(conf, option, value)] *)
Definition apply_config_options (opts c : gmap string pyval)
  : gmap string pyval :=
  map_fold (fun option value c => <[option := value]> c) c opts.

(** the loop over [self._base.repos.all()] *)
Definition apply_enabled_repos (enabled : list string) (rs : list repo)
  : list repo :=
  map (fun r => if Py.in_list (repo_id r) enabled
                then repo_enable r else repo_disable r) rs.

(** the object [_get_base] builds and stores when it (re)builds *)
Definition build_base (load_sack : bool) (s : daemon) : dnf_base :=
  let b := backend_DnfBase in
  let b := base_with_conf
             (apply_config_options (_config_options s) (conf b)) b in
  let b := match _enabled_repos s with
           | [] => b
           | _ :: _ =>
               base_with_repos
                 (apply_enabled_repos (_enabled_repos s) (repos b)) b
           end in
  if load_sack then setup_base b else b.

(** [_get_base] *)
Definition _get_base (reset load_sack : bool) (s : daemon)
  : daemon * option dnf_base :=
  match _base s, reset with
  | Some _, false => (s, _base s)
  | _, _ =>
      let s := set_base (Some (build_base load_sack s)) s in
      (s, _base s)
  end.

(** the [base] property *)
Definition base (s : daemon) : daemon * option dnf_base :=
  let s := match _base s with
           | None => fst (_get_base false true s)
           | Some _ => s
           end in
  (s, _base s).

(** [self.base] where an attribute of it is read next *)
Definition the_base : M dnf_base :=
  fun s => match base s with
           | (s', Some b) => (s', Ok b)
           | (s', None) =>
               (s', Raise (AttributeError "'NoneType' object has no attribute"))
           end.


(** [set_enabled_repos] *)
Definition set_enabled_repos (repo_ids : list string) : M unit :=
  fun s =>
    let s := set_enabled_repos_field repo_ids s in
    let s := _reset_base s in
    let s := fst (_get_base true false s) in
    match _base s with
    | Some b => (set_base (Some (setup_base b)) s, Ok tt)
    | None => (s, Raise (AttributeError "'NoneType' object has no attribute"))
    end.


(** *** Packages and their attributes *)

(** [_get_po] *)
Definition _get_po (id : string) : M (option package) :=
  match unpack6 id with
  | Raise e => raise e
  | Ok _ => b <- the_base ;; lift (_get_po_in (sack b) id)
  end.

(** The attributes that every Python object has, in Python 2 and 3
    alike, with a value that is not data (a class, a method wrapper, a
    built-in method), and the methods this module calls on a package.
    What else the class of the package defines is in [pkg_attrs]. *)
Definition object_attrs : list string :=
  ["__class__"; "__delattr__"; "__format__"; "__getattribute__";
   "__hash__"; "__init__"; "__new__"; "__reduce__"; "__reduce_ex__";
   "__repr__"; "__setattr__"; "__sizeof__"; "__str__"; "__subclasshook__";
   "evr_eq"; "evr_gt"; "evr_lt"].

(** [hasattr(po, attr)] and [getattr(po, attr)] together: [None] when
    the package has no such attribute, else its value. [po.requires]
    is a list of requirement objects, not of their names. *)
Definition pkg_getattr (po : package) (attr : string) : option pyobj :=
  if String.eqb attr "name" then Some (Jsonable (PStr (name po)))
  else if String.eqb attr "epoch" then Some (Jsonable (PInt (epoch po)))
  else if String.eqb attr "version" then Some (Jsonable (PStr (version po)))
  else if String.eqb attr "release" then Some (Jsonable (PStr (release po)))
  else if String.eqb attr "arch" then Some (Jsonable (PStr (arch po)))
  else if String.eqb attr "ui_from_repo"
  then Some (Jsonable (PStr (ui_from_repo po)))
  else if String.eqb attr "reponame" then Some (Jsonable (PStr (reponame po)))
  else if String.eqb attr "size" then Some (Jsonable (PInt (size po)))
  else if String.eqb attr "files"
  then Some (Jsonable (PList (map PStr (files po))))
  else if String.eqb attr "requires"
  then Some (ListOf (map (fun _ => Opaque) (requires po)))
  else if Py.in_list attr object_attrs then Some Opaque
  else pkg_attrs po !! attr.

Definition FAKE_ATTR : list string :=
  ["downgrades"; "action"; "pkgtags";
   "changelog"; "filelist"; "updateinfo"; "requires"].

(** [a == b] on packages *)
Definition pkg_eqb (a b : package) : bool :=
  String.eqb (name a) (name b) && Z.eqb (epoch a) (epoch b)
  && String.eqb (version a) (version b) && String.eqb (release a) (release b)
  && String.eqb (arch a) (arch b) && String.eqb (reponame a) (reponame b).

Definition evr_eq (a b : package) : bool :=
  match evr_cmp a b with Eq => true | _ => false end.
Definition evr_gt (a b : package) : bool :=
  match evr_cmp a b with Gt => true | _ => false end.
Definition evr_lt (a b : package) : bool :=
  match evr_cmp a b with Lt => true | _ => false end.

(** [_get_obsoletes] *)
Definition _get_obsoletes : M (list package) :=
  s <- gets id ;;
  match _obsoletes_list s with
  | Some (p :: l) => ret (p :: l)
  | _ =>
      b <- the_base ;;
      modify (set_obsoletes_list (Some (obsoletes_pkgs b))) ;;;
      ret (obsoletes_pkgs b)
  end.

(** [_get_action] *)
Definition _get_action (po : package) : M string :=
  b <- the_base ;;
  if Py.startswith "@" (reponame po) then ret "remove"
  else
    let upd := filter_nvra (name po) (version po) (release po) (arch po)
                 (upgrade_pkgs (sack b)) in
    match upd with
    | _ :: _ => ret "update"
    | [] =>
        obsoletes <- _get_obsoletes ;;
        if existsb (pkg_eqb po) obsoletes then ret "obsolete"
        else
          let ipkgs := List.filter (fun p => String.eqb (name p) (name po))
                         (installed_pkgs (sack b)) in
          match ipkgs with
          | ipkg :: _ => if evr_gt ipkg po then ret "downgrade" else ret "install"
          | [] => ret "install"
          end
    end.

(** [_get_downgrades] *)
Definition _get_downgrades (pkg : package) : M (list string) :=
  b <- the_base ;;
  let same p := String.eqb (name p) (name pkg) && String.eqb (arch p) (arch pkg) in
  let inst := List.filter same (installed_pkgs (sack b)) in
  match inst with
  | [] => ret []
  | inst0 :: _ =>
      if evr_eq pkg inst0 then
        let avail := List.filter same (available_pkgs (sack b)) in
        ret (map _get_id (List.filter (fun apkg => evr_gt pkg apkg) avail))
      else if evr_lt pkg inst0 then ret [_get_id inst0]
      else ret []
  end.

(** [_get_requires] *)
Definition _get_requires (pkg : package) : M (list (string * pyval)) :=
  b <- the_base ;;
  ret (fold_left
         (fun req_dict req_str =>
            if Py.has_substring "solvable:" req_str
               || Py.has_substring "rpmlib(" req_str
            then req_dict
            else Py.dict_set req_str
                   (PList (map (fun prov => PStr (_get_id prov))
                             (providers_latest (sack b) req_str)))
                   req_dict)
         (requires pkg) []).

(** [_get_fake_attributes]: a name outside the seven falls through
    and returns [None] *)
Definition _get_fake_attributes (po : package) (attr : string) : M pyval :=
  if String.eqb attr "action" then
    a <- _get_action po ;; ret (PStr a)
  else if String.eqb attr "downgrades" then
    l <- _get_downgrades po ;; ret (PList (map PStr l))
  else if String.eqb attr "pkgtags" then ret (PList [])
  else if String.eqb attr "changelog" then ret PNone
  else if String.eqb attr "updateinfo" then ret (advisories_list po)
  else if String.eqb attr "filelist" then ret (PList (map PStr (files po)))
  else if String.eqb attr "requires" then
    d <- _get_requires po ;; ret (PDict d)
  else ret PNone.

(** [get_attribute] *)
Definition get_attribute (id attr : string) : M string :=
  po <- _get_po id ;;
  match po with
  | Some po =>
      if Py.in_list attr FAKE_ATTR then
        v <- _get_fake_attributes po attr ;; ret (json_dumps v)
      else
        match pkg_getattr po attr with
        | Some v => json_dumps_of v
        | None => ret (json_dumps PNone)
        end
  | None => ret (json_dumps PNone)
  end.

(** *** The current transaction *)

(** [_active_pkg], through [_ACTIVE_DCT] *)
Definition _active_pkg (tsi : tsi_t) : option package :=
  match op_type tsi with
  | DOWNGRADE => installed tsi
  | ERASE => erased tsi
  | INSTALL => installed tsi
  | REINSTALL => installed tsi
  | UPGRADE => installed tsi
  end.

(** the key of [tx_list] an item is appended to *)
Definition tx_key (o : op_type_t) : string :=
  match o with
  | DOWNGRADE => "downgrade"
  | ERASE => "remove"
  | INSTALL => "install"
  | REINSTALL => "reinstall"
  | UPGRADE => "update"
  end.

Definition tx_list_init : gmap string (list tsi_t) :=
  fold_left (fun tx_list t => <[t := []]> tx_list)
    ["downgrade"; "remove"; "install"; "reinstall"; "update"] ∅.

(** [tx_list[key].append(tsi)] *)
Definition tx_list_append (tx_list : gmap string (list tsi_t))
    (tsi : tsi_t) : gmap string (list tsi_t) :=
  let key := tx_key (op_type tsi) in
  <[key := ((tx_list !!! key) ++ [tsi])%list]> tx_list.

(** one element [(id, size, obsoleted ids)] of a sublist *)
Definition tx_element (tsi : tsi_t) : result pyval :=
  match _active_pkg tsi with
  | None => Raise (AttributeError "'NoneType' object has no attribute 'pkgtup'")
  | Some po =>
      let size := PFloat (size po) in
      let alist := map _get_id (obsoleted tsi) in
      Ok (PTuple [PStr (_get_id po); size; PList (map PStr alist)])
  end.

(** the inner loop [for tsi in pkglist], appending to [sublist] *)
Fixpoint tx_sublist (pkglist : list tsi_t) (sublist : list pyval)
  : result (list pyval) :=
  match pkglist with
  | [] => Ok sublist
  | tsi :: rest =>
      match tx_element tsi with
      | Raise e => Raise e
      | Ok el => tx_sublist rest (sublist ++ [el])%list
      end
  end.

(** the outer loop over the five [(action, pkglist)] pairs *)
Fixpoint tx_action_tree (pairs : list (string * list tsi_t))
    (sublist out_list : list pyval) : result (list pyval) :=
  match pairs with
  | [] => Ok out_list
  | (action, pkglist) :: rest =>
      match tx_sublist pkglist sublist with
      | Raise e => Raise e
      | Ok sublist =>
          match pkglist with
          | _ :: _ =>
              tx_action_tree rest []
                (out_list ++ [PList [PStr action; PList sublist]])%list
          | [] => tx_action_tree rest sublist out_list
          end
      end
  end.

(** [_get_transaction] *)
Definition _get_transaction : M (list pyval) :=
  b <- the_base ;;
  let tx_list :=
    match transaction b with
    | Some (tsi :: tx) => fold_left tx_list_append (tsi :: tx) tx_list_init
    | _ => tx_list_init
    end in
  lift (tx_action_tree
          [("install", tx_list !!! "install");
           ("update", tx_list !!! "update");
           ("remove", tx_list !!! "remove");
           ("reinstall", tx_list !!! "reinstall");
           ("downgrade", tx_list !!! "downgrade")] [] []).

(** [get_transaction] *)
Definition get_transaction : M string :=
  trans <- _get_transaction ;;
  let rc := match trans with [] => false | _ :: _ => true end in
  ret (json_dumps (PTuple [PBool rc; PList trans])).

(** *** Running the transaction *)

(** [_handle_gpg_import] *)
Definition _handle_gpg_import (gpg_info : gpg_info_t) : M bool :=
  let pkg_id := _get_id (gi_po gpg_info) in
  let userid := gi_userid gpg_info in
  let hexkeyid := gi_hexkeyid gpg_info in
  let keyurl := gi_keyurl gpg_info in
  let timestamp := gi_timestamp gpg_info in
  s <- gets id ;;
  match _gpg_confirm s !! hexkeyid with
  | None =>
      modify (fun s => set_gpg_confirm
                         (<[hexkeyid := false]> (_gpg_confirm s)) s) ;;;
      modify (emit (GPGImport pkg_id userid hexkeyid keyurl timestamp))
  | Some _ => ret tt
  end ;;;
  s <- gets id ;;
  match _gpg_confirm s !! hexkeyid with
  | Some confirmed => ret confirmed
  | None => raise (KeyError hexkeyid)
  end.

(** the loop of [_get_packages_to_download] *)
Definition packages_to_download (tx : list tsi_t) : list package :=
  fold_left
    (fun to_dnl tsi =>
       match installed tsi with
       | Some po => (to_dnl ++ [po])%list
       | None => to_dnl
       end) tx [].

(** [_get_packages_to_download] *)
Definition _get_packages_to_download : M (list package) :=
  b <- the_base ;;
  match transaction b with
  | None => raise (TypeError "'NoneType' object is not iterable")
  | Some tx => ret (packages_to_download tx)
  end.

(** [_check_gpg_signatures] *)
Fixpoint _check_gpg_signatures (pkgs : list package) : M Z :=
  match pkgs with
  | [] => ret 0
  | po :: rest =>
      b <- the_base ;;
      let '(result, errmsg) := _sig_check_pkg b po in
      if Z.eqb result 0 then _check_gpg_signatures rest
      else if Z.eqb result 1 then
        b <- the_base ;;
        try_except (_get_key_for_package b po _handle_gpg_import)
          (fun e => if is_dnf_Error e
                    then Some (raise (GPGError (exn_str e)))
                    else None) ;;;
        _check_gpg_signatures rest
      else raise (GPGError errmsg)
  end.

(** the messages built from the [errmap] of a [DownloadError] *)
Definition download_error_msgs (msgs : list (string * list string))
  : list string :=
  flat_map
    (fun fn =>
       match Py.dict_get msgs fn with
       | Some l => map (fun msg => fn ++ " : " ++ msg) l
       | None => []
       end)
    (map fst msgs).

(** the [try] block of [run_transaction] *)
Definition run_transaction_try (to_dnl : list package) : M unit :=
  match to_dnl with
  | _ :: _ =>
      let data := map _get_id to_dnl in
      modify (emit (TransactionEvent "pkg-to-download" (PList (map PStr data)))) ;;;
      modify (emit (TransactionEvent "download" (PStr NONE))) ;;;
      b <- the_base ;;
      call (download_packages b to_dnl) ;;;
      modify (emit (TransactionEvent "signature-check" (PStr NONE))) ;;;
      _ <- _check_gpg_signatures to_dnl ;;
      ret tt
  | [] => ret tt
  end ;;;
  modify (emit (TransactionEvent "run-transaction" (PStr NONE))) ;;;
  modify (set_can_quit false) ;;;
  b <- the_base ;;
  call (do_transaction b).

(** the three [except] clauses of [run_transaction], in their order *)
Definition run_transaction_except (e : exn) : option (M (Z * list string)) :=
  match e with
  | DownloadError errmap _ =>
      Some (ret (4, match errmap with
                    | Some msgs => download_error_msgs msgs
                    | None => [exn_str e]
                    end))
  | GPGError _ => Some (ret (1, [exn_str e]))
  | Error _ => Some (ret (2, [exn_str e]))
  | _ => None
  end.

(** the statements of [run_transaction] after the [try] *)
Definition run_transaction_end (s : daemon) : daemon :=
  emit (TransactionEvent "end-run" (PStr NONE))
    (_reset_base (set_can_quit true s)).

(** [run_transaction] *)
Definition run_transaction : M string :=
  modify (emit (TransactionEvent "start-run" (PStr NONE))) ;;;
  to_dnl <- _get_packages_to_download ;;
  r <- try_except (run_transaction_try to_dnl ;;; ret (0, []))
         run_transaction_except ;;
  let '(rc, msgs) := r in
  modify run_transaction_end ;;;
  let result := json_dumps (PTuple [PInt rc; PList (map PStr msgs)]) in
  ret result.

(** *** History *)

(** the truth value of [ht.end_timestamp] *)
Definition has_end_timestamp (ht : hist_trans) : bool :=
  match end_timestamp ht with
  | Some ts => negb (Z.eqb ts 0)
  | None => false
  end.

(** [(now - tm).days] for [tm = datetime.fromtimestamp(ts)] *)
Definition delta_days (now ts : Z) : Z := (now - fromtimestamp ts) / 86400.

(** the [while] loop of [get_history_by_days], from position [i] on:
    [history] is the part of the list not yet visited *)
Fixpoint history_loop (now start end_ : Z) (history : list hist_trans)
    (result : list hist_trans) : list hist_trans :=
  match history with
  | [] => result
  | ht :: rest =>
      match end_timestamp ht with
      | Some ts =>
          if Z.eqb ts 0 then history_loop now start end_ rest result
          else if delta_days now ts <? start then
            history_loop now start end_ rest result
          else if delta_days now ts >? end_ then result
          else history_loop now start end_ rest (result ++ [ht])%list
      | None => history_loop now start end_ rest result
      end
  end.

(** [_get_id_time_list] *)
Fixpoint _get_id_time_list (hist_trans : list hist_trans)
  : result (list pyval) :=
  match hist_trans with
  | [] => Ok []
  | ht :: rest =>
      match end_timestamp ht with
      | None => Raise (TypeError "an integer is required (got type NoneType)")
      | Some ts =>
          let tm := fromtimestamp ts in
          match _get_id_time_list rest with
          | Raise e => Raise e
          | Ok result => Ok (PTuple [PInt (tid ht); PStr (isoformat tm)] :: result)
          end
      end
  end.

(** [get_history_by_days]; [now] is the reading of [datetime.now()] *)
Definition get_history_by_days (now start end_ : Z) : M string :=
  b <- the_base ;;
  let history := history b in
  let result := history_loop now start end_ history [] in
  l <- lift (_get_id_time_list result) ;;
  ret (json_dumps (PList l)).

(** *** The watchdog *)

(** the truth value of [self._lock] *)
Definition lock_held (s : daemon) : bool :=
  match _lock s with
  | Some sender => Py.truthy_str sender
  | None => false
  end.

(** [_watchdog]; the result is [True] or [None], and the main loop
    keeps calling the watchdog as long as it is [True] *)
Definition _watchdog (s : daemon) : daemon * pyval :=
  if _watchdog_disabled s || _is_working s then (s, PBool true)
  else
    let terminate :=
      if negb (lock_held s)
      then _watchdog_count s >? _timeout_idle s
      else _watchdog_count s >? _timeout_locked s in
    if terminate then
      if _can_quit s
      then (mainloop_quit (_reset_base s), PNone)
      else (s, PNone)
    else (set_watchdog_count (_watchdog_count s + 1) s, PBool true).

(** [n] calls of the watchdog in a row, as long as it stays scheduled *)
Fixpoint watchdog_ticks (n : nat) (s : daemon) : daemon * pyval :=
  match n with
  | O => (s, PBool true)
  | S n' =>
      match _watchdog s with
      | (s', PBool true) => watchdog_ticks n' s'
      | r => r
      end
  end.


(** *** Reading the configuration and the repositories *)




(** [get_repositories] *)
Definition get_repositories (filter : string) : M (list string) :=
  b <- the_base ;;
  if String.eqb filter EmptyString || String.eqb filter "enabled" then
    ret (map repo_id (List.filter repo_enabled (repos b)))
  else
    ret (map repo_id (get_matching filter (repos b))).

(** *** Lists of packages *)

(** [_get_po_available] *)
Definition _get_po_available (id : string) : M (option package) :=
  match unpack6 id with
  | Raise e => raise e
  | Ok _ => b <- the_base ;; lift (_get_po_available_in (sack b) id)
  end.

(** the loop of [_get_po_list] over [attrs] *)
Fixpoint po_list_values (po : package) (attrs : list string)
    (po_list : list pyobj) : M (list pyobj) :=
  match attrs with
  | [] => ret po_list
  | attr :: rest =>
      value <- (if Py.in_list attr FAKE_ATTR
                then v <- _get_fake_attributes po attr ;; ret (Jsonable v)
                else match pkg_getattr po attr with
                     | Some value => ret value
                     | None => ret (Jsonable PNone)
                     end) ;;
      po_list_values po rest (po_list ++ [value])%list
  end.

(** [_get_po_list]: the bare id when no attribute is asked for *)
Definition _get_po_list (po : package) (attrs : list string) : M pyobj :=
  match attrs with
  | [] => ret (Jsonable (PStr (_get_id po)))
  | _ :: _ =>
      po_list <- po_list_values po attrs [Jsonable (PStr (_get_id po))] ;;
      ret (ListOf po_list)
  end.

(** [[self._get_po_list(po, attrs) for po in pkgs]] *)
Fixpoint po_lists (pkgs : list package) (attrs : list string)
  : M (list pyobj) :=
  match pkgs with
  | [] => ret []
  | po :: rest =>
      v <- _get_po_list po attrs ;;
      vs <- po_lists rest attrs ;;
      ret (v :: vs)
  end.

(** [get_packages] *)
Definition get_packages (pkg_filter : string) (attrs : list string)
  : M string :=
  if Py.in_list pkg_filter
       ["installed"; "available"; "updates"; "obsoletes";
        "recent"; "extras"; "updates_all"]
  then
    b <- the_base ;;
    let pkgs := packages_attr b pkg_filter in
    value <- po_lists pkgs attrs ;;
    json_dumps_of (ListOf value)
  else ret (json_dumps (PList [])).

(** *** Building the transaction *)

(** a call of a marking method on [self.base], which the call changes
    in place *)
Definition mark_on_base (c : mark_call) : M mark_result :=
  b <- the_base ;;
  let '(b', r) := mark c b in
  modify (set_base (Some b')) ;;;
  ret r.

(** [self.base.add_remote_rpm(path)] *)
Definition add_remote_rpm_on_base (path : string) : M package :=
  b <- the_base ;;
  let '(b', r) := add_remote_rpm path b in
  modify (set_base (Some b')) ;;;
  lift r.

(** the exception a marking error is when nothing catches it *)
Definition mark_exn (r : mark_result) : exn :=
  match r with
  | Marked _ => Error EmptyString
  | PackagesNotInstalledError text => Error text
  | MarkingError text => Error text
  | MarkFailed e => e
  end.

(** [_resolve_transaction] *)
Definition _resolve_transaction : M (bool * list string) :=
  b <- the_base ;;
  let '(b', r) := resolve b in
  modify (set_base (Some b')) ;;;
  match r with
  | Resolved rc => ret (rc, [])
  | DepsolveError value => ret (false, Py.split_str ". " value)
  | ResolveFailed e => raise e
  end.

(** [_build_transaction] *)
Definition _build_transaction : M pyval :=
  r <- _resolve_transaction ;;
  let '(rc, output) := r in
  if rc then
    trans <- _get_transaction ;;
    ret (PTuple [PBool rc; PList trans])
  else ret (PTuple [PBool rc; PList (map PStr output)]).

(** [build_transaction] *)
Definition build_transaction : M string :=
  modify (emit (TransactionEvent "start-build" (PStr NONE))) ;;;
  v <- _build_transaction ;;
  let value := json_dumps v in
  modify (emit (TransactionEvent "end-build" (PStr NONE))) ;;;
  ret value.

(** the loop of [install] over the specs *)
Fixpoint install_specs (cmds : list string) : M unit :=
  match cmds with
  | [] => ret tt
  | cmd :: rest =>
      (if Py.endswith ".rpm" cmd then
         po <- add_remote_rpm_on_base cmd ;;
         r <- mark_on_base (package_install po) ;;
         match r with
         | Marked _ => ret tt
         | _ => raise (mark_exn r)
         end
       else
         r <- mark_on_base (base_install cmd) ;;
         match r with
         | Marked _ => ret tt
         | PackagesNotInstalledError _ => ret tt
         | MarkingError _ => ret tt
         | MarkFailed e => raise e
         end) ;;;
      install_specs rest
  end.

(** [install] *)
Definition install (cmds : string) : M string :=
  install_specs (Py.split " " cmds) ;;;
  build_transaction.

(** the [try] block shared by [remove], [update], [reinstall] and
    [downgrade]: the loop over the specs is left at the first
    [PackagesNotInstalledError], which is then ignored *)
Fixpoint mark_specs (call : string -> mark_call) (cmds : list string)
  : M unit :=
  match cmds with
  | [] => ret tt
  | cmd :: rest =>
      r <- mark_on_base (call cmd) ;;
      match r with
      | Marked _ => mark_specs call rest
      | PackagesNotInstalledError _ => ret tt
      | MarkingError _ => raise (mark_exn r)
      | MarkFailed e => raise e
      end
  end.

(** [remove] *)
Definition remove (cmds : string) : M string :=
  mark_specs base_remove (Py.split " " cmds) ;;;
  build_transaction.

(** [update] *)
Definition update (cmds : string) : M string :=
  mark_specs base_upgrade (Py.split " " cmds) ;;;
  build_transaction.

(** [reinstall] *)
Definition reinstall (cmds : string) : M string :=
  mark_specs base_reinstall (Py.split " " cmds) ;;;
  build_transaction.

(** [downgrade] *)
Definition downgrade (cmds : string) : M string :=
  mark_specs base_downgrade (Py.split " " cmds) ;;;
  build_transaction.

(** [str(po)] where [po] may be [None] *)
Definition str_po (po : option package) : string :=
  match po with
  | Some po => package_str po
  | None => "None"
  end.

(** the [try] block of [add_transaction]: the result is the variable
    [po] as the block leaves it, and how the marking call ended, if
    one was made *)
Definition add_transaction_try (pkg_id action : string) (po : option package)
  : M (option package * option mark_result) :=
  let marking (c : mark_call) (po : option package) :=
    r <- mark_on_base c ;; ret (po, Some r) in
  let need (po : option package) (k : package -> M (option package * option mark_result)) :=
    match po with
    | Some p => k p
    | None => raise (AttributeError "'NoneType' object has no attribute")
    end in
  if String.eqb action "install" then
    need po (fun p => marking (package_install p) po)
  else if String.eqb action "remove" then
    marking (base_remove (str_po po)) po
  else if String.eqb action "update" then
    need po (fun p => marking (package_upgrade p) po)
  else if String.eqb action "obsolete" then
    need po (fun p => marking (package_install p) po)
  else if String.eqb action "reinstall" then
    po <- _get_po_available pkg_id ;;
    match po with
    | Some p => marking (package_reinstall p) po
    | None => ret (po, None)
    end
  else if String.eqb action "downgrade" then
    need po (fun p => marking (package_downgrade p) po)
  else if String.eqb action "localinstall" then
    p <- add_remote_rpm_on_base pkg_id ;;
    marking (package_install p) (Some p)
  else ret (po, None).

(** [add_transaction] *)
Definition add_transaction (pkg_id action : string) : M string :=
  po <- (if negb (String.eqb action "localinstall")
         then _get_po pkg_id else ret None) ;;
  match po, negb (String.eqb action "localinstall") with
  | None, true =>
      let msg := "Cant find package object for : " ++ pkg_id in
      modify (emit (ErrorMessage msg)) ;;;
      ret (json_dumps (PTuple [PBool false; PList [PStr msg]]))
  | _, _ =>
      tried <- add_transaction_try pkg_id action po ;;
      let '(po, r) := tried in
      match r with
      | None => ret (json_dumps (PTuple [PBool false; PList []]))
      | Some (Marked rc) =>
          if Z.eqb rc 0
          then ret (json_dumps (PTuple [PBool false; PList []]))
          else ret (json_dumps (PTuple [PBool true; PList []]))
      | Some (PackagesNotInstalledError _) =>
          let msg := "package not installed : " ++ str_po po in
          modify (emit (ErrorMessage msg)) ;;;
          ret (json_dumps (PTuple [PBool false; PList [PStr msg]]))
      | Some (MarkingError text) => raise (Error text)
      | Some (MarkFailed e) => raise e
      end
  end.

(** *** Searching the history *)

(** [history_search] *)
Definition history_search (pattern : list string) : M string :=
  b <- the_base ;;
  let tids := history_search_tids b pattern in
  result <- match tids with
            | _ :: _ => b <- the_base ;; ret (history_old b tids)
            | [] => ret []
            end ;;
  l <- lift (_get_id_time_list result) ;;
  ret (json_dumps (PList l)).

(** *** The behaviour as described

    What the methods are described to compute, defined apart from
    their code; the properties below compare the two. *)

(** the order in which [get_transaction] lists the actions *)
Definition action_order : list op_type_t :=
  [INSTALL; UPGRADE; ERASE; REINSTALL; DOWNGRADE].

(** the items of a transaction with a given operation *)
Definition items_of (o : op_type_t) (tx : list tsi_t) : list tsi_t :=
  List.filter (fun tsi => op_eqb (op_type tsi) o) tx.

(** an item as the triple of the id of its active package, its size
    as a float and the ids of the packages it obsoletes *)
Definition tx_triple (tsi : tsi_t) : pyval :=
  match _active_pkg tsi with
  | Some po =>
      PTuple [PStr (_get_id po); PFloat (size po);
              PList (map (fun obs_po => PStr (_get_id obs_po)) (obsoleted tsi))]
  | None => PNone
  end.

(** the transaction grouped by action, actions without items left out *)
Definition transaction_by_action (tx : list tsi_t) : list pyval :=
  flat_map
    (fun o =>
       match items_of o tx with
       | [] => []
       | tsi :: l =>
           [PList [PStr (tx_key o); PList (map tx_triple (tsi :: l))]]
       end)
    action_order.

(** the age in whole days of a history transaction *)
Definition age_days (now : Z) (ht : hist_trans) : Z :=
  match end_timestamp ht with
  | Some ts => delta_days now ts
  | None => 0
  end.

(** a transaction that has ended between [start] and [end_] days ago *)
Definition qualifies (now start end_ : Z) (ht : hist_trans) : bool :=
  has_end_timestamp ht
  && (start <=? age_days now ht) && (age_days now ht <=? end_).

(** a transaction that has ended at least [start] and more than
    [end_] days ago *)
Definition too_old (now start end_ : Z) (ht : hist_trans) : bool :=
  has_end_timestamp ht
  && (start <=? age_days now ht) && (end_ <? age_days now ht).

(** the history up to the first transaction that is too old *)
Fixpoint until_too_old (now start end_ : Z) (history : list hist_trans)
  : list hist_trans :=
  match history with
  | [] => []
  | ht :: rest =>
      if too_old now start end_ ht then []
      else ht :: until_too_old now start end_ rest
  end.

(** the pair [(tid, isodate)] of a history transaction *)
Definition id_time (ht : hist_trans) : pyval :=
  match end_timestamp ht with
  | Some ts => PTuple [PInt (tid ht); PStr (isoformat (fromtimestamp ts))]
  | None => PNone
  end.

(** one line [filename : message] for each message of each entry of
    an error map *)
Definition download_error_lines (errmap : list (string * list string))
  : list string :=
  flat_map (fun '(fn, l) => map (fun msg => fn ++ " : " ++ msg) l) errmap.

(** a package none of whose string fields in the id holds a comma *)
Definition comma_free (pkg : package) : Prop :=
  Py.contains Py.comma (name pkg) = false
  /\ Py.contains Py.comma (version pkg) = false
  /\ Py.contains Py.comma (release pkg) = false
  /\ Py.contains Py.comma (arch pkg) = false
  /\ Py.contains Py.comma (ui_from_repo pkg) = false.

(** of two transactions that have ended, the first is not the older *)
Definition not_older (now : Z) (ht ht' : hist_trans) : Prop :=
  has_end_timestamp ht = true -> has_end_timestamp ht' = true ->
  age_days now ht <= age_days now ht'.

(** the triples of a transaction listing, over all its actions *)
Definition listed_triples (trans : list pyval) : list pyval :=
  flat_map (fun group =>
              match group with
              | PList [PStr _; PList sublist] => sublist
              | _ => []
              end) trans.

(** the five answers of [_get_action] *)
Definition actions : list string :=
  ["install"; "remove"; "update"; "obsolete"; "downgrade"].

(** [remove], [update], [reinstall] and [downgrade], each with the
    marking method it calls *)
Definition spec_methods : list ((string -> M string) * (string -> mark_call)) :=
  [(remove, base_remove); (update, base_upgrade);
   (reinstall, base_reinstall); (downgrade, base_downgrade)].

(** the filters [get_packages] knows *)
Definition pkg_filters : list string :=
  ["installed"; "available"; "updates"; "obsoletes";
   "recent"; "extras"; "updates_all"].


(** the events of a download that completes and whose packages all
    verify; none when there is nothing to download *)
Definition download_events (to_dnl : list package) : list signal :=
  match to_dnl with
  | [] => []
  | _ :: _ =>
      [TransactionEvent "pkg-to-download" (PList (map PStr (map _get_id to_dnl)));
       TransactionEvent "download" (PStr NONE);
       TransactionEvent "signature-check" (PStr NONE)]
  end.

(* =================================================================== *)
(** ** Properties                                                      *)
(* =================================================================== *)

(** forget the collaborators a goal does not mention, so that the
    decision procedures do not pick them up *)
Ltac forget_collaborators :=
  try clear json_dumps; try clear json_loads;
  try clear fromtimestamp; try clear isoformat;
  try clear evr_cmp; try clear providers_latest; try clear advisories_list;
  try clear download_packages; try clear _sig_check_pkg;
  try clear _get_key_for_package; try clear do_transaction;
  try clear mark; try clear add_remote_rpm; try clear resolve;
  try clear package_str; try clear get_matching; try clear conf_iterkeys;
  try clear packages_attr;
  try clear history_search_tids; try clear history_old;
  try clear setup_base; try clear backend_DnfBase.

(** *** Splitting and joining on commas *)

Lemma split_nonempty (c : ascii) (s : string) : Py.split c s <> [].
Proof.
  destruct s as [|d s]; simpl; [discriminate|].
  destruct (Ascii.eqb d c); [discriminate|].
  destruct (Py.split c s); discriminate.
Qed.

Lemma split_without_sep (c : ascii) (s : string) :
  Py.contains c s = false -> Py.split c s = [s].
Proof.
  induction s as [|d s IH]; simpl; [reflexivity|].
  intros H. apply orb_false_iff in H as [Hd Hs].
  rewrite Hd, (IH Hs). reflexivity.
Qed.

Lemma split_field_then_sep (c : ascii) (f rest : string) :
  Py.contains c f = false ->
  Py.split c (f ++ String c rest) = f :: Py.split c rest.
Proof.
  induction f as [|d f IH]; simpl; intros H.
  - rewrite Ascii.eqb_refl. reflexivity.
  - apply orb_false_iff in H as [Hd Hf].
    rewrite Hd, (IH Hf). reflexivity.
Qed.

Lemma split_join (c : ascii) (fields : list string) :
  fields <> [] ->
  Forall (fun f => Py.contains c f = false) fields ->
  Py.split c (Py.join c fields) = fields.
Proof.
  induction fields as [|f rest IH]; [congruence|].
  intros _ Hall. inversion Hall as [|? ? Hf Hrest]; subst.
  destruct rest as [|g rest].
  - simpl. apply split_without_sep, Hf.
  - change (Py.join c (f :: g :: rest))
      with (f ++ String c (Py.join c (g :: rest))).
    rewrite split_field_then_sep by exact Hf.
    rewrite IH; [reflexivity | discriminate | exact Hrest].
Qed.

Lemma uint_string_without_comma (d : Decimal.uint) :
  Py.contains Py.comma (NilEmpty.string_of_uint d) = false.
Proof. induction d; simpl; auto. Qed.

Lemma str_int_without_comma (z : Z) :
  Py.contains Py.comma (Py.str_int z) = false.
Proof.
  unfold Py.str_int, NilZero.string_of_int, NilZero.string_of_uint.
  destruct (Z.to_int z) as [d|d]; destruct d; simpl;
    auto using uint_string_without_comma.
Qed.

(** *** The base handle *)

Lemma apply_config_options_lookup (opts c : gmap string pyval) (k : string) :
  apply_config_options opts c !! k
  = match opts !! k with
    | Some v => Some v
    | None => c !! k
    end.
Proof.
  unfold apply_config_options.
  revert k.
  apply (map_fold_weak_ind
           (fun r (m : gmap string pyval) =>
              forall k, r !! k = match m !! k with
                                 | Some v => Some v
                                 | None => c !! k
                                 end)).
  - intros k. rewrite lookup_empty. reflexivity.
  - intros i x m r Hi IH k.
    destruct (decide (i = k)) as [->|Hne].
    + rewrite !lookup_insert_eq. reflexivity.
    + rewrite !lookup_insert_ne by exact Hne. apply IH.
Qed.

Lemma in_list_In (x : string) (l : list string) :
  Py.in_list x l = true <-> In x l.
Proof.
  unfold Py.in_list. rewrite existsb_exists. split.
  - intros (y & Hy & Heq). apply String.eqb_eq in Heq. subst. exact Hy.
  - intros H. exists x. split; [exact H | apply String.eqb_refl].
Qed.

Lemma apply_enabled_repos_ids (enabled : list string) (rs : list repo) :
  map repo_id (apply_enabled_repos enabled rs) = map repo_id rs.
Proof.
  induction rs as [|r rs IH]; simpl; [reflexivity|].
  rewrite IH. destruct (Py.in_list (repo_id r) enabled); reflexivity.
Qed.

Lemma apply_enabled_repos_state (enabled : list string) (rs : list repo)
    (r : repo) :
  In r (apply_enabled_repos enabled rs) ->
  repo_enabled r = Py.in_list (repo_id r) enabled.
Proof.
  unfold apply_enabled_repos. rewrite in_map_iff.
  intros (r0 & <- & _).
  destruct (Py.in_list (repo_id r0) enabled) eqn:E; simpl; rewrite ?E; reflexivity.
Qed.

Lemma base_eq (s : daemon) :
  base s = match _base s with
           | Some b => (s, Some b)
           | None => (set_base (Some (build_base true s)) s,
                      Some (build_base true s))
           end.
Proof.
  unfold base, _get_base. destruct (_base s) eqn:E; simpl.
  - rewrite E. reflexivity.
  - reflexivity.
Qed.

Lemma the_base_eq (s : daemon) :
  the_base s = match _base s with
               | Some b => (s, Ok b)
               | None => (set_base (Some (build_base true s)) s,
                          Ok (build_base true s))
               end.
Proof.
  unfold the_base. rewrite base_eq. destruct (_base s); reflexivity.
Qed.

Lemma the_base_held (s : daemon) (b : dnf_base) :
  _base s = Some b -> the_base s = (s, Ok b).
Proof. intros H. rewrite the_base_eq, H. reflexivity. Qed.

(** C4: reading the [base] property returns the stored handle, which
    is never [None]; a handle that is already set is returned as it is
    and the daemon is left untouched; an unset handle is first built
    from a fresh [backend.DnfBase] on which every cached option has
    been set and, when a list of enabled repositories is recorded,
    every repository has been enabled or disabled by its membership
    in that list, and is then loaded with [setup_base]. *)
Theorem base_property_lazy_init (s : daemon) :
  let '(s', r) := base s in
  (r = _base s' /\ r <> None)
  /\ (forall b, _base s = Some b -> s' = s /\ r = Some b)
  /\ (_base s = None ->
      exists b0,
        r = Some (setup_base b0)
        /\ s' = set_base (Some (setup_base b0)) s
        /\ (forall option value,
               _config_options s !! option = Some value ->
               conf b0 !! option = Some value)
        /\ (forall option,
               _config_options s !! option = None ->
               conf b0 !! option = conf backend_DnfBase !! option)
        /\ map repo_id (repos b0) = map repo_id (repos backend_DnfBase)
        /\ (_enabled_repos s <> [] ->
            forall repo, In repo (repos b0) ->
              repo_enabled repo = Py.in_list (repo_id repo) (_enabled_repos s))
        /\ (_enabled_repos s = [] -> repos b0 = repos backend_DnfBase)).
Proof.
  rewrite base_eq. destruct (_base s) as [b|] eqn:E.
  - split; [split; [symmetry; exact E | discriminate]|].
    split; [|discriminate].
    intros b' Hb'. split; [reflexivity | exact Hb'].
  - split; [split; [reflexivity | discriminate]|].
    split; [discriminate|]. intros _.
    unfold build_base.
    destruct (_enabled_repos s) as [|i l] eqn:Er.
    + eexists. split; [reflexivity|]. split; [reflexivity|]. simpl.
      split; [|split; [|split; [|split]]].
      * intros o v H. rewrite apply_config_options_lookup, H. reflexivity.
      * intros o H. rewrite apply_config_options_lookup, H. reflexivity.
      * reflexivity.
      * congruence.
      * reflexivity.
    + eexists. split; [reflexivity|]. split; [reflexivity|]. simpl.
      split; [|split; [|split; [|split]]].
      * intros o v H. rewrite apply_config_options_lookup, H. reflexivity.
      * intros o H. rewrite apply_config_options_lookup, H. reflexivity.
      * apply apply_enabled_repos_ids.
      * intros _ r Hr. apply apply_enabled_repos_state in Hr. exact Hr.
      * discriminate.
Qed.

(** *** Package ids *)

Lemma filter_nvra_In (n v r a : string) (q : list package) (po : package) :
  In po (filter_nvra n v r a q)
  <-> In po q /\ name po = n /\ version po = v
      /\ release po = r /\ arch po = a.
Proof.
  forget_collaborators.
  unfold filter_nvra. rewrite filter_In. unfold nvra_match.
  rewrite !andb_true_iff, !String.eqb_eq. tauto.
Qed.

Lemma unpack6_get_id (pkg : package) :
  Py.contains Py.comma (name pkg) = false ->
  Py.contains Py.comma (version pkg) = false ->
  Py.contains Py.comma (release pkg) = false ->
  Py.contains Py.comma (arch pkg) = false ->
  Py.contains Py.comma (ui_from_repo pkg) = false ->
  Py.split Py.comma (_get_id pkg)
  = [name pkg; Py.str_int (epoch pkg); version pkg; release pkg;
     arch pkg; ui_from_repo pkg].
Proof.
  intros Hn Hv Hr Ha Hu. unfold _get_id.
  apply split_join; [discriminate|].
  repeat constructor; auto using str_int_without_comma.
Qed.

(** C8: for a package whose fields hold no comma, [_get_id] joins six
    fields which [_get_po] splits back; [_get_po] then looks among
    the installed packages when the repo field starts with [@] and
    among the available ones otherwise, and returns the first package
    there that agrees on name, version, release and arch (whatever the
    epoch), or [None] when there is none. *)
Theorem get_po_of_get_id (pkg : package) (s : daemon) :
  Py.contains Py.comma (name pkg) = false ->
  Py.contains Py.comma (version pkg) = false ->
  Py.contains Py.comma (release pkg) = false ->
  Py.contains Py.comma (arch pkg) = false ->
  Py.contains Py.comma (ui_from_repo pkg) = false ->
  unpack6 (_get_id pkg)
  = Ok (name pkg, Py.str_int (epoch pkg), version pkg, release pkg,
        arch pkg, ui_from_repo pkg)
  /\ exists s' b r,
      base s = (s', Some b)
      /\ _get_po (_get_id pkg) s = (s', Ok r)
      /\ let queried := if Py.startswith "@" (ui_from_repo pkg)
                        then installed_pkgs (sack b)
                        else available_pkgs (sack b) in
         r = first_or_none
               (filter_nvra (name pkg) (version pkg) (release pkg)
                  (arch pkg) queried)
         /\ (forall po, r = Some po ->
               In po queried /\ name po = name pkg
               /\ version po = version pkg /\ release po = release pkg
               /\ arch po = arch pkg)
         /\ (r = None <->
             forall po, In po queried ->
               ~ (name po = name pkg /\ version po = version pkg
                  /\ release po = release pkg /\ arch po = arch pkg)).
Proof.
  forget_collaborators.
  intros Hn Hv Hr Ha Hu.
  pose proof (unpack6_get_id pkg Hn Hv Hr Ha Hu) as Hsplit.
  assert (Hun : unpack6 (_get_id pkg)
                = Ok (name pkg, Py.str_int (epoch pkg), version pkg,
                      release pkg, arch pkg, ui_from_repo pkg)).
  { unfold unpack6. rewrite Hsplit. reflexivity. }
  split; [exact Hun|].
  assert (Hb : exists s' b, base s = (s', Some b) /\ the_base s = (s', Ok b)).
  { rewrite base_eq, the_base_eq. destruct (_base s); eauto. }
  destruct Hb as (s' & b & Hbase & Hthe).
  set (queried := if Py.startswith "@" (ui_from_repo pkg)
                  then installed_pkgs (sack b) else available_pkgs (sack b)).
  exists s', b,
    (first_or_none (filter_nvra (name pkg) (version pkg) (release pkg)
                      (arch pkg) queried)).
  split; [exact Hbase|]. split.
  - unfold _get_po. rewrite Hun. unfold bind. rewrite Hthe.
    unfold lift, _get_po_in. rewrite Hun. subst queried.
    destruct (Py.startswith "@" (ui_from_repo pkg)); reflexivity.
  - cbv zeta. fold queried. split; [reflexivity|]. split.
    + intros po Hpo.
      destruct (filter_nvra (name pkg) (version pkg) (release pkg)
                  (arch pkg) queried) as [|p l] eqn:Ef; [discriminate|].
      injection Hpo as ->.
      apply (filter_nvra_In (name pkg) (version pkg) (release pkg) (arch pkg)).
      rewrite Ef. left. reflexivity.
    + destruct (filter_nvra (name pkg) (version pkg) (release pkg)
                  (arch pkg) queried) as [|p l] eqn:Ef; simpl.
      * split; [|reflexivity]. intros _ po Hin Hagree.
        assert (Hf : In po (filter_nvra (name pkg) (version pkg)
                              (release pkg) (arch pkg) queried))
          by (apply filter_nvra_In; tauto).
        rewrite Ef in Hf. destruct Hf.
      * split; [discriminate|]. intros Hnone. exfalso.
        assert (Hf : In p (filter_nvra (name pkg) (version pkg)
                             (release pkg) (arch pkg) queried))
          by (rewrite Ef; left; reflexivity).
        apply filter_nvra_In in Hf. destruct Hf as (Hin & Hrest).
        exact (Hnone p Hin Hrest).
Qed.

(** *** The watchdog *)

Lemma reset_base_None (s : daemon) : _base (_reset_base s) = None.
Proof. unfold _reset_base. destruct (_base s) eqn:E; [reflexivity | exact E]. Qed.

Lemma reset_base_count (s : daemon) :
  _watchdog_count (_reset_base s) = _watchdog_count s.
Proof. unfold _reset_base. destruct (_base s); reflexivity. Qed.

(** C3: one call of the watchdog. While the watchdog is disabled or
    the daemon is working, the daemon is left as it is and the
    watchdog stays scheduled. Otherwise, with the limit 20 when no
    lock is held and 600 when one is: up to the limit the call adds
    exactly one to [_watchdog_count], changes nothing else and stays
    scheduled; past the limit it resets the base handle and quits the
    main loop when [_can_quit] holds, and changes nothing when it
    does not. The main loop is quit, or the handle reset, in no other
    case. *)
Theorem watchdog_tick (s : daemon) :
  _timeout_idle s = 20 ->
  _timeout_locked s = 600 ->
  let '(s', r) := _watchdog s in
  let limit := if lock_held s then 600 else 20 in
  (_watchdog_disabled s = true \/ _is_working s = true ->
   s' = s /\ r = PBool true)
  /\ (_watchdog_disabled s = false -> _is_working s = false ->
      (_watchdog_count s <= limit ->
       s' = set_watchdog_count (_watchdog_count s + 1) s
       /\ _watchdog_count s' = _watchdog_count s + 1
       /\ _base s' = _base s
       /\ mainloop_quit_called s' = mainloop_quit_called s
       /\ r = PBool true)
      /\ (limit < _watchdog_count s -> _can_quit s = true ->
          s' = mainloop_quit (_reset_base s)
          /\ _watchdog_count s' = _watchdog_count s
          /\ _base s' = None
          /\ mainloop_quit_called s' = true
          /\ r = PNone)
      /\ (limit < _watchdog_count s -> _can_quit s = false ->
          s' = s /\ r = PNone))
  /\ (mainloop_quit_called s' <> mainloop_quit_called s
      \/ _base s' <> _base s ->
      _watchdog_disabled s = false /\ _is_working s = false
      /\ limit < _watchdog_count s /\ _can_quit s = true).
Proof.
  forget_collaborators.
  intros Hidle Hlocked. unfold _watchdog. rewrite Hidle, Hlocked.
  pose proof (reset_base_None s) as Hreset.
  pose proof (reset_base_count s) as Hcount.
  destruct (_watchdog_disabled s) eqn:Ed, (_is_working s) eqn:Ew,
    (lock_held s) eqn:El; simpl;
    try (intuition congruence).
  - destruct (Z.gtb_spec (_watchdog_count s) 600) as [Hgt|Hle];
      [destruct (_can_quit s) eqn:Eq|]; simpl;
      intuition (try congruence; try lia).
  - destruct (Z.gtb_spec (_watchdog_count s) 20) as [Hgt|Hle];
      [destruct (_can_quit s) eqn:Eq|]; simpl;
      intuition (try congruence; try lia).
Qed.

(** An idle daemon created by [__init__] counts to 21 in 21 calls and
    is quit by the 22nd. *)
Example watchdog_idle_run :
  watchdog_ticks 21 __init__ = (set_watchdog_count 21 __init__, PBool true)
  /\ watchdog_ticks 22 __init__
     = (mainloop_quit (set_watchdog_count 21 __init__), PNone).
Proof. split; reflexivity. Qed.

(** *** Key import *)

(** C10: a call of [_handle_gpg_import] for a key id that is not in
    [_gpg_confirm] records the key with [False], sends [GPGImport]
    for it once and answers [False]; a call answers [True] only for a
    key that was already recorded with [True], and a call for a
    recorded key changes nothing and sends nothing. *)
Theorem handle_gpg_import_unconfirmed (info : gpg_info_t) (s : daemon) :
  let k := gi_hexkeyid info in
  let '(s', r) := _handle_gpg_import info s in
  (_gpg_confirm s !! k = None ->
   r = Ok false
   /\ _gpg_confirm s' = <[k := false]> (_gpg_confirm s)
   /\ signals s'
      = (signals s
           ++ [GPGImport (_get_id (gi_po info)) (gi_userid info) k
                 (gi_keyurl info) (gi_timestamp info)])%list)
  /\ (r = Ok true -> _gpg_confirm s !! k = Some true)
  /\ (forall c, _gpg_confirm s !! k = Some c -> r = Ok c /\ s' = s).
Proof.
  cbv zeta. unfold _handle_gpg_import, bind, gets, modify, ret, id.
  destruct (_gpg_confirm s !! gi_hexkeyid info) as [c|] eqn:E; simpl.
  - rewrite E. split; [discriminate|]. split.
    + intros H. congruence.
    + intros c' Hc. split; [congruence | reflexivity].
  - rewrite lookup_insert_eq. split.
    + intros _. repeat split; reflexivity.
    + split; [discriminate|]. intros c Hc. discriminate.
Qed.

(** *** Enabled repositories and options *)

Lemma get_base_reset (load_sack : bool) (s : daemon) :
  _get_base true load_sack s
  = (set_base (Some (build_base load_sack s)) s,
     Some (build_base load_sack s)).
Proof. unfold _get_base. destruct (_base s); reflexivity. Qed.

Lemma set_enabled_repos_eq (repo_ids : list string) (s : daemon) :
  set_enabled_repos repo_ids s
  = (let s1 := _reset_base (set_enabled_repos_field repo_ids s) in
     (set_base (Some (setup_base (build_base false s1))) s1, Ok tt)).
Proof.
  unfold set_enabled_repos. rewrite get_base_reset. reflexivity.
Qed.

Lemma reset_base_enabled_repos (s : daemon) :
  _enabled_repos (_reset_base s) = _enabled_repos s.
Proof. unfold _reset_base. destruct (_base s); reflexivity. Qed.

Lemma reset_base_config_options (s : daemon) :
  _config_options (_reset_base s) = _config_options s.
Proof. unfold _reset_base. destruct (_base s); reflexivity. Qed.

(** C5, what the code does: [set_enabled_repos] returns with
    [repo_ids] stored and a rebuilt base handle. The handle is a fresh
    [backend.DnfBase] object [b] that holds the cached options and the
    repositories of the fresh object, and on which [setup_base] has
    then been called. When [repo_ids] is not empty, a repository of
    [b] is enabled exactly when its id is in [repo_ids]. When
    [repo_ids] is empty, the guard [if self._enabled_repos:] of
    [_get_base] skips the loop and the repositories of [b] are those
    of the fresh object, unchanged: none is disabled, contrary to the
    docstring of [set_enabled_repos]. *)
Theorem set_enabled_repos_rebuilds (repo_ids : list string) (s : daemon) :
  exists s' b,
    set_enabled_repos repo_ids s = (s', Ok tt)
    /\ _enabled_repos s' = repo_ids
    /\ _base s' = Some (setup_base b)
    /\ conf b = apply_config_options (_config_options s) (conf backend_DnfBase)
    /\ map repo_id (repos b) = map repo_id (repos backend_DnfBase)
    /\ (repo_ids <> [] ->
        forall repo, In repo (repos b) ->
          (repo_enabled repo = true <-> In (repo_id repo) repo_ids))
    /\ (repo_ids = [] -> repos b = repos backend_DnfBase).
Proof.
  rewrite set_enabled_repos_eq. cbv zeta.
  eexists _, _. split; [reflexivity|].
  split; [simpl; apply reset_base_enabled_repos|].
  split; [reflexivity|].
  unfold build_base.
  rewrite reset_base_enabled_repos, reset_base_config_options. simpl.
  destruct repo_ids as [|i l]; simpl.
  - split; [reflexivity|]. split; [reflexivity|].
    split; [congruence | reflexivity].
  - split; [reflexivity|].
    split; [apply apply_enabled_repos_ids|]. split; [|discriminate].
    intros _ repo Hin. apply apply_enabled_repos_state in Hin.
    rewrite Hin. apply in_list_In.
Qed.




(** *** Attributes of a package *)

Lemma get_po_eq (id : string) (s : daemon) :
  _get_po id s
  = match unpack6 id with
    | Raise e => (s, Raise e)
    | Ok _ =>
        match the_base s with
        | (s', Ok b) => (s', _get_po_in (sack b) id)
        | (s', Raise e) => (s', Raise e)
        end
    end.
Proof.
  unfold _get_po. destruct (unpack6 id); [|reflexivity].
  unfold bind, lift. destruct (the_base s) as [s' [b|e]]; reflexivity.
Qed.

(** an id that does not split into six fields makes [get_attribute]
    raise, whatever the attribute *)
Lemma get_attribute_malformed_id (id attr : string) (s : daemon) (e : exn) :
  unpack6 id = Raise e -> get_attribute id attr s = (s, Raise e).
Proof.
  intros H. unfold get_attribute, bind. rewrite get_po_eq, H. reflexivity.
Qed.

(** C9, as the code has it: for an id of six comma-separated fields,
    [get_attribute] returns the JSON text of [None] when the id
    resolves to no package, and when it resolves to a package that
    lacks the attribute and the attribute is not one of [FAKE_ATTR]. *)
Theorem get_attribute_none (id attr : string) (s : daemon) :
  (exists fields, unpack6 id = Ok fields) ->
  exists s' b found,
    base s = (s', Some b)
    /\ _get_po id s = (s', Ok found)
    /\ (found = None ->
        get_attribute id attr s = (s', Ok (json_dumps PNone)))
    /\ (forall po,
           found = Some po ->
           Py.in_list attr FAKE_ATTR = false ->
           pkg_getattr po attr = None ->
           get_attribute id attr s = (s', Ok (json_dumps PNone))).
Proof.
  intros (fields & Hf).
  assert (Hb : exists s' b, base s = (s', Some b) /\ the_base s = (s', Ok b)).
  { rewrite base_eq, the_base_eq. destruct (_base s); eauto. }
  destruct Hb as (s' & b & Hbase & Hthe).
  assert (Hpo : exists found, _get_po id s = (s', Ok found)).
  { rewrite get_po_eq, Hf, Hthe. unfold _get_po_in. rewrite Hf.
    destruct fields as [[[[[n e] v] r] a] repo_id].
    destruct (Py.startswith "@" repo_id); eauto. }
  destruct Hpo as (found & Hpo).
  exists s', b, found. split; [exact Hbase|]. split; [exact Hpo|].
  unfold get_attribute, bind. rewrite Hpo. split.
  - intros ->. reflexivity.
  - intros po -> Hfake Hattr. rewrite Hfake, Hattr. reflexivity.
Qed.

(** an attribute the package has, outside [FAKE_ATTR]: its value is
    printed when [json.dumps] can print it, and the [TypeError] of
    [json.dumps] leaves [get_attribute] otherwise *)
Lemma get_attribute_present (id attr : string) (s s' : daemon)
    (po : package) (o : pyobj) :
  _get_po id s = (s', Ok (Some po)) ->
  Py.in_list attr FAKE_ATTR = false ->
  pkg_getattr po attr = Some o ->
  get_attribute id attr s
  = (s', match to_json o with
         | Some v => Ok (json_dumps v)
         | None => Raise (TypeError "is not JSON serializable")
         end).
Proof.
  intros Hpo Hfake Hattr. unfold get_attribute, bind.
  rewrite Hpo, Hfake, Hattr. unfold json_dumps_of.
  destruct (to_json o); reflexivity.
Qed.

(** *** Listing the transaction *)

Lemma tx_key_inj (o o' : op_type_t) : tx_key o = tx_key o' -> o = o'.
Proof. destruct o, o'; simpl; intros H; try reflexivity; discriminate H. Qed.

Lemma op_eqb_eq (o o' : op_type_t) : op_eqb o o' = true <-> o = o'.
Proof. destruct o, o'; simpl; split; intros H; congruence. Qed.

Lemma tx_list_init_lookup (o : op_type_t) :
  tx_list_init !! tx_key o = Some [].
Proof. destruct o; reflexivity. Qed.

(** after the first loop of [_get_transaction], each key of [tx_list]
    holds the items of its operation, in the order of the transaction *)
Lemma tx_list_classified (tx : list tsi_t) :
  forall (tx_list : gmap string (list tsi_t)) (held : op_type_t -> list tsi_t),
    (forall o, tx_list !! tx_key o = Some (held o)) ->
    forall o,
      fold_left tx_list_append tx tx_list !! tx_key o
      = Some (held o ++ items_of o tx)%list.
Proof.
  induction tx as [|tsi tx IH]; intros tx_list held Hheld o; simpl.
  - rewrite app_nil_r. apply Hheld.
  - rewrite (IH _ (fun o' => if op_eqb (op_type tsi) o'
                             then (held o' ++ [tsi])%list else held o')).
    + destruct (op_eqb (op_type tsi) o); [|reflexivity].
      rewrite <- app_assoc. reflexivity.
    + intros o'. unfold tx_list_append.
      destruct (op_eqb (op_type tsi) o') eqn:E.
      * apply op_eqb_eq in E. subst o'.
        rewrite lookup_insert_eq, lookup_total_alt, Hheld. reflexivity.
      * rewrite lookup_insert_ne; [apply Hheld|].
        intros Hk. apply tx_key_inj in Hk.
        apply op_eqb_eq in Hk. congruence.
Qed.

Lemma tx_element_triple (tsi : tsi_t) :
  _active_pkg tsi <> None -> tx_element tsi = Ok (tx_triple tsi).
Proof.
  unfold tx_element, tx_triple. destruct (_active_pkg tsi); [|congruence].
  intros _. rewrite map_map. reflexivity.
Qed.

Lemma tx_sublist_triples (pkglist : list tsi_t) :
  Forall (fun tsi => _active_pkg tsi <> None) pkglist ->
  forall sublist,
    tx_sublist pkglist sublist = Ok (sublist ++ map tx_triple pkglist)%list.
Proof.
  induction 1 as [|tsi rest Htsi _ IH]; intros sublist; simpl.
  - rewrite app_nil_r. reflexivity.
  - rewrite (tx_element_triple tsi Htsi), IH, <- app_assoc. reflexivity.
Qed.

(** the second loop of [_get_transaction], started with an empty
    [sublist] *)
Lemma tx_action_tree_groups (pairs : list (string * list tsi_t)) :
  Forall (fun p => Forall (fun tsi => _active_pkg tsi <> None) (snd p)) pairs ->
  forall out_list,
    tx_action_tree pairs [] out_list
    = Ok (out_list
            ++ flat_map
                 (fun p => match snd p with
                           | [] => []
                           | tsi :: l =>
                               [PList [PStr (fst p);
                                       PList (map tx_triple (tsi :: l))]]
                           end) pairs)%list.
Proof.
  induction 1 as [|[action pkglist] rest Hp _ IH]; intros out_list.
  - simpl. rewrite app_nil_r. reflexivity.
  - cbn [tx_action_tree]. rewrite (tx_sublist_triples pkglist Hp).
    cbn [flat_map fst snd app].
    destruct pkglist as [|tsi l].
    + cbn [map app]. rewrite IH. reflexivity.
    + rewrite IH, <- app_assoc. reflexivity.
Qed.

Lemma items_of_active (o : op_type_t) (tx : list tsi_t) :
  Forall (fun tsi => _active_pkg tsi <> None) tx ->
  Forall (fun tsi => _active_pkg tsi <> None) (items_of o tx).
Proof.
  rewrite !List.Forall_forall. unfold items_of.
  intros H tsi Hin. apply filter_In in Hin. apply H, Hin.
Qed.

Lemma transaction_by_action_nil (tx : list tsi_t) :
  transaction_by_action tx = [] <-> tx = [].
Proof.
  split.
  - destruct tx as [|tsi tx]; [reflexivity|]. intros H. exfalso.
    assert (Hin : In tsi (items_of (op_type tsi) (tsi :: tx))).
    { apply filter_In. split; [left; reflexivity | apply op_eqb_eq; reflexivity]. }
    unfold transaction_by_action, action_order in H.
    destruct (op_type tsi);
      repeat match type of H with
             | context [flat_map _ (_ :: _)] => cbn [flat_map] in H
             end;
      repeat match type of H with
             | (?a ++ ?b)%list = [] =>
                 apply app_eq_nil in H; destruct H as [? H]
             end;
      repeat match goal with
             | Hi : In _ (items_of ?o ?l),
               He : match items_of ?o ?l with [] => _ | _ :: _ => _ end = [] |- _ =>
                 destruct (items_of o l); [destruct Hi | discriminate He]
             end.
  - intros ->. reflexivity.
Qed.

Lemma get_transaction_list (b : dnf_base) (tx : list tsi_t) :
  tx = match transaction b with Some l => l | None => [] end ->
  Forall (fun tsi => _active_pkg tsi <> None) tx ->
  (let tx_list :=
     match transaction b with
     | Some (tsi :: l) => fold_left tx_list_append (tsi :: l) tx_list_init
     | _ => tx_list_init
     end in
   tx_action_tree
     [("install", tx_list !!! "install");
      ("update", tx_list !!! "update");
      ("remove", tx_list !!! "remove");
      ("reinstall", tx_list !!! "reinstall");
      ("downgrade", tx_list !!! "downgrade")] [] [])
  = Ok (transaction_by_action tx).
Proof.
  intros Htx Hactive.
  assert (Hlist : forall o,
             match transaction b with
             | Some (tsi :: l) => fold_left tx_list_append (tsi :: l) tx_list_init
             | _ => tx_list_init
             end !!! tx_key o = items_of o tx).
  { intros o. rewrite lookup_total_alt.
    destruct (transaction b) as [[|tsi l]|]; subst tx;
      try (rewrite tx_list_init_lookup; reflexivity).
    rewrite (tx_list_classified _ _ (fun _ => []) tx_list_init_lookup).
    reflexivity. }
  cbv zeta.
  change "reinstall" with (tx_key REINSTALL).
  change "install" with (tx_key INSTALL).
  change "update" with (tx_key UPGRADE).
  change "remove" with (tx_key ERASE).
  change "downgrade" with (tx_key DOWNGRADE).
  rewrite !Hlist, tx_action_tree_groups.
  - unfold transaction_by_action, action_order.
    cbn [flat_map fst snd app]. reflexivity.
  - repeat constructor; apply items_of_active; exact Hactive.
Qed.

(** C2: when every item of the transaction has its active package,
    [get_transaction] returns the JSON text of the pair [(rc, trans)]
    where [rc] is [True] exactly when the transaction has an item,
    and [trans] lists, in the order install, update, remove,
    reinstall, downgrade, each action that has items with the triples
    of its items; an action is listed exactly when it has an item. *)
Theorem get_transaction_by_action (s : daemon) :
  exists s' b,
    base s = (s', Some b)
    /\ let tx := match transaction b with Some l => l | None => [] end in
       Forall (fun tsi => _active_pkg tsi <> None) tx ->
       exists rc trans,
         get_transaction s
         = (s', Ok (json_dumps (PTuple [PBool rc; PList trans])))
         /\ (rc = true <-> tx <> [])
         /\ trans = transaction_by_action tx
         /\ (forall o,
                (exists sub, In (PList [PStr (tx_key o); PList sub]) trans)
                <-> items_of o tx <> [])
         /\ (forall o sub,
                In (PList [PStr (tx_key o); PList sub]) trans ->
                sub = map tx_triple (items_of o tx)).
Proof.
  forget_collaborators.
  assert (Hb : exists s' b, base s = (s', Some b) /\ the_base s = (s', Ok b)).
  { rewrite base_eq, the_base_eq. destruct (_base s); eauto. }
  destruct Hb as (s' & b & Hbase & Hthe).
  exists s', b. split; [exact Hbase|]. cbv zeta. intros Hactive.
  set (tx := match transaction b with Some l => l | None => [] end) in *.
  exists (match transaction_by_action tx with [] => false | _ :: _ => true end),
    (transaction_by_action tx).
  assert (Hgroup : forall o sub,
             In (PList [PStr (tx_key o); PList sub]) (transaction_by_action tx) ->
             items_of o tx <> [] /\ sub = map tx_triple (items_of o tx)).
  { intros o sub Hin. unfold transaction_by_action in Hin.
    apply in_flat_map in Hin. destruct Hin as (o' & _ & Hin).
    destruct (items_of o' tx) as [|tsi l] eqn:E; [destruct Hin|].
    destruct Hin as [Heq|[]]. injection Heq as Hk Hsub.
    apply tx_key_inj in Hk. subst o'. rewrite E. split; [discriminate|].
    symmetry. exact Hsub. }
  split; [|split; [|split; [reflexivity|split]]].
  - unfold get_transaction, _get_transaction, bind, lift, ret.
    rewrite Hthe.
    pose proof (get_transaction_list b tx eq_refl Hactive) as Hlist.
    cbv zeta in Hlist. cbv zeta. rewrite Hlist. reflexivity.
  - pose proof (transaction_by_action_nil tx) as Hnil.
    destruct (transaction_by_action tx); split; intros H; try congruence.
    + exfalso. apply H. apply Hnil. reflexivity.
    + intros Htx. apply Hnil in Htx. discriminate.
  - intros o. split.
    + intros (sub & Hin). apply (Hgroup o sub Hin).
    + intros Hne. exists (map tx_triple (items_of o tx)).
      unfold transaction_by_action. apply in_flat_map. exists o. split.
      * unfold action_order. destruct o; simpl; tauto.
      * destruct (items_of o tx); [congruence | left; reflexivity].
  - intros o sub Hin. apply (Hgroup o sub Hin).
Qed.

(** *** History by days *)

(** the [while] loop keeps the qualifying transactions it meets
    before the first one that is too old *)
Lemma history_loop_eq (now start end_ : Z) (history : list hist_trans) :
  forall result,
    history_loop now start end_ history result
    = (result
         ++ List.filter (qualifies now start end_)
              (until_too_old now start end_ history))%list.
Proof.
  induction history as [|ht rest IH]; intros result.
  - simpl. rewrite app_nil_r. reflexivity.
  - cbn [history_loop until_too_old].
    assert (Hold : too_old now start end_ ht
                   = match end_timestamp ht with
                     | Some ts => negb (Z.eqb ts 0)
                                  && (start <=? delta_days now ts)
                                  && (end_ <? delta_days now ts)
                     | None => false
                     end).
    { unfold too_old, has_end_timestamp, age_days.
      destruct (end_timestamp ht); reflexivity. }
    assert (Hq : qualifies now start end_ ht
                 = match end_timestamp ht with
                   | Some ts => negb (Z.eqb ts 0)
                                && (start <=? delta_days now ts)
                                && (delta_days now ts <=? end_)
                   | None => false
                   end).
    { unfold qualifies, has_end_timestamp, age_days.
      destruct (end_timestamp ht); reflexivity. }
    rewrite Hold. clear Hold.
    destruct (end_timestamp ht) as [ts|].
    + destruct (Z.eqb ts 0); cbn [negb andb].
      { cbn [List.filter]. rewrite Hq. apply IH. }
      destruct (Z.ltb_spec (delta_days now ts) start) as [Hlt|Hge].
      { destruct (Z.leb_spec start (delta_days now ts)); [lia|].
        cbn [andb List.filter]. rewrite Hq. apply IH. }
      destruct (Z.leb_spec start (delta_days now ts)); [|lia].
      cbn [andb] in *.
      destruct (Z.gtb_spec (delta_days now ts) end_) as [Hgt|Hle].
      { destruct (Z.ltb_spec end_ (delta_days now ts)); [|lia].
        cbn [List.filter]. rewrite app_nil_r. reflexivity. }
      destruct (Z.ltb_spec end_ (delta_days now ts)); [lia|].
      destruct (Z.leb_spec (delta_days now ts) end_); [|lia].
      cbn [List.filter]. rewrite Hq, IH, <- app_assoc. reflexivity.
    + cbn [List.filter]. rewrite Hq. apply IH.
Qed.

Lemma until_too_old_incl (now start end_ : Z) (history : list hist_trans)
    (ht : hist_trans) :
  In ht (until_too_old now start end_ history) -> In ht history.
Proof.
  forget_collaborators.
  induction history as [|h rest IH]; simpl; [tauto|].
  destruct (too_old now start end_ h); simpl; [tauto|].
  intros [H|H]; [left; exact H | right; apply IH, H].
Qed.

Lemma until_too_old_all (now start end_ : Z) (history : list hist_trans) :
  (forall ht, In ht history -> too_old now start end_ ht = false) ->
  until_too_old now start end_ history = history.
Proof.
  induction history as [|h rest IH]; simpl; [reflexivity|].
  intros H. rewrite (H h) by (left; reflexivity).
  rewrite IH; [reflexivity|]. intros ht Hin. apply H. right. exact Hin.
Qed.

Lemma get_id_time_list_eq (l : list hist_trans) :
  Forall (fun ht => has_end_timestamp ht = true) l ->
  _get_id_time_list l = Ok (map id_time l).
Proof.
  induction 1 as [|ht rest Hht _ IH]; simpl; [reflexivity|].
  unfold has_end_timestamp in Hht. unfold id_time.
  destruct (end_timestamp ht); [|discriminate].
  rewrite IH. reflexivity.
Qed.

(** C7, as the code has it: [get_history_by_days] returns the JSON
    text of the pairs [(tid, isodate)] of the transactions it keeps.
    Every kept transaction is in the history, has an end timestamp
    and is between [start] and [end_] whole days old. The kept
    transactions are, in history order, the qualifying ones that come
    before the first transaction that ended at least [start] and more
    than [end_] days ago; they are all the qualifying ones when the
    history has no such transaction. *)
Theorem get_history_by_days_kept (now start end_ : Z) (s : daemon) :
  exists s' b kept,
    base s = (s', Some b)
    /\ get_history_by_days now start end_ s
       = (s', Ok (json_dumps (PList (map id_time kept))))
    /\ kept = List.filter (qualifies now start end_)
                (until_too_old now start end_ (history b))
    /\ (forall ht, In ht kept ->
          In ht (history b)
          /\ has_end_timestamp ht = true
          /\ start <= age_days now ht <= end_)
    /\ ((forall ht, In ht (history b) -> too_old now start end_ ht = false) ->
        kept = List.filter (qualifies now start end_) (history b)).
Proof.
  forget_collaborators.
  assert (Hb : exists s' b, base s = (s', Some b) /\ the_base s = (s', Ok b)).
  { rewrite base_eq, the_base_eq. destruct (_base s); eauto. }
  destruct Hb as (s' & b & Hbase & Hthe).
  set (kept := List.filter (qualifies now start end_)
                 (until_too_old now start end_ (history b))).
  assert (Hkept : forall ht, In ht kept ->
             In ht (history b) /\ has_end_timestamp ht = true
             /\ start <= age_days now ht <= end_).
  { intros ht Hin. apply filter_In in Hin. destruct Hin as [Hin Hq].
    apply until_too_old_incl in Hin. unfold qualifies in Hq.
    apply andb_true_iff in Hq. destruct Hq as [Hq Hend].
    apply andb_true_iff in Hq. destruct Hq as [Hts Hstart].
    apply Z.leb_le in Hstart, Hend. tauto. }
  exists s', b, kept. split; [exact Hbase|]. split.
  - unfold get_history_by_days, bind, lift, ret. rewrite Hthe.
    rewrite history_loop_eq. cbn [app]. fold kept.
    rewrite get_id_time_list_eq; [reflexivity|].
    apply List.Forall_forall. intros ht Hin. apply (Hkept ht Hin).
  - split; [reflexivity|]. split; [exact Hkept|].
    intros Hnone. unfold kept. rewrite until_too_old_all by exact Hnone.
    reflexivity.
Qed.

(** *** Running the transaction *)

Lemma dict_get_head (k : string) (l : list string)
    (rest : list (string * list string)) :
  Py.dict_get ((k, l) :: rest) k = Some l.
Proof. simpl. rewrite String.eqb_refl. reflexivity. Qed.

Lemma download_error_msgs_lines (errmap : list (string * list string)) :
  NoDup (map fst errmap) ->
  download_error_msgs errmap = download_error_lines errmap.
Proof.
  unfold download_error_msgs, download_error_lines.
  assert (H : forall (done todo : list (string * list string)),
             NoDup (map fst (done ++ todo)) ->
             flat_map
               (fun fn =>
                  match Py.dict_get (done ++ todo) fn with
                  | Some l => map (fun msg => fn ++ " : " ++ msg) l
                  | None => []
                  end) (map fst todo)
             = flat_map (fun '(fn, l) => map (fun msg => fn ++ " : " ++ msg) l)
                 todo).
  { intros done todo. revert done.
    induction todo as [|[fn l] todo IH]; intros done Hnd; [reflexivity|].
    cbn [map fst flat_map].
    assert (Hget : Py.dict_get (done ++ (fn, l) :: todo) fn = Some l).
    { clear IH. induction done as [|[k v] done IHd].
      - apply dict_get_head.
      - simpl. simpl in Hnd. inversion Hnd as [|? ? Hnotin Hnd']; subst.
        destruct (String.eqb_spec k fn) as [->|Hne].
        + exfalso. apply Hnotin. rewrite map_app. apply elem_of_app.
          right. simpl. left.
        + apply IHd, Hnd'. }
    rewrite Hget. f_equal.
    specialize (IH (done ++ [(fn, l)])%list).
    rewrite <- app_assoc in IH. apply IH. exact Hnd. }
  intros Hnd. apply (H [] errmap Hnd).
Qed.

Lemma download_error_lines_length (errmap : list (string * list string)) :
  length (download_error_lines errmap)
  = fold_right (fun e n => (length (snd e) + n)%nat) 0%nat errmap.
Proof.
  induction errmap as [|[fn l] rest IH]; [reflexivity|].
  unfold download_error_lines in *. cbn [flat_map fold_right snd].
  rewrite length_app, length_map, IH. reflexivity.
Qed.

(** a failing download ends the [try] block with the error of the
    library *)
Lemma run_transaction_try_download_fails (s : daemon) (b : dnf_base)
    (po : package) (rest : list package) (e : exn) :
  _base s = Some b ->
  download_packages b (po :: rest) = Some e ->
  exists s', run_transaction_try (po :: rest) s = (s', Raise e).
Proof.
  intros Hb Hd. unfold run_transaction_try, bind, modify, call.
  rewrite (the_base_held _ b) by exact Hb. rewrite Hd.
  eexists. reflexivity.
Qed.

(** a signature that is neither good nor missing its key raises
    [GPGError] with the message of the check *)
Lemma check_gpg_signatures_rejected (s : daemon) (b : dnf_base)
    (po : package) (rest : list package) (r : Z) (errmsg : string) :
  _base s = Some b ->
  _sig_check_pkg b po = (r, errmsg) ->
  r <> 0 -> r <> 1 ->
  _check_gpg_signatures (po :: rest) s = (s, Raise (GPGError errmsg)).
Proof.
  intros Hb Hsig H0 H1. cbn [_check_gpg_signatures]. unfold bind.
  rewrite (the_base_held s b Hb), Hsig.
  destruct (Z.eqb_spec r 0); [contradiction|].
  destruct (Z.eqb_spec r 1); [contradiction|]. reflexivity.
Qed.

(** an error of the library while importing the key is raised again
    as [GPGError] with the same text *)
Lemma check_gpg_signatures_key_error (s s' : daemon) (b : dnf_base)
    (po : package) (rest : list package) (errmsg : string) (e : exn) :
  _base s = Some b ->
  _sig_check_pkg b po = (1, errmsg) ->
  _get_key_for_package b po _handle_gpg_import s = (s', Raise e) ->
  is_dnf_Error e = true ->
  _check_gpg_signatures (po :: rest) s = (s', Raise (GPGError (exn_str e))).
Proof.
  intros Hb Hsig Hkey He. cbn [_check_gpg_signatures]. unfold bind.
  rewrite (the_base_held s b Hb), Hsig. cbn [Z.eqb Pos.eqb].
  rewrite (the_base_held s b Hb). unfold try_except.
  rewrite Hkey, He. reflexivity.
Qed.

(** C1, as the code has it: once [base.transaction] is set,
    [run_transaction] returns the JSON text of a pair [(rc, msgs)]
    for each way the [try] block can end other than with an
    exception outside its [except] clauses: [(0, [])] when it
    completes; [rc = 4] for a [DownloadError], with one line
    [filename : message] for every message of every entry of the
    error map, or the text of the error when there is no map;
    [rc = 1] with the text of the error for a [GPGError]; [rc = 2]
    with the text of the error for any other [dnf.exceptions.Error].
    In each case the daemon may quit again and the base handle is
    reset. *)
Theorem run_transaction_outcome (s s1 : daemon) (b : dnf_base)
    (tx : list tsi_t) :
  base (emit (TransactionEvent "start-run" (PStr NONE)) s) = (s1, Some b) ->
  transaction b = Some tx ->
  let to_dnl := packages_to_download tx in
  let returns s2 rc msgs :=
    run_transaction s
    = (run_transaction_end s2,
       Ok (json_dumps (PTuple [PInt rc; PList (map PStr msgs)])))
    /\ _can_quit (run_transaction_end s2) = true
    /\ _base (run_transaction_end s2) = None in
  (forall s2, run_transaction_try to_dnl s1 = (s2, Ok tt) -> returns s2 0 [])
  /\ (forall s2 errmap t,
         run_transaction_try to_dnl s1
         = (s2, Raise (DownloadError (Some errmap) t)) ->
         returns s2 4 (download_error_msgs errmap)
         /\ (NoDup (map fst errmap) ->
             download_error_msgs errmap = download_error_lines errmap))
  /\ (forall s2 t,
         run_transaction_try to_dnl s1 = (s2, Raise (DownloadError None t)) ->
         returns s2 4 [t])
  /\ (forall s2 t,
         run_transaction_try to_dnl s1 = (s2, Raise (GPGError t)) ->
         returns s2 1 [t])
  /\ (forall s2 t,
         run_transaction_try to_dnl s1 = (s2, Raise (Error t)) ->
         returns s2 2 [t]).
Proof.
  intros Hbase Htx to_dnl returns.
  assert (Hthe : the_base (emit (TransactionEvent "start-run" (PStr NONE)) s)
                 = (s1, Ok b)).
  { unfold the_base. rewrite Hbase. reflexivity. }
  assert (Hend : forall s2, _can_quit (run_transaction_end s2) = true
                            /\ _base (run_transaction_end s2) = None).
  { intros s2. unfold run_transaction_end. split.
    - simpl. unfold _reset_base. destruct (_base _); reflexivity.
    - simpl. apply reset_base_None. }
  assert (Hrun : forall s2 r,
             run_transaction_try to_dnl s1 = (s2, r) ->
             run_transaction s
             = match r with
               | Ok _ =>
                   (run_transaction_end s2,
                    Ok (json_dumps (PTuple [PInt 0; PList []])))
               | Raise e =>
                   match run_transaction_except e with
                   | Some k =>
                       match k s2 with
                       | (s3, Ok (rc, msgs)) =>
                           (run_transaction_end s3,
                            Ok (json_dumps
                                  (PTuple [PInt rc; PList (map PStr msgs)])))
                       | (s3, Raise e') => (s3, Raise e')
                       end
                   | None => (s2, Raise e)
                   end
               end).
  { intros s2 r Htry. unfold run_transaction.
    unfold bind at 1. unfold modify at 1.
    unfold bind at 1. unfold _get_packages_to_download, bind at 1.
    rewrite Hthe, Htx. unfold ret at 1. fold to_dnl.
    unfold bind at 1. unfold try_except, bind at 1. rewrite Htry.
    destruct r as [[]|e]; [reflexivity|].
    destruct (run_transaction_except e) as [k|]; [|reflexivity].
    destruct (k s2) as [s3 [[rc msgs]|e']]; reflexivity. }
  unfold returns. repeat split; try apply Hend;
    try (rewrite (Hrun _ _ H); reflexivity).
  intros Hnd. apply download_error_msgs_lines, Hnd.
Qed.

(* =================================================================== *)
(** ** Further properties                                              *)
(* =================================================================== *)

(** *** Package ids *)

Lemma to_int_norm (z : Z) : Z.to_int z = Decimal.norm (Z.to_int z).
Proof. rewrite <- (DecimalZ.to_of (Z.to_int z)), DecimalZ.of_to. reflexivity. Qed.

Lemma norm_not_nil (d : Decimal.int) :
  Decimal.norm d <> Decimal.Pos Decimal.Nil
  /\ Decimal.norm d <> Decimal.Neg Decimal.Nil.
Proof.
  destruct d as [d|d]; simpl.
  - split; [|discriminate]. unfold Decimal.unorm.
    destruct (Decimal.nzhead d); discriminate.
  - destruct (Decimal.nzhead d); split; discriminate.
Qed.

Lemma str_int_inj (a b : Z) : Py.str_int a = Py.str_int b -> a = b.
Proof.
  unfold Py.str_int. intros H.
  destruct (norm_not_nil (Z.to_int a)) as [Ha1 Ha2].
  destruct (norm_not_nil (Z.to_int b)) as [Hb1 Hb2].
  rewrite <- to_int_norm in Ha1, Ha2, Hb1, Hb2.
  pose proof (NilZero.isi (Z.to_int a) Ha1 Ha2) as Ha.
  pose proof (NilZero.isi (Z.to_int b) Hb1 Hb2) as Hb.
  rewrite H in Ha. rewrite Ha in Hb. injection Hb as Hb.
  rewrite <- (DecimalZ.of_to a), <- (DecimalZ.of_to b), Hb. reflexivity.
Qed.

(** X1: Two packages without commas in their fields that have the same id
    have the same name, epoch, version, release, arch and repo field. *)
Theorem get_id_identifies (p q : package) :
  comma_free p -> comma_free q ->
  _get_id p = _get_id q ->
  name p = name q /\ epoch p = epoch q /\ version p = version q
  /\ release p = release q /\ arch p = arch q
  /\ ui_from_repo p = ui_from_repo q.
Proof.
  intros (Hn & Hv & Hr & Ha & Hu) (Hn' & Hv' & Hr' & Ha' & Hu') Hid.
  pose proof (unpack6_get_id p Hn Hv Hr Ha Hu) as Hp.
  pose proof (unpack6_get_id q Hn' Hv' Hr' Ha' Hu') as Hq.
  rewrite Hid, Hq in Hp. injection Hp as H1 H2 H3 H4 H5 H6.
  apply str_int_inj in H2. repeat split; congruence.
Qed.

(** *** Reading the base handle *)

(** reading [self.base] changes nothing but the handle *)
Lemma base_frame (s s1 : daemon) (r : option dnf_base) :
  base s = (s1, r) -> s1 = set_base r s.
Proof.
  rewrite base_eq. destruct (_base s) as [b|] eqn:E; intros [= <- <-].
  - destruct s; simpl in *; subst; reflexivity.
  - reflexivity.
Qed.

Lemma base_the_base (s s1 : daemon) (b : dnf_base) :
  base s = (s1, Some b) -> the_base s = (s1, Ok b).
Proof. intros H. unfold the_base. rewrite H. reflexivity. Qed.

Lemma the_base_again (s s1 : daemon) (b : dnf_base) :
  base s = (s1, Some b) -> the_base s1 = (s1, Ok b).
Proof.
  intros H. apply base_frame in H. subst s1. apply the_base_held. reflexivity.
Qed.


(** *** Running the transaction: the edges *)

Lemma packages_to_download_from (tx : list tsi_t) :
  forall acc,
    fold_left
      (fun to_dnl tsi =>
         match installed tsi with
         | Some po => (to_dnl ++ [po])%list
         | None => to_dnl
         end) tx acc
    = (acc ++ flat_map (fun tsi => match installed tsi with
                                   | Some po => [po]
                                   | None => []
                                   end) tx)%list.
Proof.
  induction tx as [|tsi tx IH]; intros acc; simpl.
  - rewrite app_nil_r. reflexivity.
  - rewrite IH. destruct (installed tsi); simpl.
    + rewrite <- app_assoc. reflexivity.
    + reflexivity.
Qed.

Lemma packages_to_download_none (tx : list tsi_t) :
  Forall (fun tsi => installed tsi = None) tx ->
  packages_to_download tx = [].
Proof.
  intros H. unfold packages_to_download. rewrite packages_to_download_from.
  simpl. induction H as [|tsi tx Htsi _ IH]; simpl; [reflexivity|].
  rewrite Htsi. exact IH.
Qed.

Lemma run_transaction_unfold (s s1 : daemon) (b : dnf_base) :
  base (emit (TransactionEvent "start-run" (PStr NONE)) s) = (s1, Some b) ->
  run_transaction s
  = match transaction b with
    | None => (s1, Raise (TypeError "'NoneType' object is not iterable"))
    | Some tx =>
        match run_transaction_try (packages_to_download tx) s1 with
        | (s2, Ok _) =>
            (run_transaction_end s2,
             Ok (json_dumps (PTuple [PInt 0; PList []])))
        | (s2, Raise e) =>
            match run_transaction_except e with
            | Some k =>
                match k s2 with
                | (s3, Ok (rc, msgs)) =>
                    (run_transaction_end s3,
                     Ok (json_dumps (PTuple [PInt rc; PList (map PStr msgs)])))
                | (s3, Raise e') => (s3, Raise e')
                end
            | None => (s2, Raise e)
            end
        end
    end.
Proof.
  intros Hbase. apply base_the_base in Hbase.
  unfold run_transaction.
  unfold bind at 1. unfold modify at 1.
  unfold bind at 1. unfold _get_packages_to_download, bind at 1.
  rewrite Hbase. destruct (transaction b) as [tx|]; [|reflexivity].
  unfold ret at 1. unfold bind at 1. unfold try_except, bind at 1.
  destruct (run_transaction_try (packages_to_download tx) s1) as [s2 [[]|e]];
    [reflexivity|].
  destruct (run_transaction_except e) as [k|]; [|reflexivity].
  destruct (k s2) as [s3 [[rc msgs]|e']]; reflexivity.
Qed.

(** X2: [run_transaction] before any transaction has been resolved raises
    [TypeError]: the start event has been sent, the end event is not,
    and [_can_quit] is as it was. *)
Theorem run_transaction_unresolved (s s1 : daemon) (b : dnf_base) :
  base (emit (TransactionEvent "start-run" (PStr NONE)) s) = (s1, Some b) ->
  transaction b = None ->
  run_transaction s
  = (s1, Raise (TypeError "'NoneType' object is not iterable"))
  /\ signals s1 = (signals s ++ [TransactionEvent "start-run" (PStr NONE)])%list
  /\ _can_quit s1 = _can_quit s
  /\ _base s1 = Some b.
Proof.
  intros Hbase Htx. rewrite (run_transaction_unfold s s1 b Hbase), Htx.
  apply base_frame in Hbase. subst s1. repeat split.
Qed.

Lemma run_transaction_try_nothing (s1 : daemon) (b : dnf_base) :
  _base s1 = Some b ->
  run_transaction_try [] s1
  = (set_can_quit false
       (emit (TransactionEvent "run-transaction" (PStr NONE)) s1),
     match do_transaction b with
     | None => Ok tt
     | Some e => Raise e
     end).
Proof.
  intros Hb. unfold run_transaction_try, bind, modify, ret, call.
  rewrite the_base_held with (b := b) by exact Hb.
  destruct (do_transaction b); reflexivity.
Qed.

(** X3: A transaction that installs nothing (its items have no package to
    install) is run without any download or signature check: when the
    library completes it, the events sent are the start, the run and
    the end event, in that order, and the result is [(0, [])]. *)
Theorem run_transaction_nothing_to_download (s s1 : daemon) (b : dnf_base)
    (tx : list tsi_t) :
  base (emit (TransactionEvent "start-run" (PStr NONE)) s) = (s1, Some b) ->
  transaction b = Some tx ->
  Forall (fun tsi => installed tsi = None) tx ->
  do_transaction b = None ->
  exists s',
    run_transaction s = (s', Ok (json_dumps (PTuple [PInt 0; PList []])))
    /\ signals s'
       = (signals s
            ++ [TransactionEvent "start-run" (PStr NONE);
                TransactionEvent "run-transaction" (PStr NONE);
                TransactionEvent "end-run" (PStr NONE)])%list
    /\ _can_quit s' = true
    /\ _base s' = None.
Proof.
  intros Hbase Htx Hnone Hdo.
  rewrite (run_transaction_unfold s s1 b Hbase), Htx.
  rewrite (packages_to_download_none tx Hnone).
  apply base_frame in Hbase. subst s1.
  rewrite run_transaction_try_nothing with (b := b) by reflexivity.
  rewrite Hdo.
  eexists. split; [reflexivity|]. unfold run_transaction_end. simpl.
  rewrite <- !app_assoc. repeat split.
Qed.

(** packages that all verify are checked without a change of the
    daemon *)
Lemma sig_check_verified (pkgs : list package) (s : daemon) (b : dnf_base) :
  _base s = Some b ->
  Forall (fun po => fst (_sig_check_pkg b po) = 0) pkgs ->
  _check_gpg_signatures pkgs s = (s, Ok 0).
Proof.
  intros Hb Hall. induction Hall as [|po rest Hpo _ IH]; [reflexivity|].
  cbn [_check_gpg_signatures]. unfold bind at 1.
  rewrite (the_base_held s b Hb).
  destruct (_sig_check_pkg b po) as [r errmsg]. simpl in Hpo. subst r.
  simpl. exact IH.
Qed.

(** the [try] block when every package to download is downloaded and
    verified: it ends as [do_transaction] ends *)
Lemma run_transaction_try_downloaded (to_dnl : list package) (s1 : daemon)
    (b : dnf_base) :
  _base s1 = Some b ->
  (to_dnl <> [] -> download_packages b to_dnl = None) ->
  Forall (fun po => fst (_sig_check_pkg b po) = 0) to_dnl ->
  exists s2,
    run_transaction_try to_dnl s1
    = (s2, match do_transaction b with
           | None => Ok tt
           | Some e => Raise e
           end)
    /\ signals s2
       = (signals s1 ++ download_events to_dnl
            ++ [TransactionEvent "run-transaction" (PStr NONE)])%list
    /\ _can_quit s2 = false
    /\ _base s2 = Some b.
Proof.
  intros Hb Hdl Hsig. destruct to_dnl as [|po rest].
  - rewrite run_transaction_try_nothing with (b := b) by exact Hb.
    eexists. split; [reflexivity|]. simpl. repeat split. exact Hb.
  - set (to_dnl := po :: rest) in *.
    set (s_dl := emit (TransactionEvent "download" (PStr NONE))
                   (emit (TransactionEvent "pkg-to-download"
                            (PList (map PStr (map _get_id to_dnl)))) s1)).
    set (s_chk := emit (TransactionEvent "signature-check" (PStr NONE)) s_dl).
    assert (Hb_dl : _base s_dl = Some b) by exact Hb.
    assert (Hb_chk : _base s_chk = Some b) by exact Hb.
    assert (Hdown : (modify (emit (TransactionEvent "pkg-to-download"
                                     (PList (map PStr (map _get_id to_dnl))))) ;;;
                     modify (emit (TransactionEvent "download" (PStr NONE))) ;;;
                     b0 <- the_base ;;
                     call (download_packages b0 to_dnl) ;;;
                     modify (emit (TransactionEvent "signature-check"
                                     (PStr NONE))) ;;;
                     _ <- _check_gpg_signatures to_dnl ;;
                     ret tt) s1 = (s_chk, Ok tt)).
    { unfold bind at 1. unfold modify at 1.
      unfold bind at 1. unfold modify at 1.
      fold s_dl. unfold bind at 1. rewrite (the_base_held s_dl b Hb_dl).
      rewrite Hdl by discriminate.
      unfold bind at 1. unfold call, ret at 1.
      unfold bind at 1. unfold modify at 1. fold s_chk.
      unfold bind at 1.
      rewrite (sig_check_verified to_dnl s_chk b Hb_chk Hsig). reflexivity. }
    unfold run_transaction_try. fold to_dnl. cbv zeta.
    change (match to_dnl with
            | [] => ret tt
            | _ :: _ => ?m
            end) with m.
    unfold bind at 1. rewrite Hdown.
    unfold bind at 1. unfold modify at 1.
    unfold bind at 1. unfold modify at 1.
    unfold bind at 1.
    rewrite (the_base_held
               (set_can_quit false
                  (emit (TransactionEvent "run-transaction" (PStr NONE)) s_chk))
               b Hb).
    unfold call.
    eexists. split; [destruct (do_transaction b); reflexivity|].
    simpl. rewrite <- !app_assoc. repeat split. exact Hb.
Qed.

(** X4: When the packages to download, if there are any, are downloaded
    and verified, and [do_transaction] then raises an exception that is
    neither a [dnf] error nor a [GPGError], [run_transaction] lets the
    exception through: the events up to the run event have been sent
    and no end event, the base handle is kept, and [_can_quit] stays
    [False]. *)
Theorem run_transaction_uncaught (s s1 : daemon) (b : dnf_base)
    (tx : list tsi_t) (e : exn) :
  base (emit (TransactionEvent "start-run" (PStr NONE)) s) = (s1, Some b) ->
  transaction b = Some tx ->
  (packages_to_download tx <> [] ->
   download_packages b (packages_to_download tx) = None) ->
  Forall (fun po => fst (_sig_check_pkg b po) = 0) (packages_to_download tx) ->
  do_transaction b = Some e ->
  is_dnf_Error e = false ->
  (forall t, e <> GPGError t) ->
  exists s',
    run_transaction s = (s', Raise e)
    /\ signals s'
       = (signals s
            ++ [TransactionEvent "start-run" (PStr NONE)]
            ++ download_events (packages_to_download tx)
            ++ [TransactionEvent "run-transaction" (PStr NONE)])%list
    /\ _can_quit s' = false
    /\ _base s' = Some b.
Proof.
  intros Hbase Htx Hdl Hsig Hdo Hdnf Hgpg.
  rewrite (run_transaction_unfold s s1 b Hbase), Htx.
  apply base_frame in Hbase. subst s1.
  destruct (run_transaction_try_downloaded (packages_to_download tx)
              (set_base (Some b)
                 (emit (TransactionEvent "start-run" (PStr NONE)) s))
              b eq_refl Hdl Hsig)
    as (s2 & Htry & Hsignals & Hquit & Hheld).
  rewrite Htry, Hdo.
  assert (Hexc : run_transaction_except e = None).
  { destruct e; simpl in Hdnf; try discriminate; try reflexivity.
    exfalso. exact (Hgpg _ eq_refl). }
  rewrite Hexc. exists s2. split; [reflexivity|].
  split; [|split; assumption].
  rewrite Hsignals. simpl. rewrite <- !app_assoc. reflexivity.
Qed.

(** *** Checking signatures *)

Lemma the_base_returns (s : daemon) :
  exists s1 b, the_base s = (s1, Ok b) /\ _base s1 = Some b.
Proof.
  rewrite the_base_eq. destruct (_base s) as [b|] eqn:E; eauto.
Qed.


(** X6: When the library verifies every package, [_check_gpg_signatures]
    returns 0 and leaves the daemon as it is: no key is asked for. *)
Theorem check_gpg_signatures_all_verified (pkgs : list package)
    (s : daemon) (b : dnf_base) :
  _base s = Some b ->
  Forall (fun po => fst (_sig_check_pkg b po) = 0) pkgs ->
  _check_gpg_signatures pkgs s = (s, Ok 0).
Proof.
  intros Hb Hall. induction Hall as [|po rest Hpo _ IH]; [reflexivity|].
  cbn [_check_gpg_signatures]. unfold bind at 1.
  rewrite (the_base_held s b Hb).
  destruct (_sig_check_pkg b po) as [r errmsg]. simpl in Hpo. subst r.
  simpl. exact IH.
Qed.

(** *** The watchdog over many calls *)

Lemma watchdog_ticks_add (n m : nat) :
  forall s,
    watchdog_ticks (n + m) s
    = match watchdog_ticks n s with
      | (s', PBool true) => watchdog_ticks m s'
      | r => r
      end.
Proof.
  induction n as [|n IH]; intros s; [reflexivity|].
  cbn [Nat.add watchdog_ticks].
  destruct (_watchdog s) as [s' r].
  destruct r as [|[|]| | | | | |]; try reflexivity. apply IH.
Qed.

Lemma watchdog_counts (n : nat) :
  forall s,
    _watchdog_disabled s = false -> _is_working s = false ->
    _watchdog_count s + Z.of_nat n
    <= (if lock_held s then _timeout_locked s else _timeout_idle s) + 1 ->
    watchdog_ticks n s
    = (set_watchdog_count (_watchdog_count s + Z.of_nat n) s, PBool true).
Proof.
  induction n as [|n IH]; intros s Hd Hw Hle.
  - simpl. rewrite Z.add_0_r. destruct s; reflexivity.
  - cbn [watchdog_ticks]. unfold _watchdog. rewrite Hd, Hw. simpl.
    assert (Hnot : (if negb (lock_held s)
                    then _watchdog_count s >? _timeout_idle s
                    else _watchdog_count s >? _timeout_locked s) = false).
    { destruct (lock_held s); simpl.
      - destruct (Z.gtb_spec (_watchdog_count s) (_timeout_locked s)); [lia|reflexivity].
      - destruct (Z.gtb_spec (_watchdog_count s) (_timeout_idle s)); [lia|reflexivity]. }
    rewrite Hnot. rewrite IH.
    + f_equal. unfold set_watchdog_count. simpl. f_equal. lia.
    + exact Hd.
    + exact Hw.
    + replace (lock_held (set_watchdog_count (_watchdog_count s + 1) s))
        with (lock_held s) by reflexivity.
      simpl. lia.
Qed.

(** X7: A daemon that is not working, whose watchdog is enabled and that
    may quit is quit by the call that follows the one in which the
    counter passes the limit (the idle timeout without a lock, the
    locked timeout with one): the calls before it only count. *)
Theorem watchdog_quits_after_limit (s : daemon) :
  _watchdog_disabled s = false -> _is_working s = false ->
  _can_quit s = true ->
  let limit := if lock_held s then _timeout_locked s else _timeout_idle s in
  _watchdog_count s <= limit + 1 ->
  let n := Z.to_nat (limit + 1 - _watchdog_count s) in
  (forall k, (k <= n)%nat ->
     watchdog_ticks k s
     = (set_watchdog_count (_watchdog_count s + Z.of_nat k) s, PBool true))
  /\ watchdog_ticks (n + 1) s
     = (mainloop_quit (_reset_base (set_watchdog_count (limit + 1) s)), PNone).
Proof.
  intros Hd Hw Hq limit Hle n. split.
  - intros k Hk. apply watchdog_counts; try assumption. fold limit. lia.
  - rewrite watchdog_ticks_add, watchdog_counts; try assumption;
      [|fold limit; lia].
    replace (_watchdog_count s + Z.of_nat n) with (limit + 1) by lia.
    cbn [watchdog_ticks]. unfold _watchdog. simpl. rewrite Hd, Hw, Hq. simpl.
    replace (lock_held (set_watchdog_count (limit + 1) s))
      with (lock_held s) by reflexivity.
    assert (Hpast : (if negb (lock_held s)
                     then limit + 1 >? _timeout_idle s
                     else limit + 1 >? _timeout_locked s) = true).
    { subst limit. destruct (lock_held s); simpl.
      - destruct (Z.gtb_spec (_timeout_locked s + 1) (_timeout_locked s)); [reflexivity|lia].
      - destruct (Z.gtb_spec (_timeout_idle s + 1) (_timeout_idle s)); [reflexivity|lia]. }
    rewrite Hpast. reflexivity.
Qed.

Lemma watchdog_keeps (s : daemon) :
  let '(s', _) := _watchdog s in
  _config_options s' = _config_options s
  /\ _enabled_repos s' = _enabled_repos s
  /\ _gpg_confirm s' = _gpg_confirm s
  /\ signals s' = signals s
  /\ _lock s' = _lock s
  /\ _can_quit s' = _can_quit s
  /\ (_base s' = _base s \/ _base s' = None)
  /\ _watchdog_count s <= _watchdog_count s' <= _watchdog_count s + 1.
Proof.
  unfold _watchdog.
  destruct (_watchdog_disabled s || _is_working s);
    [simpl; repeat split; auto; lia|].
  destruct (if negb (lock_held s)
            then _watchdog_count s >? _timeout_idle s
            else _watchdog_count s >? _timeout_locked s).
  - destruct (_can_quit s) eqn:Hq; [|simpl; repeat split; auto; lia].
    unfold _reset_base. destruct (_base s) eqn:E; simpl; rewrite ?E;
      repeat split; auto; lia.
  - simpl. repeat split; auto; lia.
Qed.

(** X8: However often it is called, the watchdog leaves the cached options,
    the enabled repositories, the key confirmations, the signals, the
    lock and [_can_quit] as they are; it keeps the base handle or drops
    it; and it never lowers the counter, which grows by at most one a
    call. *)
Theorem watchdog_ticks_keep (n : nat) :
  forall s,
    let '(s', _) := watchdog_ticks n s in
    _config_options s' = _config_options s
    /\ _enabled_repos s' = _enabled_repos s
    /\ _gpg_confirm s' = _gpg_confirm s
    /\ signals s' = signals s
    /\ _lock s' = _lock s
    /\ _can_quit s' = _can_quit s
    /\ (_base s' = _base s \/ _base s' = None)
    /\ _watchdog_count s <= _watchdog_count s'
       <= _watchdog_count s + Z.of_nat n.
Proof.
  forget_collaborators.
  induction n as [|n IH]; intros s.
  - simpl. repeat split; auto; lia.
  - cbn [watchdog_ticks]. pose proof (watchdog_keeps s) as H1.
    destruct (_watchdog s) as [s1 r].
    destruct H1 as (Ho & Hr & Hg & Hs & Hl & Hq & Hb & Hc).
    assert (Hstop : _config_options s1 = _config_options s
                    /\ _enabled_repos s1 = _enabled_repos s
                    /\ _gpg_confirm s1 = _gpg_confirm s
                    /\ signals s1 = signals s
                    /\ _lock s1 = _lock s
                    /\ _can_quit s1 = _can_quit s
                    /\ (_base s1 = _base s \/ _base s1 = None)
                    /\ _watchdog_count s <= _watchdog_count s1
                       <= _watchdog_count s + Z.of_nat (S n))
      by (repeat split; auto; lia).
    destruct r as [|[|]| | | | | |]; try exact Hstop.
    specialize (IH s1). destruct (watchdog_ticks n s1) as [s2 r2].
    destruct IH as (Ho' & Hr' & Hg' & Hs' & Hl' & Hq' & Hb' & Hc').
    repeat split; try congruence; try lia.
    destruct Hb' as [Hb'|Hb']; [|right; exact Hb'].
    destruct Hb as [Hb|Hb]; [left | right]; congruence.
Qed.

(** *** History: the order of the list, and searches *)

Lemma get_history_by_days_eq (now start end_ : Z) (s s1 : daemon)
    (b : dnf_base) :
  base s = (s1, Some b) ->
  get_history_by_days now start end_ s
  = (s1, Ok (json_dumps
               (PList (map id_time
                         (List.filter (qualifies now start end_)
                            (until_too_old now start end_ (history b))))))).
Proof.
  intros Hbase. apply base_the_base in Hbase.
  unfold get_history_by_days, bind, lift, ret. rewrite Hbase.
  rewrite history_loop_eq. cbn [app].
  rewrite get_id_time_list_eq; [reflexivity|].
  apply List.Forall_forall. intros ht Hin. apply filter_In in Hin.
  destruct Hin as [_ Hq]. unfold qualifies in Hq.
  apply andb_true_iff in Hq. destruct Hq as [Hq _].
  apply andb_true_iff in Hq. apply Hq.
Qed.

Lemma too_old_not_qualifies (now start end_ : Z) (ht : hist_trans) :
  too_old now start end_ ht = true -> qualifies now start end_ ht = false.
Proof.
  unfold too_old, qualifies. rewrite !andb_true_iff.
  intros [[Hts Hstart] Hend]. rewrite Hts, Hstart. simpl.
  apply Z.ltb_lt in Hend. apply Z.leb_gt. exact Hend.
Qed.

Lemma filter_none {A} (f : A -> bool) (l : list A) :
  Forall (fun x => f x = false) l -> List.filter f l = [].
Proof.
  induction 1 as [|x l Hx _ IH]; [reflexivity|].
  simpl. rewrite Hx. exact IH.
Qed.

Lemma filter_until_too_old (now start end_ : Z) (history : list hist_trans) :
  StronglySorted (not_older now) history ->
  List.filter (qualifies now start end_) (until_too_old now start end_ history)
  = List.filter (qualifies now start end_) history.
Proof.
  induction 1 as [|ht rest Hsorted IH Hrest]; [reflexivity|].
  cbn [until_too_old]. destruct (too_old now start end_ ht) eqn:Hold.
  - cbn [List.filter]. rewrite (too_old_not_qualifies _ _ _ _ Hold).
    symmetry. apply filter_none.
    apply List.Forall_forall. intros ht' Hin.
    rewrite List.Forall_forall in Hrest. specialize (Hrest ht' Hin).
    unfold too_old in Hold. rewrite !andb_true_iff in Hold.
    destruct Hold as [[Hts Hstart] Hend]. apply Z.ltb_lt in Hend.
    unfold qualifies. destruct (has_end_timestamp ht') eqn:Hts'; [|reflexivity].
    specialize (Hrest Hts Hts'). simpl.
    apply andb_false_iff. right. apply Z.leb_gt. lia.
  - cbn [List.filter]. rewrite IH. reflexivity.
Qed.

(** X9: When the history lists no ended transaction before a more recent
    one (the order in which the library lists it, newest first),
    [get_history_by_days] returns exactly the transactions of the
    history that have ended between [start] and [end_] days ago, in
    history order. *)
Theorem get_history_by_days_newest_first (now start end_ : Z)
    (s s1 : daemon) (b : dnf_base) :
  base s = (s1, Some b) ->
  StronglySorted (not_older now) (history b) ->
  get_history_by_days now start end_ s
  = (s1, Ok (json_dumps
               (PList (map id_time
                         (List.filter (qualifies now start end_)
                            (history b)))))).
Proof.
  intros Hbase Hsorted.
  rewrite (get_history_by_days_eq now start end_ s s1 b Hbase).
  rewrite filter_until_too_old by exact Hsorted. reflexivity.
Qed.

(** X10: With [start] greater than [end_] no transaction is returned,
    whatever the history. *)
Theorem get_history_by_days_empty_interval (now start end_ : Z)
    (s s1 : daemon) (b : dnf_base) :
  base s = (s1, Some b) ->
  end_ < start ->
  get_history_by_days now start end_ s = (s1, Ok (json_dumps (PList []))).
Proof.
  intros Hbase Hlt.
  rewrite (get_history_by_days_eq now start end_ s s1 b Hbase).
  rewrite filter_none; [reflexivity|].
  apply List.Forall_forall. intros ht _. unfold qualifies.
  destruct (has_end_timestamp ht); [|reflexivity]. simpl.
  destruct (Z.leb_spec start (age_days now ht)); [|reflexivity]. simpl.
  apply Z.leb_gt. lia.
Qed.

Lemma get_id_time_list_ended (l : list hist_trans) :
  Forall (fun ht => end_timestamp ht <> None) l ->
  _get_id_time_list l = Ok (map id_time l).
Proof.
  induction 1 as [|ht rest Hht _ IH]; simpl; [reflexivity|].
  unfold id_time. destruct (end_timestamp ht); [|congruence].
  rewrite IH. reflexivity.
Qed.

Lemma get_id_time_list_not_ended (l : list hist_trans) :
  Exists (fun ht => end_timestamp ht = None) l ->
  _get_id_time_list l
  = Raise (TypeError "an integer is required (got type NoneType)").
Proof.
  induction l as [|ht rest IH]; intros H; [inversion H|].
  simpl. destruct (end_timestamp ht) eqn:E; [|reflexivity].
  inversion H as [? ? Hht|? ? Hrest]; subst; [congruence|].
  rewrite (IH Hrest). reflexivity.
Qed.

(** X11: [history_search] returns the pairs of the transactions the
    library finds when all of them have an end timestamp, and the
    empty list when the search finds no transaction id; when one of
    the transactions found has no end timestamp, it raises
    [TypeError]: unlike [get_history_by_days], it does not skip a
    transaction that has not ended. *)
Theorem history_search_results (pattern : list string) (s s1 : daemon)
    (b : dnf_base) :
  base s = (s1, Some b) ->
  let tids := history_search_tids b pattern in
  (tids = [] ->
   history_search pattern s = (s1, Ok (json_dumps (PList []))))
  /\ (tids <> [] ->
      Forall (fun ht => end_timestamp ht <> None) (history_old b tids) ->
      history_search pattern s
      = (s1, Ok (json_dumps (PList (map id_time (history_old b tids))))))
  /\ (tids <> [] ->
      Exists (fun ht => end_timestamp ht = None) (history_old b tids) ->
      history_search pattern s
      = (s1, Raise (TypeError "an integer is required (got type NoneType)"))).
Proof.
  intros Hbase tids. subst tids.
  pose proof (the_base_again s s1 b Hbase) as Hagain.
  apply base_the_base in Hbase.
  assert (Heq : history_search pattern s
                = match history_search_tids b pattern with
                  | [] => (s1, Ok (json_dumps (PList [])))
                  | _ :: _ =>
                      match _get_id_time_list
                              (history_old b (history_search_tids b pattern)) with
                      | Ok l => (s1, Ok (json_dumps (PList l)))
                      | Raise e => (s1, Raise e)
                      end
                  end).
  { unfold history_search. unfold bind at 1. rewrite Hbase.
    destruct (history_search_tids b pattern) as [|t l]; [reflexivity|].
    unfold bind at 1. unfold bind at 1. rewrite Hagain.
    unfold ret at 1. unfold bind, lift.
    destruct (_get_id_time_list (history_old b (t :: l))); reflexivity. }
  rewrite Heq. clear Heq.
  destruct (history_search_tids b pattern) as [|t l];
    [repeat split; congruence|].
  split; [discriminate|]. split.
  - intros _ Hall. rewrite (get_id_time_list_ended _ Hall). reflexivity.
  - intros _ Hex. rewrite (get_id_time_list_not_ended _ Hex). reflexivity.
Qed.

(** *** Listing the transaction: nothing lost, nothing twice *)

Lemma items_of_cons (o : op_type_t) (tsi : tsi_t) (tx : list tsi_t) :
  items_of o (tsi :: tx)
  = if op_eqb (op_type tsi) o then tsi :: items_of o tx else items_of o tx.
Proof. reflexivity. Qed.

Lemma items_by_action_permutation (tx : list tsi_t) :
  Permutation
    (items_of INSTALL tx ++ items_of UPGRADE tx ++ items_of ERASE tx
       ++ items_of REINSTALL tx ++ items_of DOWNGRADE tx)%list
    tx.
Proof.
  induction tx as [|tsi tx IH]; [constructor|].
  rewrite !items_of_cons. symmetry.
  assert (Hplace : forall l1 l2 r : list tsi_t,
             r = (l1 ++ tsi :: l2)%list ->
             (l1 ++ l2)%list
             = (items_of INSTALL tx ++ items_of UPGRADE tx ++ items_of ERASE tx
                  ++ items_of REINSTALL tx ++ items_of DOWNGRADE tx)%list ->
             Permutation (tsi :: tx) r).
  { intros l1 l2 r -> Heq. apply Permutation_cons_app.
    rewrite Heq. symmetry. exact IH. }
  destruct (op_type tsi); cbn [op_eqb].
  - apply (Hplace (items_of INSTALL tx ++ items_of UPGRADE tx
                     ++ items_of ERASE tx ++ items_of REINSTALL tx)%list
                  (items_of DOWNGRADE tx));
      rewrite <- ?app_assoc; reflexivity.
  - apply (Hplace (items_of INSTALL tx ++ items_of UPGRADE tx)%list
                  (items_of ERASE tx ++ items_of REINSTALL tx
                     ++ items_of DOWNGRADE tx)%list);
      rewrite <- ?app_assoc; reflexivity.
  - apply (Hplace []
                  (items_of INSTALL tx ++ items_of UPGRADE tx
                     ++ items_of ERASE tx ++ items_of REINSTALL tx
                     ++ items_of DOWNGRADE tx)%list); reflexivity.
  - apply (Hplace (items_of INSTALL tx ++ items_of UPGRADE tx
                     ++ items_of ERASE tx)%list
                  (items_of REINSTALL tx ++ items_of DOWNGRADE tx)%list);
      rewrite <- ?app_assoc; reflexivity.
  - apply (Hplace (items_of INSTALL tx)
                  (items_of UPGRADE tx ++ items_of ERASE tx
                     ++ items_of REINSTALL tx ++ items_of DOWNGRADE tx)%list);
      rewrite <- ?app_assoc; reflexivity.
Qed.

Lemma listed_triples_by_action (tx : list tsi_t) :
  listed_triples (transaction_by_action tx)
  = map tx_triple
      (items_of INSTALL tx ++ items_of UPGRADE tx ++ items_of ERASE tx
         ++ items_of REINSTALL tx ++ items_of DOWNGRADE tx)%list.
Proof.
  unfold transaction_by_action, action_order, listed_triples.
  cbn [flat_map]. rewrite !flat_map_app, !map_app.
  repeat f_equal;
    match goal with
    | |- context [items_of ?o tx] =>
        destruct (items_of o tx); simpl; rewrite ?app_nil_r; reflexivity
    end.
Qed.

(** X12: The triples [get_transaction] lists, over all its actions, are the
    triples of the items of the transaction, each exactly once: no item
    is left out and none is listed under two actions. *)
Theorem get_transaction_lists_each_item_once (s s1 : daemon) (b : dnf_base) :
  base s = (s1, Some b) ->
  let tx := match transaction b with Some l => l | None => [] end in
  Forall (fun tsi => _active_pkg tsi <> None) tx ->
  exists rc trans,
    get_transaction s
    = (s1, Ok (json_dumps (PTuple [PBool rc; PList trans])))
    /\ Permutation (listed_triples trans) (map tx_triple tx).
Proof.
  intros Hbase tx Hactive. apply base_the_base in Hbase.
  exists (match transaction_by_action tx with [] => false | _ :: _ => true end),
    (transaction_by_action tx).
  split.
  - unfold get_transaction, _get_transaction, bind, lift, ret.
    rewrite Hbase.
    pose proof (get_transaction_list b tx eq_refl Hactive) as Hlist.
    cbv zeta in Hlist. cbv zeta. rewrite Hlist. reflexivity.
  - rewrite listed_triples_by_action. apply Permutation_map.
    apply items_by_action_permutation.
Qed.

(** *** Asking about a key twice *)

(** X13: A second call of [_handle_gpg_import] for the same key gives the
    same answer, sends no signal and changes nothing; and no call
    turns a key into a confirmed one or a confirmed one into another:
    the keys recorded as confirmed are the same before and after. *)
Theorem handle_gpg_import_asks_once (info : gpg_info_t) (s : daemon) :
  let '(s1, r1) := _handle_gpg_import info s in
  _handle_gpg_import info s1 = (s1, r1)
  /\ (forall k, _gpg_confirm s1 !! k = Some true
                <-> _gpg_confirm s !! k = Some true)
  /\ (signals s1 = signals s
      \/ signals s1
         = (signals s
              ++ [GPGImport (_get_id (gi_po info)) (gi_userid info)
                    (gi_hexkeyid info) (gi_keyurl info)
                    (gi_timestamp info)])%list).
Proof.
  forget_collaborators.
  unfold _handle_gpg_import, bind, gets, modify, ret, id.
  destruct (_gpg_confirm s !! gi_hexkeyid info) as [c|] eqn:E; simpl.
  - rewrite E. simpl. rewrite E. simpl. rewrite E.
    split; [reflexivity|]. split; [tauto | left; reflexivity].
  - rewrite lookup_insert_eq. simpl. rewrite lookup_insert_eq. simpl.
    rewrite lookup_insert_eq.
    split; [reflexivity|]. split; [|right; reflexivity].
    intros k. destruct (decide (gi_hexkeyid info = k)) as [<-|Hne].
    + rewrite lookup_insert_eq, E. split; discriminate.
    + rewrite lookup_insert_ne by exact Hne. tauto.
Qed.

(** *** The fake attributes *)

(** X14: [_get_action] always answers, with one of install, remove, update,
    obsolete and downgrade: remove exactly for a package of a repo
    whose name starts with [@] (and then nothing is looked up), update
    exactly for another package that the upgrades of the sack list
    with its name, version, release and arch. *)
Theorem get_action_answers (po : package) (s s1 : daemon) (b : dnf_base) :
  base s = (s1, Some b) ->
  exists s' a,
    _get_action po s = (s', Ok a)
    /\ In a actions
    /\ (a = "remove" <-> Py.startswith "@" (reponame po) = true)
    /\ (Py.startswith "@" (reponame po) = true -> s' = s1)
    /\ (a = "update"
        <-> Py.startswith "@" (reponame po) = false
            /\ filter_nvra (name po) (version po) (release po) (arch po)
                 (upgrade_pkgs (sack b)) <> []).
Proof.
  intros Hbase. pose proof (the_base_again s s1 b Hbase) as Hagain.
  apply base_the_base in Hbase.
  unfold _get_action, actions. unfold bind at 1. rewrite Hbase.
  destruct (Py.startswith "@" (reponame po)) eqn:Hrepo.
  { eexists _, _. split; [reflexivity|]. simpl.
    repeat split; auto; try discriminate; intros [? ?]; discriminate. }
  destruct (filter_nvra (name po) (version po) (release po) (arch po)
              (upgrade_pkgs (sack b))) as [|u upd] eqn:Hupd.
  2:{ eexists _, _. split; [reflexivity|]. simpl.
      repeat split; auto; try discriminate. }
  assert (Hobs : exists s' l, _get_obsoletes s1 = (s', Ok l)).
  { unfold _get_obsoletes, bind, gets, modify, ret, id.
    destruct (_obsoletes_list s1) as [[|p l]|]; rewrite ?Hagain; eauto. }
  destruct Hobs as (s' & l & Hobs). unfold bind at 1. rewrite Hobs.
  destruct (existsb (pkg_eqb po) l).
  { eexists _, _. split; [reflexivity|]. simpl.
    repeat split; auto 10; try discriminate; intros [? ?]; congruence. }
  destruct (List.filter (fun p => String.eqb (name p) (name po))
              (installed_pkgs (sack b))) as [|ipkg ipkgs].
  { eexists _, _. split; [reflexivity|]. simpl.
    repeat split; auto 10; try discriminate; intros [? ?]; congruence. }
  destruct (evr_gt ipkg po);
    (eexists _, _; split; [reflexivity|]; simpl;
     repeat split; auto 10; try discriminate; intros [? ?]; congruence).
Qed.

(** X15: [_get_downgrades] gives ids of packages that have the name and the
    arch of the package asked about and are installed or available;
    it gives none when no installed package has that name and arch. *)
Theorem get_downgrades_same_name_arch (pkg : package) (s s1 : daemon)
    (b : dnf_base) :
  base s = (s1, Some b) ->
  exists ids,
    _get_downgrades pkg s = (s1, Ok ids)
    /\ (forall i, In i ids ->
          exists p,
            i = _get_id p /\ name p = name pkg /\ arch p = arch pkg
            /\ (In p (installed_pkgs (sack b))
                \/ In p (available_pkgs (sack b))))
    /\ ((forall p, In p (installed_pkgs (sack b)) ->
           ~ (name p = name pkg /\ arch p = arch pkg)) ->
        ids = []).
Proof.
  forget_collaborators.
  intros Hbase. apply base_the_base in Hbase.
  unfold _get_downgrades, bind, ret. rewrite Hbase.
  set (same := fun p => String.eqb (name p) (name pkg)
                        && String.eqb (arch p) (arch pkg)).
  assert (Hsame : forall p, same p = true
                            <-> name p = name pkg /\ arch p = arch pkg).
  { intros p. unfold same. rewrite andb_true_iff, !String.eqb_eq. tauto. }
  destruct (List.filter same (installed_pkgs (sack b))) as [|inst0 inst] eqn:Ei.
  { exists []. split; [reflexivity|]. split; [intros i []|reflexivity]. }
  assert (Hinst0 : In inst0 (installed_pkgs (sack b)) /\ same inst0 = true).
  { apply filter_In. rewrite Ei. left. reflexivity. }
  assert (Hnone : (forall p, In p (installed_pkgs (sack b)) ->
                     ~ (name p = name pkg /\ arch p = arch pkg)) ->
                  False).
  { intros H. apply (H inst0); [apply Hinst0 | apply Hsame, Hinst0]. }
  destruct (evr_eq pkg inst0).
  - eexists. split; [reflexivity|]. split; [|intros H; destruct (Hnone H)].
    intros i Hi. apply in_map_iff in Hi. destruct Hi as (p & <- & Hp).
    apply filter_In in Hp. destruct Hp as [Hp _].
    apply filter_In in Hp. destruct Hp as [Hp Hps].
    exists p. split; [reflexivity|]. apply Hsame in Hps. tauto.
  - destruct (evr_lt pkg inst0).
    + eexists. split; [reflexivity|]. split; [|intros H; destruct (Hnone H)].
      intros i [<-|[]]. exists inst0. split; [reflexivity|].
      destruct Hinst0 as [Hin Hs]. apply Hsame in Hs. tauto.
    + exists []. split; [reflexivity|].
      split; [intros i []|reflexivity].
Qed.

Lemma dict_set_keys {V} (k : string) (v : V) (d : list (string * V)) :
  map fst (Py.dict_set k v d)
  = if Py.in_list k (map fst d) then map fst d else (map fst d ++ [k])%list.
Proof.
  induction d as [|[k' v'] d IH]; [reflexivity|].
  cbn [Py.dict_set map fst]. unfold Py.in_list in *. cbn [existsb].
  rewrite (String.eqb_sym k k').
  destruct (String.eqb k' k); [reflexivity|].
  cbn [map fst orb]. rewrite IH.
  destruct (existsb (String.eqb k) (map fst d)); reflexivity.
Qed.

Lemma dict_set_values {V} (k : string) (v : V) (d : list (string * V))
    (k0 : string) (v0 : V) :
  In (k0, v0) (Py.dict_set k v d) ->
  (k0 = k /\ v0 = v) \/ In (k0, v0) d.
Proof.
  induction d as [|[k' v'] d IH]; simpl.
  - intros [[= <- <-]|[]]. left. split; reflexivity.
  - destruct (String.eqb_spec k' k) as [->|Hne]; simpl.
    + intros [[= <- <-]|H]; [left; split; reflexivity | right; right; exact H].
    + intros [H|H]; [right; left; exact H|].
      destruct (IH H) as [?|?]; [left; assumption | right; right; assumption].
Qed.

(** X16: The dictionary of [_get_requires] has one key for each requirement
    of the package that mentions neither [solvable:] nor [rpmlib(],
    and no other key; under each key are the ids of the providers the
    library gives for it. *)
Theorem get_requires_keys (pkg : package) (s s1 : daemon) (b : dnf_base) :
  base s = (s1, Some b) ->
  exists d,
    _get_requires pkg s = (s1, Ok d)
    /\ List.NoDup (map fst d)
    /\ (forall k, In k (map fst d)
                  <-> In k (requires pkg)
                      /\ Py.has_substring "solvable:" k = false
                      /\ Py.has_substring "rpmlib(" k = false)
    /\ (forall k v, In (k, v) d ->
          v = PList (map (fun prov => PStr (_get_id prov))
                       (providers_latest (sack b) k))).
Proof.
  forget_collaborators.
  intros Hbase. apply base_the_base in Hbase.
  unfold _get_requires, bind, ret. rewrite Hbase.
  eexists. split; [reflexivity|].
  set (step := fun (req_dict : list (string * pyval)) (req_str : string) =>
                 if Py.has_substring "solvable:" req_str
                    || Py.has_substring "rpmlib(" req_str
                 then req_dict
                 else Py.dict_set req_str
                        (PList (map (fun prov => PStr (_get_id prov))
                                  (providers_latest (sack b) req_str)))
                        req_dict).
  set (wanted := fun k => Py.has_substring "solvable:" k = false
                          /\ Py.has_substring "rpmlib(" k = false).
  assert (H : forall reqs d0,
             List.NoDup (map fst d0) ->
             (forall k v, In (k, v) d0 ->
                v = PList (map (fun prov => PStr (_get_id prov))
                             (providers_latest (sack b) k))) ->
             List.NoDup (map fst (fold_left step reqs d0))
             /\ (forall k, In k (map fst (fold_left step reqs d0))
                           <-> In k (map fst d0) \/ (In k reqs /\ wanted k))
             /\ (forall k v, In (k, v) (fold_left step reqs d0) ->
                   v = PList (map (fun prov => PStr (_get_id prov))
                                (providers_latest (sack b) k)))).
  { induction reqs as [|req reqs IH]; intros d0 Hnd Hval.
    - simpl. split; [exact Hnd|]. split; [|exact Hval].
      intros k. split; [auto | intros [?|[[] _]]; assumption].
    - cbn [fold_left].
      assert (Hstep : List.NoDup (map fst (step d0 req))
                      /\ (forall k, In k (map fst (step d0 req))
                                    <-> In k (map fst d0)
                                        \/ (k = req /\ wanted k))
                      /\ (forall k v, In (k, v) (step d0 req) ->
                            v = PList (map (fun prov => PStr (_get_id prov))
                                         (providers_latest (sack b) k)))).
      { unfold step, wanted.
        destruct (Py.has_substring "solvable:" req) eqn:E1; simpl.
        { split; [exact Hnd|]. split; [|exact Hval].
          intros k. split; [auto|]. intros [?|[-> [? _]]]; [assumption|congruence]. }
        destruct (Py.has_substring "rpmlib(" req) eqn:E2; simpl.
        { split; [exact Hnd|]. split; [|exact Hval].
          intros k. split; [auto|]. intros [?|[-> [_ ?]]]; [assumption|congruence]. }
        rewrite dict_set_keys.
        destruct (Py.in_list req (map fst d0)) eqn:Ein.
        - apply in_list_In in Ein. split; [exact Hnd|]. split.
          + intros k. split; [auto|]. intros [?|[-> _]]; assumption.
          + intros k v Hin. apply dict_set_values in Hin.
            destruct Hin as [[-> ->]|Hin]; [reflexivity | eapply Hval, Hin].
        - assert (Hnot : ~ In req (map fst d0)).
          { intros Hc. apply in_list_In in Hc. congruence. }
          split; [|split].
          + apply List.NoDup_app; [exact Hnd | repeat constructor; intros [] |].
            intros k Hk [<-|[]]. exact (Hnot Hk).
          + intros k. rewrite in_app_iff. simpl. split.
            * intros [?|[<-|[]]]; [left; assumption | right; auto].
            * intros [?|[-> _]]; [left; assumption | right; left; reflexivity].
          + intros k v Hin. apply dict_set_values in Hin.
            destruct Hin as [[-> ->]|Hin]; [reflexivity | eapply Hval, Hin]. }
      destruct Hstep as (Hnd1 & Hk1 & Hv1).
      destruct (IH (step d0 req) Hnd1 Hv1) as (Hnd2 & Hk2 & Hv2).
      split; [exact Hnd2|]. split; [|exact Hv2].
      intros k. rewrite Hk2, Hk1. simpl. split.
      + intros [[?|[-> ?]]|[? ?]]; auto.
      + intros [?|[[<-|?] ?]]; auto. }
  destruct (H (requires pkg) [] (List.NoDup_nil _) (fun k v Hin => match Hin with end))
    as (Hnd & Hk & Hv).
  split; [exact Hnd|]. split; [|exact Hv].
  intros k. rewrite Hk. simpl. unfold wanted. tauto.
Qed.

(** *** Options: reading back, resets, an unset handle *)




Lemma build_base_conf (load_sack : bool) (s : daemon) (k : string) :
  (forall b, conf (setup_base b) = conf b) ->
  conf (build_base load_sack s) !! k
  = match _config_options s !! k with
    | Some v => Some v
    | None => conf backend_DnfBase !! k
    end.
Proof.
  intros Hsetup. unfold build_base.
  destruct load_sack; rewrite ?Hsetup;
    destruct (_enabled_repos s); simpl; apply apply_config_options_lookup.
Qed.



(** *** Enabled repositories: listing them, setting them twice *)

Lemma enabled_ids_after_apply (enabled : list string) (rs : list repo) :
  map repo_id (List.filter repo_enabled (apply_enabled_repos enabled rs))
  = List.filter (fun i => Py.in_list i enabled) (map repo_id rs).
Proof.
  induction rs as [|r rs IH]; [reflexivity|].
  cbn [apply_enabled_repos map List.filter].
  fold (apply_enabled_repos enabled rs).
  destruct (Py.in_list (repo_id r) enabled) eqn:E; simpl; rewrite ?E, IH;
    reflexivity.
Qed.

(** X20: After [set_enabled_repos] with a list that is not empty,
    [get_repositories] with the filter [enabled], or with the empty
    filter, lists the ids of the repositories of a fresh base that are
    in the list, in the order of the base. [setup_base] is taken to
    leave the repositories as they are. *)
Theorem set_enabled_repos_then_get_repositories (repo_ids : list string)
    (s : daemon) :
  (forall b, repos (setup_base b) = repos b) ->
  repo_ids <> [] ->
  exists s',
    set_enabled_repos repo_ids s = (s', Ok tt)
    /\ get_repositories "enabled" s'
       = (s', Ok (List.filter (fun i => Py.in_list i repo_ids)
                    (map repo_id (repos backend_DnfBase))))
    /\ get_repositories EmptyString s' = get_repositories "enabled" s'.
Proof.
  intros Hsetup Hne. rewrite set_enabled_repos_eq. cbv zeta.
  eexists. split; [reflexivity|].
  unfold get_repositories, bind, ret.
  rewrite the_base_held
    with (b := setup_base
                 (build_base false
                    (_reset_base (set_enabled_repos_field repo_ids s))))
    by reflexivity.
  split; [|reflexivity]. simpl.
  rewrite Hsetup. unfold build_base.
  rewrite reset_base_enabled_repos. simpl.
  destruct repo_ids as [|i l]; [congruence|]. simpl.
  rewrite enabled_ids_after_apply. reflexivity.
Qed.

(** X21: [set_enabled_repos] with the list it was last called with changes
    nothing: the daemon and the rebuilt handle are the same again. It
    keeps the cached options, and the rebuilt handle carries them when
    [setup_base] leaves the configuration as it is. *)
Theorem set_enabled_repos_twice (repo_ids : list string) (s s1 : daemon) :
  set_enabled_repos repo_ids s = (s1, Ok tt) ->
  set_enabled_repos repo_ids s1 = (s1, Ok tt)
  /\ _config_options s1 = _config_options s
  /\ ((forall b, conf (setup_base b) = conf b) ->
      exists b,
        _base s1 = Some b
        /\ forall k v, _config_options s !! k = Some v ->
                       conf b !! k = Some v).
Proof.
  intros H. rewrite set_enabled_repos_eq in H. cbv zeta in H.
  apply (f_equal fst) in H. cbn [fst] in H. subst s1.
  rewrite set_enabled_repos_eq. cbv zeta.
  assert (Hfields : forall t : daemon,
             _config_options (_reset_base (set_enabled_repos_field repo_ids t))
             = _config_options t).
  { intros t. unfold _reset_base. destruct t as [? [?|] ? ? ? ? ? ? ? ? ? ? ? ?];
      reflexivity. }
  split; [|split].
  - assert (Hsame : forall X,
               _reset_base
                 (set_enabled_repos_field repo_ids
                    (set_base X
                       (_reset_base (set_enabled_repos_field repo_ids s))))
               = _reset_base (set_enabled_repos_field repo_ids s)).
    { intros X. destruct s as [? [?|] ? ? ? ? ? ? ? ? ? ? ? ?];
        destruct X; reflexivity. }
    rewrite !Hsame. reflexivity.
  - simpl. apply Hfields.
  - intros Hsetup. eexists. split; [reflexivity|].
    intros k v Hk. rewrite Hsetup.
    rewrite build_base_conf by exact Hsetup. rewrite Hfields, Hk. reflexivity.
Qed.

(** *** Resolving and building the transaction *)

Lemma split_str_from_without (sep : string) (s : string) :
  Py.has_substring sep s = false ->
  Py.split_str_from sep 0 s = [s].
Proof.
  induction s as [|c s IH]; [reflexivity|].
  cbn [Py.has_substring Py.split_str_from].
  intros H. apply orb_false_iff in H. destruct H as [Hp Hs].
  rewrite Hp, (IH Hs). reflexivity.
Qed.

Lemma resolve_transaction_eq (s s1 : daemon) (b : dnf_base) :
  base s = (s1, Some b) ->
  _resolve_transaction s
  = (set_base (Some (fst (resolve b))) s1,
     match snd (resolve b) with
     | Resolved rc => Ok (rc, [])
     | DepsolveError value => Ok (false, Py.split_str ". " value)
     | ResolveFailed e => Raise e
     end).
Proof.
  intros Hb. apply base_the_base in Hb.
  unfold _resolve_transaction, bind, modify, ret, raise. rewrite Hb.
  destruct (resolve b) as [b' [rc|value|e]]; reflexivity.
Qed.

(** X22: When the library cannot resolve the transaction,
    [build_transaction] does not raise: it returns [False] with the
    text of the error cut at each full stop followed by a space (one
    message when the text has none), and [False] with no message when
    [resolve] returns [False]. In both cases it sends the start and
    the end event and nothing between them. *)
Theorem build_transaction_not_resolved (s s1 : daemon) (b b' : dnf_base)
    (r : resolve_result) :
  base (emit (TransactionEvent "start-build" (PStr NONE)) s) = (s1, Some b) ->
  resolve b = (b', r) ->
  let msgs := match r with
              | DepsolveError value => Py.split_str ". " value
              | _ => []
              end in
  r = Resolved false \/ (exists value, r = DepsolveError value) ->
  exists s',
    build_transaction s
    = (s', Ok (json_dumps (PTuple [PBool false; PList (map PStr msgs)])))
    /\ signals s'
       = (signals s
            ++ [TransactionEvent "start-build" (PStr NONE);
                TransactionEvent "end-build" (PStr NONE)])%list
    /\ _base s' = Some b'
    /\ (forall value, r = DepsolveError value ->
          Py.has_substring ". " value = false -> msgs = [value]).
Proof.
  intros Hbase Hres msgs Hr.
  unfold build_transaction, _build_transaction.
  unfold bind at 1. unfold modify at 1. unfold bind at 1. unfold bind at 1.
  rewrite (resolve_transaction_eq _ s1 b Hbase).
  rewrite Hres. cbn [fst snd]. apply base_frame in Hbase. subst s1.
  destruct Hr as [->|[value ->]].
  - eexists. split; [reflexivity|]. simpl. rewrite <- app_assoc.
    repeat split. intros value [=].
  - eexists. split; [reflexivity|]. simpl. rewrite <- app_assoc.
    repeat split. intros value' [= <-] Hno. subst msgs.
    apply split_str_from_without, Hno.
Qed.

Lemma get_transaction_eq (s : daemon) (b : dnf_base) :
  _base s = Some b ->
  Forall (fun tsi => _active_pkg tsi <> None)
    (match transaction b with Some l => l | None => [] end) ->
  _get_transaction s
  = (s, Ok (transaction_by_action
              (match transaction b with Some l => l | None => [] end))).
Proof.
  intros Hb Hactive.
  unfold _get_transaction, bind, lift. rewrite (the_base_held s b Hb).
  pose proof (get_transaction_list b _ eq_refl Hactive) as Hlist.
  cbv zeta in Hlist. cbv zeta. rewrite Hlist. reflexivity.
Qed.

Lemma listed_flag (tx : list tsi_t) :
  match transaction_by_action tx with [] => false | _ :: _ => true end
  = match tx with [] => false | _ :: _ => true end.
Proof.
  pose proof (transaction_by_action_nil tx) as [H1 H2].
  destruct tx as [|tsi l]; [rewrite H2; reflexivity|].
  destruct (transaction_by_action (tsi :: l)); [|reflexivity].
  discriminate (H1 eq_refl).
Qed.

(** X23: When [resolve] returns [True], [build_transaction] returns [True]
    with the listing of the resolved transaction, and [get_transaction]
    called next returns the same listing; the two flags differ only
    when the library answered [True] for a transaction without items. *)
Theorem build_transaction_then_get_transaction (s s1 : daemon)
    (b b' : dnf_base) :
  base (emit (TransactionEvent "start-build" (PStr NONE)) s) = (s1, Some b) ->
  resolve b = (b', Resolved true) ->
  let tx := match transaction b' with Some l => l | None => [] end in
  Forall (fun tsi => _active_pkg tsi <> None) tx ->
  exists s',
    build_transaction s
    = (s', Ok (json_dumps
                 (PTuple [PBool true; PList (transaction_by_action tx)])))
    /\ get_transaction s'
       = (s', Ok (json_dumps
                    (PTuple [PBool (match tx with [] => false | _ => true end);
                             PList (transaction_by_action tx)])))
    /\ _base s' = Some b'.
Proof.
  intros Hbase Hres tx Hactive.
  unfold build_transaction, _build_transaction.
  unfold bind at 1. unfold modify at 1. unfold bind at 1. unfold bind at 1.
  rewrite (resolve_transaction_eq _ s1 b Hbase).
  rewrite Hres. cbn [fst snd]. unfold bind at 1.
  rewrite get_transaction_eq with (b := b') by (reflexivity || exact Hactive).
  eexists. split; [reflexivity|]. split; [|reflexivity].
  unfold get_transaction, bind.
  rewrite get_transaction_eq with (b := b') by (reflexivity || exact Hactive).
  unfold ret. fold tx. rewrite (listed_flag tx). reflexivity.
Qed.

(** *** Marking packages by spec *)

Lemma mark_on_base_eq (c : mark_call) (s s1 : daemon) (b : dnf_base) :
  base s = (s1, Some b) ->
  mark_on_base c s = (set_base (Some (fst (mark c b))) s1, Ok (snd (mark c b))).
Proof.
  intros Hb. apply base_the_base in Hb.
  unfold mark_on_base, bind, modify, ret. rewrite Hb.
  destruct (mark c b); reflexivity.
Qed.

Lemma mark_specs_stops (call : string -> mark_call) (spec : string)
    (rest : list string) (s s1 : daemon) (b b' : dnf_base) (text : string) :
  base s = (s1, Some b) ->
  mark (call spec) b = (b', PackagesNotInstalledError text) ->
  mark_specs call (spec :: rest) s = (set_base (Some b') s1, Ok tt).
Proof.
  intros Hb Hmark. cbn [mark_specs]. unfold bind.
  rewrite (mark_on_base_eq _ s s1 b Hb), Hmark. reflexivity.
Qed.

(** X24: [remove], [update], [reinstall] and [downgrade] give up marking at
    the first spec for which the library raises
    [PackagesNotInstalledError]: when that is the first spec, the specs
    after it are never marked, and the call is the call with that spec
    alone, which goes on to build the transaction. *)
Theorem remove_stops_at_missing_spec (method : string -> M string)
    (call : string -> mark_call) (spec : string) (rest : list string)
    (s s1 : daemon) (b b' : dnf_base) (text : string) :
  In (method, call) spec_methods ->
  base s = (s1, Some b) ->
  mark (call spec) b = (b', PackagesNotInstalledError text) ->
  Forall (fun f => Py.contains " " f = false) (spec :: rest) ->
  method (Py.join " " (spec :: rest)) s = method spec s
  /\ method spec s = build_transaction (set_base (Some b') s1).
Proof.
  intros Hin Hb Hmark Hspecs.
  assert (Hsplit : Py.split " " (Py.join " " (spec :: rest)) = spec :: rest).
  { apply split_join; [discriminate | exact Hspecs]. }
  assert (Hone : Py.split " " spec = [spec]).
  { apply split_without_sep. inversion Hspecs; assumption. }
  assert (Hmethod : forall cmds,
             method cmds s
             = match mark_specs call (Py.split " " cmds) s with
               | (s', Ok _) => build_transaction s'
               | (s', Raise e) => (s', Raise e)
               end).
  { intros cmds. unfold spec_methods in Hin. simpl in Hin.
    destruct Hin as [H|[H|[H|[H|[]]]]]; injection H as <- <-; reflexivity. }
  rewrite !Hmethod, Hsplit, Hone.
  rewrite (mark_specs_stops call spec rest s s1 b b' text Hb Hmark).
  rewrite (mark_specs_stops call spec [] s s1 b b' text Hb Hmark).
  split; reflexivity.
Qed.

(** X25: [install] goes on after a spec the library cannot mark: when
    [base.install] raises a marking error for the first spec, the
    specs after it are installed as if the call had been made with
    them alone. *)
Theorem install_skips_failing_spec (bad : string) (rest : list string)
    (s s1 : daemon) (b b' : dnf_base) (r : mark_result) :
  base s = (s1, Some b) ->
  Py.endswith ".rpm" bad = false ->
  mark (base_install bad) b = (b', r) ->
  (exists text, r = MarkingError text \/ r = PackagesNotInstalledError text) ->
  rest <> [] ->
  Forall (fun f => Py.contains " " f = false) (bad :: rest) ->
  install (Py.join " " (bad :: rest)) s
  = install (Py.join " " rest) (set_base (Some b') s1).
Proof.
  intros Hb Hrpm Hmark (text & Hr) Hne Hspecs.
  assert (Hsplit : Py.split " " (Py.join " " (bad :: rest)) = bad :: rest).
  { apply split_join; [discriminate | exact Hspecs]. }
  assert (Hrest : Py.split " " (Py.join " " rest) = rest).
  { apply split_join; [exact Hne | inversion Hspecs; assumption]. }
  unfold install. rewrite Hsplit, Hrest.
  cbn [install_specs]. rewrite Hrpm.
  unfold bind at 1. unfold bind at 1. unfold bind at 1.
  rewrite (mark_on_base_eq _ s s1 b Hb), Hmark. cbn [fst snd].
  destruct Hr as [->| ->]; reflexivity.
Qed.

(** *** Adding a package to the transaction *)

Lemma get_po_found (pkg_id : string) (s s1 : daemon) (b : dnf_base)
    (n e v r a repo_id : string) :
  base s = (s1, Some b) ->
  unpack6 pkg_id = Ok (n, e, v, r, a, repo_id) ->
  _get_po pkg_id s
  = (s1, Ok (first_or_none
               (filter_nvra n v r a
                  (if Py.startswith "@" repo_id
                   then installed_pkgs (sack b)
                   else available_pkgs (sack b))))).
Proof.
  intros Hb Hid. apply base_the_base in Hb.
  rewrite get_po_eq, Hid, Hb. unfold _get_po_in. rewrite Hid.
  destruct (Py.startswith "@" repo_id); reflexivity.
Qed.

Lemma get_po_available_found (pkg_id : string) (s : daemon) (b : dnf_base)
    (n e v r a repo_id : string) :
  _base s = Some b ->
  unpack6 pkg_id = Ok (n, e, v, r, a, repo_id) ->
  _get_po_available pkg_id s
  = (s, Ok (first_or_none (filter_nvra n v r a (available_pkgs (sack b))))).
Proof.
  intros Hb Hid. unfold _get_po_available. rewrite Hid.
  unfold bind, lift. rewrite (the_base_held s b Hb).
  unfold _get_po_available_in. rewrite Hid. reflexivity.
Qed.

(** X26: For an action other than [localinstall], [add_transaction] raises
    [ValueError] on an id that is not six fields, and on an id of six
    fields that matches no package it sends one [ErrorMessage], returns
    [False] with that message and leaves the base as it is: the
    library is not asked to mark anything. *)
Theorem add_transaction_unknown_package (pkg_id action : string)
    (s s1 : daemon) (b : dnf_base) :
  String.eqb action "localinstall" = false ->
  base s = (s1, Some b) ->
  (forall e, unpack6 pkg_id = Raise e ->
     add_transaction pkg_id action s = (s, Raise e))
  /\ (forall n e v r a repo_id,
        unpack6 pkg_id = Ok (n, e, v, r, a, repo_id) ->
        filter_nvra n v r a
          (if Py.startswith "@" repo_id
           then installed_pkgs (sack b) else available_pkgs (sack b)) = [] ->
        let msg := "Cant find package object for : " ++ pkg_id in
        add_transaction pkg_id action s
        = (emit (ErrorMessage msg) s1,
           Ok (json_dumps (PTuple [PBool false; PList [PStr msg]])))
        /\ _base (emit (ErrorMessage msg) s1) = Some b).
Proof.
  intros Hlocal Hb. split.
  - intros e He. unfold add_transaction. rewrite Hlocal. cbn [negb].
    unfold bind at 1. rewrite get_po_eq, He. reflexivity.
  - intros n e v r a repo_id Hid Hnone msg.
    unfold add_transaction. rewrite Hlocal. cbn [negb].
    unfold bind at 1.
    rewrite (get_po_found pkg_id s s1 b n e v r a repo_id Hb Hid), Hnone.
    split; [reflexivity|]. apply base_frame in Hb. subst s1. reflexivity.
Qed.

(** X27: For an id of six fields that names a package (an installed one
    when the repo field starts with [@], else an available one),
    [add_transaction] answers [False] with no message, sends nothing
    and leaves the base as it is, when the action is none of the
    seven it knows, and when the action is [reinstall] and no
    available package has the name, version, release and arch of the
    id. *)
Theorem add_transaction_nothing_done (pkg_id action : string)
    (s s1 : daemon) (b : dnf_base) (n e v r a repo_id : string)
    (po : package) :
  base s = (s1, Some b) ->
  unpack6 pkg_id = Ok (n, e, v, r, a, repo_id) ->
  first_or_none
    (filter_nvra n v r a
       (if Py.startswith "@" repo_id
        then installed_pkgs (sack b) else available_pkgs (sack b)))
  = Some po ->
  (action = "reinstall"
   /\ filter_nvra n v r a (available_pkgs (sack b)) = [])
  \/ ~ In action ["install"; "remove"; "update"; "obsolete"; "reinstall";
                  "downgrade"; "localinstall"] ->
  add_transaction pkg_id action s
  = (s1, Ok (json_dumps (PTuple [PBool false; PList []]))).
Proof.
  forget_collaborators.
  intros Hb Hid Hpo Hcase.
  pose proof (base_frame _ _ _ Hb) as Hs1.
  assert (Hheld : _base s1 = Some b) by (subst s1; reflexivity).
  assert (Hlocal : String.eqb action "localinstall" = false).
  { destruct Hcase as [[-> _]|Hnot]; [reflexivity|].
    apply String.eqb_neq. intros ->. apply Hnot. simpl. tauto. }
  unfold add_transaction. rewrite Hlocal. cbn [negb].
  unfold bind at 1.
  rewrite (get_po_found pkg_id s s1 b n e v r a repo_id Hb Hid), Hpo.
  unfold bind at 1. unfold add_transaction_try.
  destruct Hcase as [[-> Hnone]|Hnot].
  - cbn [String.eqb Ascii.eqb Bool.eqb]. unfold bind at 1.
    rewrite (get_po_available_found pkg_id s1 b n e v r a repo_id Hheld Hid).
    rewrite Hnone. reflexivity.
  - assert (Hneq : forall x,
               In x ["install"; "remove"; "update"; "obsolete"; "reinstall";
                     "downgrade"; "localinstall"] ->
               String.eqb action x = false).
    { intros x Hx. apply String.eqb_neq. intros ->. exact (Hnot Hx). }
    rewrite !Hneq by (simpl; tauto). reflexivity.
Qed.

(** X28: [add_transaction] with the action [remove], for an id that names a
    package: when the library marks it, the answer is [True] exactly
    when the count the library returns is not zero, with no message;
    when the library raises [PackagesNotInstalledError], one
    [ErrorMessage] naming the package is sent and the answer is
    [False] with that message. *)
Theorem add_transaction_remove (pkg_id : string) (s s1 : daemon)
    (b b' : dnf_base) (n e v r a repo_id : string) (po : package)
    (res : mark_result) :
  base s = (s1, Some b) ->
  unpack6 pkg_id = Ok (n, e, v, r, a, repo_id) ->
  first_or_none
    (filter_nvra n v r a
       (if Py.startswith "@" repo_id
        then installed_pkgs (sack b) else available_pkgs (sack b)))
  = Some po ->
  mark (base_remove (package_str po)) b = (b', res) ->
  (forall rc, res = Marked rc ->
     add_transaction pkg_id "remove" s
     = (set_base (Some b') s1,
        Ok (json_dumps (PTuple [PBool (negb (Z.eqb rc 0)); PList []]))))
  /\ (forall text, res = PackagesNotInstalledError text ->
        let msg := "package not installed : " ++ package_str po in
        add_transaction pkg_id "remove" s
        = (emit (ErrorMessage msg) (set_base (Some b') s1),
           Ok (json_dumps (PTuple [PBool false; PList [PStr msg]])))).
Proof.
  intros Hb Hid Hpo Hmark.
  pose proof (base_frame _ _ _ Hb) as Hs1.
  assert (Hagain : base s1 = (s1, Some b)).
  { subst s1. rewrite base_eq. reflexivity. }
  assert (Hrun : add_transaction pkg_id "remove" s
                 = match res with
                   | Marked rc =>
                       (set_base (Some b') s1,
                        Ok (json_dumps
                              (PTuple [PBool (negb (Z.eqb rc 0)); PList []])))
                   | PackagesNotInstalledError _ =>
                       (emit (ErrorMessage
                                ("package not installed : " ++ package_str po))
                          (set_base (Some b') s1),
                        Ok (json_dumps
                              (PTuple
                                 [PBool false;
                                  PList [PStr ("package not installed : "
                                               ++ package_str po)]])))
                   | MarkingError text => (set_base (Some b') s1, Raise (Error text))
                   | MarkFailed e0 => (set_base (Some b') s1, Raise e0)
                   end).
  { unfold add_transaction. cbn [String.eqb Ascii.eqb Bool.eqb negb].
    unfold bind at 1.
    rewrite (get_po_found pkg_id s s1 b n e v r a repo_id Hb Hid), Hpo.
    unfold bind at 1. unfold add_transaction_try.
    cbn [String.eqb Ascii.eqb Bool.eqb]. unfold bind at 1.
    rewrite (mark_on_base_eq _ s1 s1 b Hagain). cbn [str_po].
    rewrite Hmark. cbn [fst snd]. unfold ret at 1.
    destruct res as [rc|text|text|e0]; try reflexivity.
    destruct (Z.eqb rc 0); reflexivity. }
  rewrite Hrun. split.
  - intros rc ->. reflexivity.
  - intros text ->. reflexivity.
Qed.

(** *** Lists of packages with attributes *)

Lemma get_action_returns (po : package) (s : daemon) :
  exists s' a, _get_action po s = (s', Ok a).
Proof.
  destruct (the_base_returns s) as (s1 & b & Hthe & Hheld).
  unfold _get_action. unfold bind at 1. rewrite Hthe.
  destruct (Py.startswith "@" (reponame po)); [eexists _, _; reflexivity|].
  destruct (filter_nvra _ _ _ _ _); [|eexists _, _; reflexivity].
  assert (Hobs : exists s' l, _get_obsoletes s1 = (s', Ok l)).
  { unfold _get_obsoletes, bind, gets, modify, ret, id.
    destruct (_obsoletes_list s1) as [[|p l]|];
      rewrite ?(the_base_held s1 b Hheld); eauto. }
  destruct Hobs as (s' & l & Hobs). unfold bind at 1. rewrite Hobs.
  destruct (existsb (pkg_eqb po) l); [eexists _, _; reflexivity|].
  destruct (List.filter _ _); [eexists _, _; reflexivity|].
  destruct (evr_gt _ _); eexists _, _; reflexivity.
Qed.

Lemma get_fake_attributes_returns (po : package) (attr : string) (s : daemon) :
  exists s' v, _get_fake_attributes po attr s = (s', Ok v).
Proof.
  destruct (the_base_returns s) as (s1 & b & Hthe & Hheld).
  unfold _get_fake_attributes.
  destruct (String.eqb attr "action").
  { destruct (get_action_returns po s) as (s' & a & Ha).
    unfold bind. rewrite Ha. eexists _, _. reflexivity. }
  destruct (String.eqb attr "downgrades").
  { unfold bind at 1. unfold _get_downgrades, bind at 1. rewrite Hthe.
    destruct (List.filter _ (installed_pkgs (sack b)));
      [eexists _, _; reflexivity|].
    destruct (evr_eq _ _); [eexists _, _; reflexivity|].
    destruct (evr_lt _ _); eexists _, _; reflexivity. }
  destruct (String.eqb attr "pkgtags"); [eexists _, _; reflexivity|].
  destruct (String.eqb attr "changelog"); [eexists _, _; reflexivity|].
  destruct (String.eqb attr "updateinfo"); [eexists _, _; reflexivity|].
  destruct (String.eqb attr "filelist"); [eexists _, _; reflexivity|].
  destruct (String.eqb attr "requires"); [|eexists _, _; reflexivity].
  unfold bind at 1. unfold _get_requires, bind at 1. rewrite Hthe.
  eexists _, _. reflexivity.
Qed.

Lemma po_list_values_returns (po : package) (attrs : list string) :
  forall po_list s,
    exists s' values,
      po_list_values po attrs po_list s = (s', Ok (po_list ++ values)%list)
      /\ length values = length attrs.
Proof.
  induction attrs as [|attr rest IH]; intros po_list s.
  - exists s, []. rewrite app_nil_r. split; reflexivity.
  - cbn [po_list_values]. unfold bind at 1.
    assert (Hv : exists s1 v,
               (if Py.in_list attr FAKE_ATTR
                then v <- _get_fake_attributes po attr ;; ret (Jsonable v)
                else match pkg_getattr po attr with
                     | Some value => ret value
                     | None => ret (Jsonable PNone)
                     end) s = (s1, Ok v)).
    { destruct (Py.in_list attr FAKE_ATTR).
      - destruct (get_fake_attributes_returns po attr s) as (s1 & v & Hf).
        unfold bind. rewrite Hf. eexists _, _. reflexivity.
      - destruct (pkg_getattr po attr); eexists _, _; reflexivity. }
    destruct Hv as (s1 & v & Hv). rewrite Hv.
    destruct (IH (po_list ++ [v])%list s1) as (s' & values & Hrest & Hlen).
    exists s', (v :: values). rewrite Hrest, <- app_assoc.
    split; [reflexivity | simpl; rewrite Hlen; reflexivity].
Qed.

(** X29: [_get_po_list] never raises. With no attribute asked for it gives
    the bare id of the package, a string; with attributes it gives a
    list that starts with the id and has one value for each attribute. *)
Theorem get_po_list_shape (po : package) (attrs : list string) (s : daemon) :
  exists s' v,
    _get_po_list po attrs s = (s', Ok v)
    /\ (attrs = [] -> v = Jsonable (PStr (_get_id po)) /\ s' = s)
    /\ (attrs <> [] ->
        exists values,
          v = ListOf (Jsonable (PStr (_get_id po)) :: values)
          /\ length values = length attrs).
Proof.
  destruct attrs as [|attr rest].
  - exists s, (Jsonable (PStr (_get_id po))). split; [reflexivity|].
    split; [auto | congruence].
  - destruct (po_list_values_returns po (attr :: rest)
                [Jsonable (PStr (_get_id po))] s)
      as (s' & values & Hv & Hlen).
    unfold _get_po_list, bind. rewrite Hv.
    eexists _, _. split; [reflexivity|].
    split; [discriminate|]. intros _. exists values. split; [reflexivity | exact Hlen].
Qed.

Lemma po_lists_ids (pkgs : list package) (s : daemon) :
  po_lists pkgs [] s
  = (s, Ok (map (fun po => Jsonable (PStr (_get_id po))) pkgs)).
Proof.
  induction pkgs as [|po rest IH]; [reflexivity|].
  cbn [po_lists _get_po_list]. unfold bind, ret. rewrite IH. reflexivity.
Qed.

(** a list of values [json.dumps] prints is printed as their list *)
Lemma to_json_list_of {A} (f : A -> pyval) (l : list A) :
  to_json (ListOf (map (fun x => Jsonable (f x)) l)) = Some (PList (map f l)).
Proof.
  cbn [to_json]. induction l as [|x l IH]; [reflexivity|].
  cbn [map to_json]. cbn [map] in IH.
  destruct ((fix all (l0 : list pyobj) : option (list pyval) :=
               match l0 with
               | [] => Some []
               | x0 :: rest =>
                   match to_json x0, all rest with
                   | Some v, Some vs => Some (v :: vs)
                   | _, _ => None
                   end
               end) (map (fun x0 => Jsonable (f x0)) l)) as [vs|];
    [|discriminate IH].
  injection IH as ->. reflexivity.
Qed.

(** X30: [get_packages] with a filter it does not know returns the JSON text
    of the empty list without reading the base, so that no handle is
    built; with one of its seven filters and no attribute it returns
    the ids of the packages the library lists under that filter. *)
Theorem get_packages_ids (pkg_filter : string) (attrs : list string)
    (s s1 : daemon) (b : dnf_base) :
  base s = (s1, Some b) ->
  (~ In pkg_filter pkg_filters ->
   get_packages pkg_filter attrs s = (s, Ok (json_dumps (PList []))))
  /\ (In pkg_filter pkg_filters ->
      get_packages pkg_filter [] s
      = (s1, Ok (json_dumps
                   (PList (map (fun po => PStr (_get_id po))
                             (packages_attr b pkg_filter)))))).
Proof.
  intros Hb. pose proof (base_frame _ _ _ Hb) as Hs1.
  apply base_the_base in Hb. unfold get_packages, pkg_filters. split.
  - intros Hnot.
    destruct (Py.in_list pkg_filter _) eqn:E; [|reflexivity].
    apply in_list_In in E. contradiction.
  - intros Hin. apply in_list_In in Hin. rewrite Hin.
    unfold bind at 1. rewrite Hb. unfold bind.
    rewrite po_lists_ids. unfold json_dumps_of.
    rewrite to_json_list_of. reflexivity.
Qed.

End DnfDaemonBase.

(* ===================================================================== *)
(** ** The properties on the example data                                *)
(* ===================================================================== *)

Import Fixture.

(** C3 on a daemon fresh from [__init__]: the first call counts to 1. *)
Lemma watchdog_tick_witness :
  _timeout_idle __init__ = 20
  /\ _timeout_locked __init__ = 600
  /\ _watchdog_count (fst (_watchdog __init__)) = 1
  /\ snd (_watchdog __init__) = PBool true.
Proof.
  split; [reflexivity|]. split; [reflexivity|].
  pose proof (watchdog_tick __init__ eq_refl eq_refl) as H.
  cbv zeta in H. destruct (_watchdog __init__) as [s' r].
  destruct H as (_ & H & _).
  destruct (H eq_refl eq_refl) as (H1 & _).
  assert (Hle : _watchdog_count __init__ <= 20) by (simpl; lia).
  destruct (H1 Hle) as (_ & Hc & _ & _ & Hr).
  split; [exact Hc | exact Hr].
Defined.

(** C10 on a key that nobody has been asked about. *)
Lemma handle_gpg_import_unconfirmed_witness :
  _gpg_confirm __init__ !! gi_hexkeyid a_key = None
  /\ snd (_handle_gpg_import a_key __init__) = Ok false
  /\ signals (fst (_handle_gpg_import a_key __init__))
     = [GPGImport (_get_id foo_available) "Fedora" "DEADBEEF"
          "file:///etc/pki/key" 1400000000].
Proof.
  split; [reflexivity|].
  pose proof (handle_gpg_import_unconfirmed a_key __init__) as H.
  cbv zeta in H. destruct (_handle_gpg_import a_key __init__) as [s' r].
  destruct H as (H & _). destruct (H eq_refl) as (Hr & _ & Hs).
  split; [exact Hr | exact Hs].
Defined.

(** C8 on the installed package [foo]. *)
Lemma get_po_of_get_id_witness :
  Py.contains Py.comma (name foo_installed) = false
  /\ Py.contains Py.comma (version foo_installed) = false
  /\ Py.contains Py.comma (release foo_installed) = false
  /\ Py.contains Py.comma (arch foo_installed) = false
  /\ Py.contains Py.comma (ui_from_repo foo_installed) = false
  /\ _get_po fresh setup (_get_id foo_installed) (holding fresh)
     = (holding fresh, Ok (Some foo_installed)).
Proof.
  repeat (split; [reflexivity|]).
  destruct (get_po_of_get_id fresh setup foo_installed (holding fresh)
              eq_refl eq_refl eq_refl eq_refl eq_refl)
    as (_ & s' & b & r & Hbase & Hpo & Hr & _).
  cbn in Hbase. injection Hbase as <- <-.
  rewrite Hpo, Hr. reflexivity.
Defined.

(** C4 on a daemon without a handle, with one cached option and one
    enabled repository recorded. *)
Lemma base_property_lazy_init_witness :
  _base configured = None
  /\ exists b0,
      snd (base fresh setup configured) = Some (setup b0)
      /\ _base (fst (base fresh setup configured)) = Some (setup b0)
      /\ conf b0 !! "debuglevel" = Some (PInt 0).
Proof.
  split; [reflexivity|].
  pose proof (base_property_lazy_init fresh setup configured) as H.
  destruct (base fresh setup configured) as [s' r].
  destruct H as ((Hstored & _) & _ & H).
  destruct (H eq_refl) as (b0 & Hr & _ & Hopt & _).
  exists b0. split; [exact Hr|]. split.
  - simpl. rewrite <- Hstored. exact Hr.
  - apply Hopt. reflexivity.
Defined.

(** C5 on the list that enables [updates] only. *)
Lemma set_enabled_repos_rebuilds_witness :
  exists s' b,
    set_enabled_repos fresh setup ["updates"] __init__ = (s', Ok tt)
    /\ _enabled_repos s' = ["updates"]
    /\ _base s' = Some (setup b)
    /\ forall repo, In repo (repos b) ->
         (repo_enabled repo = true <-> In (repo_id repo) ["updates"]).
Proof.
  destruct (set_enabled_repos_rebuilds fresh setup ["updates"] __init__)
    as (s' & b & Hret & Hstored & Hbase & _ & _ & Hon & _).
  exists s', b. split; [exact Hret|]. split; [exact Hstored|].
  split; [exact Hbase|]. apply Hon. discriminate.
Defined.

(** C5 fails on the empty list: [fedora] is not in the list and is
    enabled in the rebuilt base all the same. *)
Lemma set_enabled_repos_empty_list_keeps_defaults :
  exists s' b repo,
    set_enabled_repos fresh setup [] __init__ = (s', Ok tt)
    /\ _enabled_repos s' = []
    /\ _base s' = Some b
    /\ In repo (repos b)
    /\ ~ In (repo_id repo) []
    /\ repo_enabled repo = true.
Proof.
  eexists _, _, (mkrepo "fedora" true).
  split; [reflexivity|]. split; [reflexivity|]. split; [reflexivity|].
  split; [left; reflexivity|]. split; [intros []|reflexivity].
Qed.



(** C9 on a well-formed id of a package that is not there. *)
Lemma get_attribute_none_witness :
  (exists fields, unpack6 "nosuch,0,1.0,1,noarch,fedora" = Ok fields)
  /\ get_attribute dumps fresh setup same_evr no_providers no_advisories
       "nosuch,0,1.0,1,noarch,fedora" "summary" (holding fresh)
     = (holding fresh, Ok (dumps PNone)).
Proof.
  assert (Hf : exists fields, unpack6 "nosuch,0,1.0,1,noarch,fedora" = Ok fields)
    by (eexists; reflexivity).
  split; [exact Hf|].
  destruct (get_attribute_none dumps fresh setup same_evr no_providers
              no_advisories "nosuch,0,1.0,1,noarch,fedora" "summary"
              (holding fresh) Hf)
    as (s' & b & found & Hbase & Hpo & Hnone & _).
  cbn in Hbase. injection Hbase as <- <-.
  cbv in Hpo. injection Hpo as <-.
  apply Hnone. reflexivity.
Defined.

(** C9 fails on an id that is not six fields: the call raises. *)
Lemma get_attribute_malformed_id_raises :
  get_attribute dumps fresh setup same_evr no_providers no_advisories
    "foo" "name" (holding fresh)
  = (holding fresh, Raise (ValueError "wrong number of values to unpack"))
  /\ ~ (exists s',
          get_attribute dumps fresh setup same_evr no_providers no_advisories
            "foo" "name" (holding fresh)
          = (s', Ok (dumps PNone))).
Proof.
  split; [reflexivity|]. intros (s' & H). cbv in H. discriminate H.
Qed.

(** [get_attribute] for the attribute [__class__], which every
    package has and [json.dumps] cannot print: the call raises. *)
Example get_attribute_class_raises :
  get_attribute dumps fresh setup same_evr no_providers no_advisories
    (_get_id foo_installed) "__class__" (holding fresh)
  = (holding fresh, Raise (TypeError "is not JSON serializable")).
Proof. vm_compute. reflexivity. Qed.

(** C2 on a transaction of three items. *)
Lemma get_transaction_by_action_witness :
  Forall (fun tsi => _active_pkg tsi <> None) three_items
  /\ get_transaction dumps fresh setup (holding (mkbase (Some three_items) []))
     = (holding (mkbase (Some three_items) []),
        Ok (dumps
              (PTuple
                 [PBool true;
                  PList
                    [PList [PStr "install";
                            PList [tx_triple (tsi_install bar_available)]];
                     PList [PStr "update";
                            PList [tx_triple
                                     (tsi_upgrade foo_available foo_installed)]];
                     PList [PStr "remove";
                            PList [tx_triple (tsi_erase foo_installed)]]]]))).
Proof.
  assert (Hactive : Forall (fun tsi => _active_pkg tsi <> None) three_items)
    by (repeat constructor; discriminate).
  split; [exact Hactive|].
  destruct (get_transaction_by_action dumps fresh setup
              (holding (mkbase (Some three_items) [])))
    as (s' & b & Hbase & H).
  cbn in Hbase. injection Hbase as <- <-.
  destruct (H Hactive) as (rc & trans & Hret & Hrc & Htrans & _).
  assert (Htrue : rc = true) by (apply Hrc; discriminate).
  rewrite Hret, Htrue, Htrans. reflexivity.
Defined.

(** C7 on a history in the order the library lists it, newest first:
    of a transaction that ended a day ago, one that has not ended and
    one that ended ten days ago, the first is kept for days 0 to 5. *)
Lemma get_history_by_days_kept_witness :
  get_history_by_days dumps fresh setup utc iso today 0 5
    (holding (mkbase None recent_history))
  = (holding (mkbase None recent_history),
     Ok (dumps (PList [id_time utc iso (ended_days_ago 3 1)]))).
Proof.
  destruct (get_history_by_days_kept dumps fresh setup utc iso today 0 5
              (holding (mkbase None recent_history)))
    as (s' & b & kept & Hbase & Hret & Hkept & _).
  cbn in Hbase. injection Hbase as <- <-.
  rewrite Hret, Hkept. reflexivity.
Defined.

(** C7 fails on a history that lists an older transaction first: the
    loop stops at the transaction that ended ten days ago and returns
    nothing, although the next one ended a day ago and qualifies. *)
Lemma get_history_by_days_stops_early :
  get_history_by_days dumps fresh setup utc iso today 0 5
    (holding (mkbase None older_first))
  = (holding (mkbase None older_first), Ok (dumps (PList [])))
  /\ List.filter (qualifies utc today 0 5) older_first
     = [ended_days_ago 1 1].
Proof. split; reflexivity. Qed.

(** C1 on a transaction that installs [bar] when the download fails
    with an error map. *)
Lemma run_transaction_outcome_witness :
  base fresh setup
    (emit (TransactionEvent "start-run" (PStr (NONE dumps))) installing_bar)
  = (emit (TransactionEvent "start-run" (PStr (NONE dumps))) installing_bar,
     Some (mkbase (Some [tsi_install bar_available]) []))
  /\ transaction (mkbase (Some [tsi_install bar_available]) [])
     = Some [tsi_install bar_available]
  /\ run_transaction dumps fresh setup failing_download all_signed no_keys
       no_failure installing_bar
     = (run_transaction_end dumps (download_started installing_bar),
        Ok (dumps (PTuple [PInt 4;
                           PList [PStr "foo.rpm : timeout";
                                  PStr "foo.rpm : checksum"]]))).
Proof.
  split; [reflexivity|]. split; [reflexivity|].
  destruct (run_transaction_outcome dumps fresh setup failing_download
              all_signed no_keys no_failure installing_bar _ _ _
              eq_refl eq_refl)
    as (_ & Hdownload & _).
  destruct (Hdownload (download_started installing_bar) two_messages
              "download failed" eq_refl) as ((Hret & _) & _).
  exact Hret.
Defined.

(** C1 fails where it counts one line for each entry of the error map:
    an entry with two messages gives two lines. *)
Lemma run_transaction_two_lines_for_one_entry :
  exists s' msgs,
    run_transaction dumps fresh setup failing_download all_signed no_keys
      no_failure installing_bar
    = (s', Ok (dumps (PTuple [PInt 4; PList (map PStr msgs)])))
    /\ msgs = download_error_msgs two_messages
    /\ length msgs = 2%nat
    /\ length two_messages = 1%nat.
Proof.
  exists (run_transaction_end dumps (download_started installing_bar)),
    ["foo.rpm : timeout"; "foo.rpm : checksum"].
  repeat split.
Qed.

(* ===================================================================== *)
(** ** The further properties on the example data                        *)
(* ===================================================================== *)

(** X1 on the example data. *)
Lemma get_id_identifies_witness :
  comma_free foo_installed /\ comma_free foo_again
  /\ _get_id foo_installed = _get_id foo_again
  /\ epoch foo_installed = epoch foo_again.
Proof.
  assert (H1 : comma_free foo_installed) by (repeat split).
  assert (H2 : comma_free foo_again) by (repeat split).
  split; [exact H1|]. split; [exact H2|]. split; [reflexivity|].
  apply (get_id_identifies foo_installed foo_again H1 H2 eq_refl).
Defined.

(** X2 on the example data. *)
Lemma run_transaction_unresolved_witness :
  transaction fresh = None
  /\ run_transaction dumps fresh setup failing_download all_signed no_keys
       no_failure (holding fresh)
     = (emit (TransactionEvent "start-run" (PStr (NONE dumps))) (holding fresh),
        Raise (TypeError "'NoneType' object is not iterable")).
Proof.
  split; [reflexivity|].
  apply (run_transaction_unresolved dumps fresh setup failing_download
           all_signed no_keys no_failure (holding fresh) _ fresh
           eq_refl eq_refl).
Defined.

(** X3 on the example data. *)
Lemma run_transaction_nothing_to_download_witness :
  Forall (fun tsi => installed tsi = None) [tsi_erase foo_installed]
  /\ no_failure (mkbase (Some [tsi_erase foo_installed]) []) = None
  /\ exists s',
      run_transaction dumps fresh setup failing_download all_signed no_keys
        no_failure erasing_foo
      = (s', Ok (dumps (PTuple [PInt 0; PList []])))
      /\ length (signals s') = 3%nat.
Proof.
  assert (H : Forall (fun tsi => installed tsi = None) [tsi_erase foo_installed])
    by (repeat constructor).
  split; [exact H|]. split; [reflexivity|].
  destruct (run_transaction_nothing_to_download dumps fresh setup
              failing_download all_signed no_keys no_failure erasing_foo _ _ _
              eq_refl eq_refl H eq_refl) as (s' & Hrun & Hsig & _).
  exists s'. split; [exact Hrun|]. rewrite Hsig. reflexivity.
Defined.

(** X4 on the example data. *)
Lemma run_transaction_uncaught_witness :
  (packages_to_download [tsi_install bar_available] <> [] ->
   downloads_all (mkbase (Some [tsi_install bar_available]) [])
     (packages_to_download [tsi_install bar_available]) = None)
  /\ Forall (fun po =>
               fst (all_signed (mkbase (Some [tsi_install bar_available]) [])
                      po) = 0)
       (packages_to_download [tsi_install bar_available])
  /\ disk_full (mkbase (Some [tsi_install bar_available]) [])
     = Some (ValueError "disk full")
  /\ is_dnf_Error (ValueError "disk full") = false
  /\ exists s',
      run_transaction dumps fresh setup downloads_all all_signed no_keys
        disk_full installing_bar
      = (s', Raise (ValueError "disk full"))
      /\ signals s'
         = [TransactionEvent "start-run" (PStr (dumps PNone));
            TransactionEvent "pkg-to-download"
              (PList [PStr (_get_id bar_available)]);
            TransactionEvent "download" (PStr (dumps PNone));
            TransactionEvent "signature-check" (PStr (dumps PNone));
            TransactionEvent "run-transaction" (PStr (dumps PNone))]
      /\ _can_quit s' = false.
Proof.
  assert (Hdl : packages_to_download [tsi_install bar_available] <> [] ->
                downloads_all (mkbase (Some [tsi_install bar_available]) [])
                  (packages_to_download [tsi_install bar_available]) = None)
    by (intros _; reflexivity).
  assert (Hsig : Forall (fun po =>
                           fst (all_signed
                                  (mkbase (Some [tsi_install bar_available]) [])
                                  po) = 0)
                   (packages_to_download [tsi_install bar_available]))
    by (repeat constructor).
  split; [exact Hdl|]. split; [exact Hsig|].
  split; [reflexivity|]. split; [reflexivity|].
  destruct (run_transaction_uncaught dumps fresh setup downloads_all
              all_signed no_keys disk_full installing_bar _ _ _
              (ValueError "disk full") eq_refl eq_refl Hdl Hsig eq_refl eq_refl
              (fun t H => match H with end)) as (s' & Hrun & Hsg & Hq & _).
  exists s'. split; [exact Hrun|]. split; [exact Hsg | exact Hq].
Defined.

(** X6 on the example data. *)
Lemma check_gpg_signatures_all_verified_witness :
  Forall (fun po => fst (all_signed fresh po) = 0) [foo_available; bar_available]
  /\ _check_gpg_signatures fresh setup all_signed no_keys
       [foo_available; bar_available] (holding fresh)
     = (holding fresh, Ok 0).
Proof.
  assert (H : Forall (fun po => fst (all_signed fresh po) = 0)
                [foo_available; bar_available]) by (repeat constructor).
  split; [exact H|].
  apply (check_gpg_signatures_all_verified fresh setup all_signed no_keys
           _ (holding fresh) fresh eq_refl H).
Defined.

(** X7 on the example data. *)
Lemma watchdog_quits_after_limit_witness :
  _watchdog_disabled __init__ = false /\ _is_working __init__ = false
  /\ _can_quit __init__ = true
  /\ watchdog_ticks 22 __init__
     = (mainloop_quit (_reset_base (set_watchdog_count 21 __init__)), PNone).
Proof.
  repeat (split; [reflexivity|]).
  assert (Hle : _watchdog_count __init__
                <= (if lock_held __init__ then _timeout_locked __init__
                    else _timeout_idle __init__) + 1) by (simpl; lia).
  destruct (watchdog_quits_after_limit __init__ eq_refl eq_refl eq_refl Hle)
    as (_ & H).
  exact H.
Defined.

(** X9 on the example data. *)
Lemma get_history_by_days_newest_first_witness :
  StronglySorted (not_older utc today) recent_history
  /\ get_history_by_days dumps fresh setup utc iso today 0 5
       (holding (mkbase None recent_history))
     = (holding (mkbase None recent_history),
        Ok (dumps (PList [id_time utc iso (ended_days_ago 3 1)]))).
Proof.
  assert (H : StronglySorted (not_older utc today) recent_history).
  { repeat constructor; unfold not_older; intros H1 H2;
      try discriminate H1; try discriminate H2; vm_compute; discriminate. }
  split; [exact H|].
  apply (get_history_by_days_newest_first dumps fresh setup utc iso today 0 5
           (holding (mkbase None recent_history)) _ _ eq_refl H).
Defined.

(** X10 on the example data. *)
Lemma get_history_by_days_empty_interval_witness :
  5 < 7
  /\ get_history_by_days dumps fresh setup utc iso today 7 5
       (holding (mkbase None recent_history))
     = (holding (mkbase None recent_history), Ok (dumps (PList []))).
Proof.
  assert (H : 5 < 7) by lia.
  split; [exact H|].
  apply (get_history_by_days_empty_interval dumps fresh setup utc iso today 7 5
           (holding (mkbase None recent_history)) _ _ eq_refl H).
Defined.

(** X11 on the example data. *)
Lemma history_search_results_witness :
  finds_two (mkbase None recent_history) ["foo"] <> []
  /\ Exists (fun ht => end_timestamp ht = None)
       (old_of (mkbase None recent_history) [3; 2])
  /\ history_search dumps fresh setup utc iso finds_two old_of ["foo"]
       (holding (mkbase None recent_history))
     = (holding (mkbase None recent_history),
        Raise (TypeError "an integer is required (got type NoneType)")).
Proof.
  assert (H1 : finds_two (mkbase None recent_history) ["foo"] <> [])
    by discriminate.
  assert (H2 : Exists (fun ht => end_timestamp ht = None)
                 (old_of (mkbase None recent_history) [3; 2]))
    by (right; left; reflexivity).
  split; [exact H1|]. split; [exact H2|].
  destruct (history_search_results dumps fresh setup utc iso finds_two old_of
              ["foo"] (holding (mkbase None recent_history)) _ _ eq_refl)
    as (_ & _ & H).
  exact (H H1 H2).
Defined.

(** X12 on the example data. *)
Lemma get_transaction_lists_each_item_once_witness :
  Forall (fun tsi => _active_pkg tsi <> None) three_items
  /\ exists rc trans,
      get_transaction dumps fresh setup (holding (mkbase (Some three_items) []))
      = (holding (mkbase (Some three_items) []),
         Ok (dumps (PTuple [PBool rc; PList trans])))
      /\ length (listed_triples trans) = 3%nat.
Proof.
  assert (H : Forall (fun tsi => _active_pkg tsi <> None) three_items)
    by (repeat constructor; discriminate).
  split; [exact H|].
  destruct (get_transaction_lists_each_item_once dumps fresh setup
              (holding (mkbase (Some three_items) [])) _ _ eq_refl H)
    as (rc & trans & Hret & Hperm).
  exists rc, trans. split; [exact Hret|].
  rewrite (Permutation_length Hperm). reflexivity.
Defined.

(** X14 on the example data. *)
Lemma get_action_answers_witness :
  Py.startswith "@" (reponame foo_installed) = true
  /\ _get_action fresh setup same_evr foo_installed (holding fresh)
     = (holding fresh, Ok "remove").
Proof.
  split; [reflexivity|].
  destruct (get_action_answers fresh setup same_evr foo_installed
              (holding fresh) _ _ eq_refl)
    as (s' & a & Hret & _ & Hremove & Hsame & _).
  rewrite Hret, (Hsame eq_refl), (proj2 Hremove eq_refl). reflexivity.
Defined.

(** X15 on the example data. *)
Lemma get_downgrades_same_name_arch_witness :
  (forall p, In p (installed_pkgs (sack fresh)) ->
     ~ (name p = name bar_available /\ arch p = arch bar_available))
  /\ _get_downgrades fresh setup same_evr bar_available (holding fresh)
     = (holding fresh, Ok []).
Proof.
  assert (H : forall p, In p (installed_pkgs (sack fresh)) ->
                ~ (name p = name bar_available /\ arch p = arch bar_available)).
  { intros p [<-|[]] [Hn _]. discriminate Hn. }
  split; [exact H|].
  destruct (get_downgrades_same_name_arch fresh setup same_evr bar_available
              (holding fresh) _ _ eq_refl) as (ids & Hret & _ & Hnone).
  rewrite Hret, (Hnone H). reflexivity.
Defined.

(** X16 on the example data. *)
Lemma get_requires_keys_witness :
  exists d,
    _get_requires fresh setup foo_provides needy (holding fresh)
    = (holding fresh, Ok d)
    /\ List.NoDup (map fst d)
    /\ (In "libfoo" (map fst d) /\ In "bar" (map fst d))
    /\ ~ In "rpmlib(CompressedFileNames)" (map fst d).
Proof.
  destruct (get_requires_keys fresh setup foo_provides needy (holding fresh)
              _ _ eq_refl) as (d & Hret & Hnd & Hkeys & _).
  exists d. split; [exact Hret|]. split; [exact Hnd|]. split.
  - split; apply Hkeys; (split; [simpl; tauto | split; reflexivity]).
  - intros Hin. apply Hkeys in Hin. destruct Hin as (_ & _ & Hr).
    discriminate Hr.
Defined.




(** X20 on the example data. *)
Lemma set_enabled_repos_then_get_repositories_witness :
  (forall b, repos (setup b) = repos b)
  /\ ["updates"; "nosuchrepo"] <> []
  /\ exists s',
      set_enabled_repos fresh setup ["updates"; "nosuchrepo"] __init__
      = (s', Ok tt)
      /\ get_repositories fresh setup match_all "enabled" s'
         = (s', Ok ["updates"]).
Proof.
  split; [intros b; reflexivity|]. split; [discriminate|].
  destruct (set_enabled_repos_then_get_repositories fresh setup match_all
              ["updates"; "nosuchrepo"] __init__ (fun b => eq_refl)
              (fun H => match H with end))
    as (s' & Hset & Hget & _).
  exists s'. split; [exact Hset | exact Hget].
Defined.

(** X21 on the example data. *)
Lemma set_enabled_repos_twice_witness :
  exists s1,
    set_enabled_repos fresh setup ["updates"] configured = (s1, Ok tt)
    /\ set_enabled_repos fresh setup ["updates"] s1 = (s1, Ok tt)
    /\ _config_options s1 = _config_options configured.
Proof.
  eexists. split; [reflexivity|].
  destruct (set_enabled_repos_twice fresh setup ["updates"] configured _
              eq_refl) as (H1 & H2 & _).
  split; [exact H1 | exact H2].
Defined.

(** X22 on the example data. *)
Lemma build_transaction_not_resolved_witness :
  unsolvable fresh
  = (fresh, DepsolveError "nothing provides bar. package foo needs bar")
  /\ exists s',
      build_transaction dumps fresh setup unsolvable (holding fresh)
      = (s', Ok (dumps (PTuple [PBool false;
                                PList [PStr "nothing provides bar";
                                       PStr "package foo needs bar"]])))
      /\ length (signals s') = 2%nat.
Proof.
  split; [reflexivity|].
  destruct (build_transaction_not_resolved dumps fresh setup unsolvable
              (holding fresh) _ fresh fresh
              (DepsolveError "nothing provides bar. package foo needs bar")
              eq_refl eq_refl (or_intror (ex_intro _ _ eq_refl)))
    as (s' & Hret & Hsig & _).
  exists s'. split; [exact Hret|]. rewrite Hsig. reflexivity.
Defined.

(** X23 on the example data. *)
Lemma build_transaction_then_get_transaction_witness :
  solved fresh = (mkbase (Some three_items) [], Resolved true)
  /\ Forall (fun tsi => _active_pkg tsi <> None) three_items
  /\ exists s' text,
      build_transaction dumps fresh setup solved (holding fresh)
      = (s', Ok text)
      /\ get_transaction dumps fresh setup s' = (s', Ok text).
Proof.
  assert (H : Forall (fun tsi => _active_pkg tsi <> None) three_items)
    by (repeat constructor; discriminate).
  split; [reflexivity|]. split; [exact H|].
  destruct (build_transaction_then_get_transaction dumps fresh setup solved
              (holding fresh) _ fresh (mkbase (Some three_items) [])
              eq_refl eq_refl H) as (s' & Hbuild & Hget & _).
  exists s'. eexists. split; [exact Hbuild | exact Hget].
Defined.

(** X24 on the example data. *)
Lemma remove_stops_at_missing_spec_witness :
  nothing_installed (base_remove "foo") fresh
  = (fresh, PackagesNotInstalledError "not installed")
  /\ Forall (fun f => Py.contains " " f = false) ["foo"; "bar"; "baz"]
  /\ remove dumps fresh setup nothing_installed unsolvable "foo bar baz"
       (holding fresh)
     = remove dumps fresh setup nothing_installed unsolvable "foo"
         (holding fresh).
Proof.
  assert (H : Forall (fun f => Py.contains " " f = false) ["foo"; "bar"; "baz"])
    by (repeat constructor).
  split; [reflexivity|]. split; [exact H|].
  destruct (remove_stops_at_missing_spec dumps fresh setup nothing_installed
              unsolvable _ _ "foo" ["bar"; "baz"] (holding fresh) _ fresh fresh
              "not installed" (or_introl eq_refl) eq_refl eq_refl H)
    as (Hsame & _).
  exact Hsame.
Defined.

(** X25 on the example data. *)
Lemma install_skips_failing_spec_witness :
  Py.endswith ".rpm" "nosuch" = false
  /\ nothing_known (base_install "nosuch") fresh
     = (fresh, MarkingError "no match")
  /\ Forall (fun f => Py.contains " " f = false) ["nosuch"; "foo"]
  /\ install dumps fresh setup nothing_known no_rpm unsolvable "nosuch foo"
       (holding fresh)
     = install dumps fresh setup nothing_known no_rpm unsolvable "foo"
         (set_base (Some fresh) (holding fresh)).
Proof.
  assert (H : Forall (fun f => Py.contains " " f = false) ["nosuch"; "foo"])
    by (repeat constructor).
  split; [reflexivity|]. split; [reflexivity|]. split; [exact H|].
  apply (install_skips_failing_spec dumps fresh setup nothing_known no_rpm
           unsolvable "nosuch" ["foo"] (holding fresh) _ fresh fresh
           (MarkingError "no match") eq_refl eq_refl eq_refl
           (ex_intro _ "no match" (or_introl eq_refl))
           (fun Hnil => match Hnil with end) H).
Defined.

(** X26 on the example data. *)
Lemma add_transaction_unknown_package_witness :
  String.eqb "install" "localinstall" = false
  /\ unpack6 "nosuch,0,1.0,1,noarch,fedora"
     = Ok ("nosuch", "0", "1.0", "1", "noarch", "fedora")
  /\ add_transaction dumps fresh setup marks_one no_rpm name_of
       "nosuch,0,1.0,1,noarch,fedora" "install" (holding fresh)
     = (emit (ErrorMessage
                "Cant find package object for : nosuch,0,1.0,1,noarch,fedora")
          (holding fresh),
        Ok (dumps
              (PTuple
                 [PBool false;
                  PList [PStr "Cant find package object for : nosuch,0,1.0,1,noarch,fedora"]]))).
Proof.
  split; [reflexivity|]. split; [reflexivity|].
  destruct (add_transaction_unknown_package dumps fresh setup marks_one no_rpm
              name_of "nosuch,0,1.0,1,noarch,fedora" "install" (holding fresh)
              _ fresh eq_refl eq_refl) as (_ & H).
  destruct (H "nosuch" "0" "1.0" "1" "noarch" "fedora" eq_refl eq_refl)
    as (Hret & _).
  exact Hret.
Defined.

(** X27 on the example data. *)
Lemma add_transaction_nothing_done_witness :
  unpack6 (_get_id foo_installed)
  = Ok ("foo", "0", "1.0", "1.fc20", "noarch", "@System")
  /\ filter_nvra "foo" "1.0" "1.fc20" "noarch" (available_pkgs (sack fresh)) = []
  /\ add_transaction dumps fresh setup marks_one no_rpm name_of
       (_get_id foo_installed) "reinstall" (holding fresh)
     = (holding fresh, Ok (dumps (PTuple [PBool false; PList []]))).
Proof.
  split; [reflexivity|]. split; [reflexivity|].
  apply (add_transaction_nothing_done dumps fresh setup marks_one no_rpm
           name_of (_get_id foo_installed) "reinstall" (holding fresh) _ fresh
           "foo" "0" "1.0" "1.fc20" "noarch" "@System" foo_installed
           eq_refl eq_refl eq_refl (or_introl (conj eq_refl eq_refl))).
Defined.

(** X28 on the example data. *)
Lemma add_transaction_remove_witness :
  nothing_installed (base_remove (name_of foo_installed)) fresh
  = (fresh, PackagesNotInstalledError "not installed")
  /\ add_transaction dumps fresh setup nothing_installed no_rpm name_of
       (_get_id foo_installed) "remove" (holding fresh)
     = (emit (ErrorMessage "package not installed : foo")
          (set_base (Some fresh) (holding fresh)),
        Ok (dumps (PTuple [PBool false;
                           PList [PStr "package not installed : foo"]]))).
Proof.
  split; [reflexivity|].
  destruct (add_transaction_remove dumps fresh setup nothing_installed no_rpm
              name_of (_get_id foo_installed) (holding fresh) _ fresh fresh
              "foo" "0" "1.0" "1.fc20" "noarch" "@System" foo_installed
              (PackagesNotInstalledError "not installed")
              eq_refl eq_refl eq_refl eq_refl) as (_ & H).
  exact (H "not installed" eq_refl).
Defined.

(** X29 on the example data. *)
Lemma get_po_list_shape_witness :
  ["size"; "action"] <> []
  /\ exists s' values,
      _get_po_list fresh setup same_evr no_providers no_advisories
        foo_installed ["size"; "action"] (holding fresh)
      = (s', Ok (ListOf (Jsonable (PStr (_get_id foo_installed)) :: values)))
      /\ length values = 2%nat.
Proof.
  split; [discriminate|].
  destruct (get_po_list_shape fresh setup same_evr no_providers no_advisories
              foo_installed ["size"; "action"] (holding fresh))
    as (s' & v & Hret & _ & Hshape).
  destruct (Hshape (fun H => match H with end)) as (values & -> & Hlen).
  exists s', values. split; [exact Hret | exact Hlen].
Defined.

(** X30 on the example data. *)
Lemma get_packages_ids_witness :
  In "installed" pkg_filters
  /\ ~ In "everything" pkg_filters
  /\ get_packages dumps fresh setup same_evr no_providers no_advisories
       installed_list "installed" [] (holding fresh)
     = (holding fresh, Ok (dumps (PList [PStr (_get_id foo_installed)])))
  /\ get_packages dumps fresh setup same_evr no_providers no_advisories
       installed_list "everything" ["size"] __init__
     = (__init__, Ok (dumps (PList []))).
Proof.
  assert (H1 : In "installed" pkg_filters) by (left; reflexivity).
  assert (H2 : ~ In "everything" pkg_filters).
  { unfold pkg_filters. simpl. intros H.
    repeat (destruct H as [H|H]; [discriminate H|]). exact H. }
  split; [exact H1|]. split; [exact H2|]. split.
  - destruct (get_packages_ids dumps fresh setup same_evr no_providers
                no_advisories installed_list "installed" [] (holding fresh)
                _ fresh eq_refl) as (_ & H).
    exact (H H1).
  - destruct (get_packages_ids dumps fresh setup same_evr no_providers
                no_advisories installed_list "everything" ["size"] __init__
                _ _ eq_refl) as (H & _).
    exact (H H2).
Defined.
